(** * Multi-headed attention orchestrator of TurboTransformers

    A shallow embedding of
    [turbo_transformers/layers/multi_headed_attention.cpp]:
    [MultiHeadedAttention::operator()] validates its operands, picks the
    attention variant, and drives the numeric kernels over scratch tensors
    that live in function-local [static] slots, writing the result through
    the caller's [output] pointer.

    The operands are C++ references and the output is a pointer, so the
    caller's tensors live in a heap addressed by locations and the call is a
    computation over a state (caller heap, scratch arena); an exception
    leaves the state as it was at the throw.  The numeric kernels, the tensor
    class and the scalar type are not part of the translated file: they form
    the interfaces [Scalar] and [Kernels] below. *)

From stdpp Require Import base gmap strings list.
From Stdlib Require Import ZArith QArith Lia.

Local Open Scope Z_scope.

(** ** Devices and tensors *)

(** The two device types the library runs on. *)
Inductive DLDeviceType := kDLCPU | kDLGPU.

(** [device_ctx()]: device type and device id. *)
Record DLContext := mkDLContext { device_type : DLDeviceType; device_id : Z }.

#[global] Instance DLDeviceType_eq_dec : EqDecision DLDeviceType.
Proof. solve_decision. Defined.

#[global] Instance DLDeviceType_countable : Countable DLDeviceType.
Proof.
  refine (inj_countable' (fun d => match d with kDLCPU => false | kDLGPU => true end)
                         (fun b : bool => if b then kDLGPU else kDLCPU) _).
  intros []; reflexivity.
Defined.

#[global] Instance DLContext_eq_dec : EqDecision DLContext.
Proof. solve_decision. Defined.

#[global] Instance DLContext_countable : Countable DLContext.
Proof.
  refine (inj_countable' (fun c => (device_type c, device_id c))
                         (fun p => mkDLContext (fst p) (snd p)) _).
  intros []; reflexivity.
Defined.

(** Modelled from the spec: [is_same_device_ctx] compares two contexts for
    equality (same device type and same device id). *)
Definition is_same_device_ctx (a b : DLContext) : bool := bool_decide (a = b).

(** A tensor: shape, device context and the contiguous buffer. *)
Record Tensor (F : Type) := mkTensor {
  shape : list Z;
  device_ctx : DLContext;
  data : list F
}.
Arguments mkTensor {F} _ _ _.
Arguments shape {F} _.
Arguments device_ctx {F} _.
Arguments data {F} _.

(** The scalar type of the buffers ([float] in the source) with the
    operations the orchestrator itself performs on it, and the contents of
    freshly allocated storage. *)
Class Scalar (F : Type) := {
  fzero : F;                  (* 0.0 *)
  fone : F;                   (* 1.0 *)
  f1e_6 : F;                  (* 1e-6 *)
  of_int64 : Z -> F;          (* static_cast<float> *)
  fsqrt : F -> F;             (* std::sqrt *)
  fdiv : F -> F -> F;         (* operator/ *)
  uninit : Z -> list F        (* storage of n elements, not yet written *)
}.

Section TensorOps.
Context {F : Type} `{Scalar F}.

(** A tensor constructed from [nullptr]. *)
Definition null_tensor : Tensor F := mkTensor [] (mkDLContext kDLCPU 0) [].

#[global] Instance Tensor_inhabited : Inhabited (Tensor F) := populate null_tensor.

Definition n_dim (t : Tensor F) : Z := Z.of_nat (length (shape t)).

(** [shape(i)] for a non-negative index. *)
Definition shape_at (t : Tensor F) (i : nat) : Z := nth i (shape t) 0.

Definition with_data (t : Tensor F) (d : list F) : Tensor F :=
  mkTensor (shape t) (device_ctx t) d.

(** Number of elements of a shape. *)
Definition numel (shape_list : list Z) : Z := fold_right Z.mul 1 shape_list.

(** Modelled from the spec: sub-tensor [i] of the leading dimension, a view
    of the owner's buffer. *)
Definition slice (t : Tensor F) (i : nat) : Tensor F :=
  let n := Z.to_nat (numel (tail (shape t))) in
  mkTensor (tail (shape t)) (device_ctx t) (firstn n (skipn (i * n)%nat (data t))).
End TensorOps.

(** ** Failures *)

(** Modelled from the spec: the error taxonomy that [TT_ENFORCE_EQ] and
    [TT_THROW] surface; each failure carries the message of the source.
    [ArithmeticFault] stands for the integer division by zero at the
    head-size computation.  The spec's [KernelError], raised inside a
    kernel, has no counterpart: the kernels are not part of the translated
    file and are taken to return. *)
Inductive error :=
| ShapeError (msg : string)
| DeviceMismatchError (msg : string)
| InvalidArgument (msg : string)
| ArithmeticFault.

#[global] Instance error_eq_dec : EqDecision error.
Proof. solve_decision. Defined.

Inductive outcome (A : Type) :=
| Returns (a : A)
| Throws (e : error).
Arguments Returns {A} _.
Arguments Throws {A} _.

(** Modelled from the spec: a successful [Reshape] sets shape and device,
    keeps the storage when its capacity suffices and allocates otherwise,
    without copying prior contents. *)
Definition reshaped {F} `{Scalar F} (t : Tensor F) (shape_list : list Z)
    (devtype : DLDeviceType) (devid : Z) : Tensor F :=
  mkTensor shape_list (mkDLContext devtype devid)
    (if Z.of_nat (length (data t)) <? numel shape_list
     then uninit (numel shape_list) else data t).

Definition all_positive (shape_list : list Z) : bool :=
  forallb (fun d => 0 <? d) shape_list.

(** Modelled from the spec: [Reshape] fails with [ShapeError] when the shape
    has a non-positive dimension. *)
Definition Reshape {F} `{Scalar F} (t : Tensor F) (shape_list : list Z)
    (devtype : DLDeviceType) (devid : Z) : outcome (Tensor F) :=
  if all_positive shape_list then Returns (reshaped t shape_list devtype devid)
  else Throws (ShapeError "Reshape: non-positive dimension").

(** ** The numeric kernels

    The kernels are implemented elsewhere in the library.  Each one reads its
    operand tensors and overwrites the buffer of its output tensor; here a
    kernel is the function from its operands (and the output tensor as it is
    before the call) to the new contents of that buffer.  A kernel call is
    taken to return; what a kernel does with operands it refuses is outside
    the translated file. *)
Class Kernels (F : Type) := {
  (* MatMul(A, a_trans, B, b_trans, alpha, out, beta) *)
  MatMul : Tensor F -> bool -> Tensor F -> bool -> F -> Tensor F -> F -> list F;
  (* BatchMatMul(A, a_trans, B, b_trans, alpha, out, beta) *)
  BatchMatMul : Tensor F -> bool -> Tensor F -> bool -> F -> Tensor F -> F -> list F;
  (* LayerNorm(gamma, beta, out, eps) *)
  LayerNorm : Tensor F -> Tensor F -> Tensor F -> F -> list F;
  (* ApplyMaskAndSoftmax(inout, att_mask, scale) *)
  ApplyMaskAndSoftmax : Tensor F -> Tensor F -> F -> list F;
  (* AddBiasTransposeForScore(input, bias, out) *)
  AddBiasTransposeForScore : Tensor F -> Tensor F -> Tensor F -> list F;
  (* SplitAddBiasTransposeForScore(out, input, bias) *)
  SplitAddBiasTransposeForScore : Tensor F -> Tensor F -> Tensor F -> list F;
  (* TransposeForScore(out, input) *)
  TransposeForScore : Tensor F -> Tensor F -> list F;
  (* AddBias(bias, out) *)
  AddBias : Tensor F -> Tensor F -> list F;
  (* AddInputBias(input1, input2, bias, out) *)
  AddInputBias : Tensor F -> Tensor F -> Tensor F -> Tensor F -> list F;
  (* Copy(src, dst) *)
  Copy : Tensor F -> Tensor F -> list F
}.

(** ** State: caller heap and scratch arena *)

(** The function-local [static core::TempTensor] objects, one per
    declaration site. *)
Inductive Slot :=
| q_out1_temp | v_out1_temp | k_out1_temp
| q_out2_temp | v_out2_temp | k_out2_temp
| qkv_out1_temp | qkv_out2_temp
| att_score_tmp | context_layer_tmpr | self_attr_out_tmp.

#[global] Instance Slot_eq_dec : EqDecision Slot.
Proof. solve_decision. Defined.

Definition Slot_to_nat (s : Slot) : nat :=
  match s with
  | q_out1_temp => 0 | v_out1_temp => 1 | k_out1_temp => 2
  | q_out2_temp => 3 | v_out2_temp => 4 | k_out2_temp => 5
  | qkv_out1_temp => 6 | qkv_out2_temp => 7
  | att_score_tmp => 8 | context_layer_tmpr => 9 | self_attr_out_tmp => 10
  end%nat.

Definition Slot_of_nat (n : nat) : Slot :=
  match n with
  | 0 => q_out1_temp | 1 => v_out1_temp | 2 => k_out1_temp
  | 3 => q_out2_temp | 4 => v_out2_temp | 5 => k_out2_temp
  | 6 => qkv_out1_temp | 7 => qkv_out2_temp
  | 8 => att_score_tmp | 9 => context_layer_tmpr | _ => self_attr_out_tmp
  end%nat.

#[global] Instance Slot_countable : Countable Slot.
Proof.
  refine (inj_countable' Slot_to_nat Slot_of_nat _).
  intros []; reflexivity.
Defined.

(** Addresses of the caller's tensor objects. *)
Definition loc := positive.

(** What a [core::Tensor&] or [core::Tensor*] of the function designates: a
    tensor of the caller, or the tensor cached in a scratch slot for a device
    context. *)
Inductive ref :=
| Caller (l : loc)
| Scratch (s : Slot) (c : DLContext).

(** [q_ptr], [k_ptr], [v_ptr]: the tensor a reference designates, or a view
    of sub-tensor [i] of it ([new core::Tensor(qkv_out2[i])]). *)
Inductive tensor_ptr :=
| Whole (r : ref)
| View (r : ref) (i : nat).

(** [fetched] records the [GetTensor] calls, most recent first. *)
Record State (F : Type) := mkState {
  heap : gmap loc (Tensor F);
  arena : gmap (Slot * DLContext) (Tensor F);
  fetched : list (Slot * DLContext)
}.
Arguments mkState {F} _ _ _.
Arguments heap {F} _.
Arguments arena {F} _.
Arguments fetched {F} _.

(** ** Computations that read and write the state and may throw *)

Definition M (F A : Type) : Type := State F -> State F * outcome A.

#[global] Instance M_ret {F} : MRet (M F) := fun A a st => (st, Returns a).

#[global] Instance M_bind {F} : MBind (M F) := fun A B f m st =>
  match m st with
  | (st', Returns a) => f a st'
  | (st', Throws e) => (st', Throws e)
  end.

Definition throw {F A} (e : error) : M F A := fun st => (st, Throws e).

Definition lift {F A} (o : outcome A) : M F A := fun st => (st, o).

Section Memory.
Context {F : Type} `{Scalar F}.

(** The tensor a reference designates. *)
Definition read (st : State F) (r : ref) : Tensor F :=
  match r with
  | Caller l => heap st !!! l
  | Scratch s c => arena st !!! (s, c)
  end.

(** Assignment through a reference. *)
Definition update (st : State F) (r : ref) (t : Tensor F) : State F :=
  match r with
  | Caller l => mkState (<[l := t]> (heap st)) (arena st) (fetched st)
  | Scratch s c => mkState (heap st) (<[(s, c) := t]> (arena st)) (fetched st)
  end.

(** Modelled from the spec: [TempTensor::GetTensor] returns the tensor cached
    for the device context, creating it empty on first use. *)
Definition fetch (st : State F) (s : Slot) (c : DLContext) : State F :=
  mkState (heap st)
          (match arena st !! (s, c) with
           | Some _ => arena st
           | None => <[(s, c) := null_tensor]> (arena st)
           end)
          ((s, c) :: fetched st).

Definition load (r : ref) : M F (Tensor F) := fun st => (st, Returns (read st r)).

Definition store (r : ref) (t : Tensor F) : M F unit := fun st =>
  (update st r t, Returns tt).

Definition deref (p : tensor_ptr) : M F (Tensor F) :=
  match p with
  | Whole r => load r
  | View r i => t ← load r; mret (slice t i)
  end.

Definition GetTensor (s : Slot) (c : DLContext) : M F ref := fun st =>
  (fetch st s c, Returns (Scratch s c)).

(** [r.Reshape<float>(shape_list, devtype, devid)] *)
Definition Reshape_at (r : ref) (shape_list : list Z)
    (devtype : DLDeviceType) (devid : Z) : M F unit :=
  t ← load r; t' ← lift (Reshape t shape_list devtype devid); store r t'.

(** Modelled from the spec: [TT_ENFORCE_EQ(a, b, msg)] throws unless
    [a == b]; the kind of the failure is the one the spec gives the check. *)
Definition TT_ENFORCE_EQ {A} `{EqDecision A} (a b : A) (e : error) : M F unit :=
  if decide (a = b) then mret tt else throw e.

End Memory.

(** ** The attention module *)

Section Attention.
Context {F : Type} `{Scalar F} `{Kernels F}.

(** The members of [MultiHeadedAttention] that [operator()] reads. *)
Record MultiHeadedAttention := mkMultiHeadedAttention {
  k_weight_ : Tensor F;
  k_bias_ : Tensor F;
  v_weight_ : Tensor F;
  v_bias_ : Tensor F;
  q_weight_ : Tensor F;
  q_bias_ : Tensor F;
  dense_weight_ : Tensor F;
  dense_bias_ : Tensor F;
  qkv_weight_ : Tensor F;
  qkv_bias_ : Tensor F;
  layernorm_gamma_ : Tensor F;
  layernorm_beta_ : Tensor F;
  num_attention_heads_ : Z
}.

(** A kernel call overwrites the buffer of the tensor [out] designates. *)
Definition write (out : ref) (k : Tensor F -> list F) : M F unit :=
  o ← load out; store out (with_data o (k o)).

Definition msg_device : string :=
  "The key_tensor and attention_mask should have the same device type and device id.".
Definition msg_key_rank : string :=
  "The key_tensor should be a matrix with shape [batch_size, key_seq_len, hidden_size].".
Definition msg_value_rank : string :=
  "The value_tensor should be a matrix with shape [batch_size, key_seq_len, hidden_size].".
Definition msg_query_rank : string :=
  "The query_tensors should be a matrix with shape [batch_size, query_seq_len, hidden_size].".
Definition msg_key_value : string :=
  "The key_tensor and value_tensor should have the same hidden_size".
Definition msg_attn_type : string := "attn_type should be context or self.".
Definition msg_not_support (attn_type : string) : string :=
  attn_type +:+ " is not support in MultiHeadedAttention\n".

(** Lines 62-69: the key sequence length. *)
Definition derive_key_seq_length (attn_type : string) (key_tensor : Tensor F)
    (query_seq_length : Z) : M F Z :=
  if String.eqb attn_type "context" then mret (shape_at key_tensor 1)
  else if String.eqb attn_type "self" then mret query_seq_length
  else throw (InvalidArgument msg_attn_type).

(** Line 72: [hidden_size / num_attention_heads_] on [int64_t]. *)
Definition derive_size_per_head (hidden_size num_attention_heads : Z) : M F Z :=
  if num_attention_heads =? 0 then throw ArithmeticFault
  else mret (hidden_size ÷ num_attention_heads).

(** Lines 78-140: the [context] branch. *)
Definition project_context (self : MultiHeadedAttention)
    (key_tensor value_tensor query_tensor : loc) (pre_layernorm : bool)
    (batch_size query_seq_length key_seq_length hidden_size size_per_head : Z)
    (devtype : DLDeviceType) (devid : Z) (devctx : DLContext)
    : M F (tensor_ptr * tensor_ptr * tensor_ptr) :=
  let heads := num_attention_heads_ self in
  value ← load (Caller value_tensor);
  key ← load (Caller key_tensor);
  q_out1 ← GetTensor q_out1_temp devctx;
  v_out1 ← GetTensor v_out1_temp (device_ctx value);
  k_out1 ← GetTensor k_out1_temp (device_ctx key);
  q_out2 ← GetTensor q_out2_temp devctx;
  v_out2 ← GetTensor v_out2_temp (device_ctx value);
  k_out2 ← GetTensor k_out2_temp (device_ctx key);
  Reshape_at q_out1 [batch_size; query_seq_length; hidden_size] devtype devid;;
  Reshape_at v_out1 [batch_size; key_seq_length; hidden_size] devtype devid;;
  Reshape_at k_out1 [batch_size; key_seq_length; hidden_size] devtype devid;;
  (if pre_layernorm then
     Reshape_at q_out2 [batch_size; query_seq_length; hidden_size] devtype devid;;
     query ← load (Caller query_tensor);
     write q_out2 (Copy query);;
     write q_out2 (fun o => LayerNorm (layernorm_gamma_ self) (layernorm_beta_ self) o f1e_6);;
     normed ← load q_out2;
     write q_out1 (fun o => MatMul normed false (q_weight_ self) false fone o fzero)
   else
     query ← load (Caller query_tensor);
     write q_out1 (fun o => MatMul query false (q_weight_ self) false fone o fzero));;
  key ← load (Caller key_tensor);
  write k_out1 (fun o => MatMul key false (k_weight_ self) false fone o fzero);;
  value ← load (Caller value_tensor);
  write v_out1 (fun o => MatMul value false (v_weight_ self) false fone o fzero);;
  Reshape_at q_out1 [batch_size; query_seq_length; heads; size_per_head] devtype devid;;
  Reshape_at v_out1 [batch_size; key_seq_length; heads; size_per_head] devtype devid;;
  Reshape_at k_out1 [batch_size; key_seq_length; heads; size_per_head] devtype devid;;
  Reshape_at q_out2 [batch_size; heads; query_seq_length; size_per_head] devtype devid;;
  Reshape_at v_out2 [batch_size; heads; key_seq_length; size_per_head] devtype devid;;
  Reshape_at k_out2 [batch_size; heads; key_seq_length; size_per_head] devtype devid;;
  q1 ← load q_out1;
  write q_out2 (AddBiasTransposeForScore q1 (q_bias_ self));;
  v1 ← load v_out1;
  write v_out2 (AddBiasTransposeForScore v1 (v_bias_ self));;
  k1 ← load k_out1;
  write k_out2 (AddBiasTransposeForScore k1 (k_bias_ self));;
  mret (Whole q_out2, Whole k_out2, Whole v_out2).

(** Lines 141-169: the [self] branch.  [layernormed_query] is a local tensor
    of the branch. *)
Definition project_self (self : MultiHeadedAttention)
    (query_tensor : loc) (pre_layernorm : bool)
    (batch_size query_seq_length hidden_size size_per_head : Z)
    (devtype : DLDeviceType) (devid : Z) (devctx : DLContext)
    : M F (tensor_ptr * tensor_ptr * tensor_ptr) :=
  let heads := num_attention_heads_ self in
  qkv_out1 ← GetTensor qkv_out1_temp devctx;
  Reshape_at qkv_out1 [3; batch_size; query_seq_length; hidden_size] devtype devid;;
  (if pre_layernorm then
     layernormed_query ← lift (Reshape null_tensor
                                 [batch_size; query_seq_length; hidden_size] devtype devid);
     query ← load (Caller query_tensor);
     let copied := with_data layernormed_query (Copy query layernormed_query) in
     let normed := with_data copied
                     (LayerNorm (layernorm_gamma_ self) (layernorm_beta_ self) copied f1e_6) in
     write qkv_out1 (fun o => MatMul normed false (qkv_weight_ self) false fone o fzero)
   else
     query ← load (Caller query_tensor);
     write qkv_out1 (fun o => MatMul query false (qkv_weight_ self) false fone o fzero));;
  qkv_out2 ← GetTensor qkv_out2_temp devctx;
  Reshape_at qkv_out2 [3; batch_size; heads; query_seq_length; size_per_head] devtype devid;;
  qkv1 ← load qkv_out1;
  write qkv_out2 (fun o => SplitAddBiasTransposeForScore o qkv1 (qkv_bias_ self));;
  mret (View qkv_out2 0, View qkv_out2 1, View qkv_out2 2).

(** Lines 77-172: the dispatch on the variant. *)
Definition project (self : MultiHeadedAttention)
    (key_tensor value_tensor query_tensor : loc) (attn_type : string)
    (pre_layernorm : bool)
    (batch_size query_seq_length key_seq_length hidden_size size_per_head : Z)
    (devtype : DLDeviceType) (devid : Z) (devctx : DLContext)
    : M F (tensor_ptr * tensor_ptr * tensor_ptr) :=
  if String.eqb attn_type "context" then
    project_context self key_tensor value_tensor query_tensor pre_layernorm
      batch_size query_seq_length key_seq_length hidden_size size_per_head
      devtype devid devctx
  else if String.eqb attn_type "self" then
    project_self self query_tensor pre_layernorm
      batch_size query_seq_length hidden_size size_per_head devtype devid devctx
  else throw (InvalidArgument (msg_not_support attn_type)).

(** Lines 174-217: scores, masked softmax, weighted sum, head merge, output
    projection and bias. *)
Definition attend (self : MultiHeadedAttention)
    (query_tensor attention_mask output : loc) (post_add : bool)
    (q_ptr k_ptr v_ptr : tensor_ptr)
    (batch_size query_seq_length key_seq_length hidden_size size_per_head : Z)
    (devtype : DLDeviceType) (devid : Z) (devctx : DLContext) : M F unit :=
  let heads := num_attention_heads_ self in
  att_score ← GetTensor att_score_tmp devctx;
  Reshape_at att_score [batch_size; heads; query_seq_length; key_seq_length] devtype devid;;
  let scaler := fdiv fone (fsqrt (of_int64 size_per_head)) in
  q ← deref q_ptr;
  k ← deref k_ptr;
  write att_score (fun o => BatchMatMul q false k true scaler o fzero);;
  mask ← load (Caller attention_mask);
  write att_score (fun o => ApplyMaskAndSoftmax o mask fone);;
  context_layer ← GetTensor context_layer_tmpr devctx;
  Reshape_at context_layer [batch_size; heads; query_seq_length; size_per_head] devtype devid;;
  score ← load att_score;
  v ← deref v_ptr;
  write context_layer (fun o => BatchMatMul score false v false fone o fzero);;
  self_attr_out ← GetTensor self_attr_out_tmp devctx;
  Reshape_at self_attr_out [batch_size; query_seq_length; heads * size_per_head] devtype devid;;
  ctx ← load context_layer;
  write self_attr_out (fun o => TransposeForScore o ctx);;
  Reshape_at (Caller output) [batch_size; query_seq_length; hidden_size] devtype devid;;
  merged ← load self_attr_out;
  write (Caller output) (fun o => MatMul merged false (dense_weight_ self) false fone o fzero);;
  if negb post_add then
    write (Caller output) (AddBias (dense_bias_ self))
  else
    projected ← load (Caller output);
    query ← load (Caller query_tensor);
    write (Caller output) (AddInputBias projected query (dense_bias_ self)).

(** [MultiHeadedAttention::operator()].  The lock on the file-level mutex
    makes calls run one after another; [EnforceShapeAndType] only logs. *)
Definition MultiHeadedAttention_call (self : MultiHeadedAttention)
    (key_tensor value_tensor query_tensor attention_mask : loc)
    (attn_type : string) (output : loc) (pre_layernorm post_add : bool)
    : M F unit :=
  key ← load (Caller key_tensor);
  mask ← load (Caller attention_mask);
  TT_ENFORCE_EQ (is_same_device_ctx (device_ctx key) (device_ctx mask)) true
    (DeviceMismatchError msg_device);;
  TT_ENFORCE_EQ (n_dim key) 3 (ShapeError msg_key_rank);;
  value ← load (Caller value_tensor);
  TT_ENFORCE_EQ (n_dim value) 3 (ShapeError msg_value_rank);;
  query ← load (Caller query_tensor);
  TT_ENFORCE_EQ (n_dim query) 3 (ShapeError msg_query_rank);;
  TT_ENFORCE_EQ (shape_at key 0) (shape_at value 0) (ShapeError msg_key_value);;
  let batch_size := shape_at query 0 in
  let query_seq_length := shape_at query 1 in
  key_seq_length ← derive_key_seq_length attn_type key query_seq_length;
  let hidden_size := shape_at query 2 in
  size_per_head ← derive_size_per_head hidden_size (num_attention_heads_ self);
  let devtype := device_type (device_ctx query) in
  let devid := device_id (device_ctx query) in
  let devctx := device_ctx query in
  '(q_ptr, k_ptr, v_ptr) ← project self key_tensor value_tensor query_tensor
      attn_type pre_layernorm batch_size query_seq_length key_seq_length
      hidden_size size_per_head devtype devid devctx;
  attend self query_tensor attention_mask output post_add q_ptr k_ptr v_ptr
    batch_size query_seq_length key_seq_length hidden_size size_per_head
    devtype devid devctx.

End Attention.

Arguments MultiHeadedAttention : clear implicits.

(** ** Vocabulary of the statements *)

Section Vocabulary.
Context {F : Type} `{Scalar F} `{Kernels F}.

(** The key sequence length of a variant that passes the dispatch. *)
Definition key_seq_length_of (attn_type : string) (key query : Tensor F) : Z :=
  if String.eqb attn_type "context" then shape_at key 1 else shape_at query 1.

(** The operand checks of lines 38-55. *)
Definition operand_checks_pass (st : State F)
    (key_tensor value_tensor query_tensor attention_mask : loc) : bool :=
  let key := read st (Caller key_tensor) in
  let value := read st (Caller value_tensor) in
  let query := read st (Caller query_tensor) in
  let mask := read st (Caller attention_mask) in
  is_same_device_ctx (device_ctx key) (device_ctx mask)
  && (n_dim key =? 3) && (n_dim value =? 3) && (n_dim query =? 3)
  && (shape_at key 0 =? shape_at value 0).

(** The two variants of the dispatch. *)
Definition known_variant (attn_type : string) : bool :=
  String.eqb attn_type "context" || String.eqb attn_type "self".

(** The calls that go through: the operand checks pass, the variant is one
    of the two, and every dimension handed to [Reshape] is positive. *)
Definition valid_call (self : MultiHeadedAttention F) (st : State F)
    (key_tensor value_tensor query_tensor attention_mask : loc)
    (attn_type : string) : bool :=
  let key := read st (Caller key_tensor) in
  let query := read st (Caller query_tensor) in
  let heads := num_attention_heads_ self in
  operand_checks_pass st key_tensor value_tensor query_tensor attention_mask
  && known_variant attn_type
  && all_positive [shape_at query 0; shape_at query 1; shape_at query 2;
                   key_seq_length_of attn_type key query;
                   heads; shape_at query 2 ÷ heads].

(** The tensor a projection pointer designates in a state. *)
Definition pointee (st : State F) (p : tensor_ptr) : Tensor F :=
  match p with
  | Whole r => read st r
  | View r i => slice (read st r) i
  end.

(** Where [q_ptr], [k_ptr] and [v_ptr] point after the projection stage. *)
Definition q_ptr_of (attn_type : string) (query : Tensor F) : tensor_ptr :=
  if String.eqb attn_type "context"
  then Whole (Scratch q_out2_temp (device_ctx query))
  else View (Scratch qkv_out2_temp (device_ctx query)) 0.

Definition k_ptr_of (attn_type : string) (key query : Tensor F) : tensor_ptr :=
  if String.eqb attn_type "context"
  then Whole (Scratch k_out2_temp (device_ctx key))
  else View (Scratch qkv_out2_temp (device_ctx query)) 1.

Definition v_ptr_of (attn_type : string) (value query : Tensor F) : tensor_ptr :=
  if String.eqb attn_type "context"
  then Whole (Scratch v_out2_temp (device_ctx value))
  else View (Scratch qkv_out2_temp (device_ctx query)) 2.

(** The scratch slots of the projection stage, and those of the common
    continuation. *)
Definition projection_slot (s : Slot) : bool :=
  match s with
  | att_score_tmp | context_layer_tmpr | self_attr_out_tmp => false
  | _ => true
  end.

Definition projection_ref (r : ref) : bool :=
  match r with
  | Caller _ => false
  | Scratch s _ => projection_slot s
  end.

(** The reference behind a projection pointer. *)
Definition ptr_ref (p : tensor_ptr) : ref :=
  match p with
  | Whole r => r
  | View r _ => r
  end.

(** Weakest precondition of a computation that returns. *)
Definition wp {A} (m : M F A) (Q : A -> State F -> Prop) (st : State F) : Prop :=
  match m st with
  | (st', Returns a) => Q a st'
  | (_, Throws _) => False
  end.

(** A property of the end of a computation, whether it returns or throws. *)
Definition ends {A} (m : M F A) (Q : outcome A -> State F -> Prop) (st : State F) : Prop :=
  Q (snd (m st)) (fst (m st)).

(** A property of the state that a computation keeps, whether it returns or
    throws. *)
Definition preserves {A} (P : State F -> Prop) (m : M F A) : Prop :=
  forall st, P st -> P (fst (m st)).

(** A property that assignments through [r] keep. *)
Definition stable_at (P : State F -> Prop) (r : ref) : Prop :=
  forall st t, P st -> P (update st r t).

(** A property that [GetTensor] keeps. *)
Definition stable_fetch (P : State F -> Prop) : Prop :=
  forall st s c, P st -> P (fetch st s c).



(** What the projection stage leaves untouched. *)
Definition projection_frame (st st' : State F) : Prop :=
  heap st' = heap st /\ forall r, projection_ref r = false -> read st' r = read st r.

(** What the common continuation leaves untouched. *)
Definition attend_frame (st st' : State F) : Prop :=
  forall r, projection_ref r = true -> read st' r = read st r.

(** The head-major tensor the [context] branch computes from [input] with a
    weight and bias of its own: the projection goes to [slot1], bias and
    transpose to [slot2]. *)
Definition separate_projection (self : MultiHeadedAttention F) (st : State F)
    (input weight bias : Tensor F) (slot1 slot2 : Slot) (c : DLContext)
    (batch_size seq_length hidden_size : Z) (devtype : DLDeviceType) (devid : Z)
    : Tensor F :=
  let heads := num_attention_heads_ self in
  let size_per_head := hidden_size ÷ heads in
  let out1 := reshaped (read st (Scratch slot1 c))
                [batch_size; seq_length; hidden_size] devtype devid in
  let projected := with_data out1 (MatMul input false weight false fone out1 fzero) in
  let split := reshaped projected [batch_size; seq_length; heads; size_per_head]
                 devtype devid in
  let out2 := reshaped (read st (Scratch slot2 c))
                [batch_size; heads; seq_length; size_per_head] devtype devid in
  with_data out2 (AddBiasTransposeForScore split bias out2).

(** The tensor the [self] branch computes from [input] with the fused weight
    and bias; its sub-tensors 0, 1 and 2 are query, key and value. *)
Definition fused_projection (self : MultiHeadedAttention F) (st : State F)
    (input : Tensor F) (c : DLContext)
    (batch_size seq_length hidden_size : Z) (devtype : DLDeviceType) (devid : Z)
    : Tensor F :=
  let heads := num_attention_heads_ self in
  let size_per_head := hidden_size ÷ heads in
  let out1 := reshaped (read st (Scratch qkv_out1_temp c))
                [3; batch_size; seq_length; hidden_size] devtype devid in
  let projected := with_data out1
                     (MatMul input false (qkv_weight_ self) false fone out1 fzero) in
  let out2 := reshaped (read st (Scratch qkv_out2_temp c))
                [3; batch_size; heads; seq_length; size_per_head] devtype devid in
  with_data out2 (SplitAddBiasTransposeForScore out2 projected (qkv_bias_ self)).

(** The head-major query, key and value of a call without layer
    normalisation. *)
Definition projections (self : MultiHeadedAttention F) (st : State F)
    (key value query : Tensor F) (attn_type : string)
    : Tensor F * Tensor F * Tensor F :=
  let c := device_ctx query in
  let batch_size := shape_at query 0 in
  let query_seq_length := shape_at query 1 in
  let hidden_size := shape_at query 2 in
  if String.eqb attn_type "context" then
    (separate_projection self st query (q_weight_ self) (q_bias_ self)
       q_out1_temp q_out2_temp c batch_size query_seq_length hidden_size
       (device_type c) (device_id c),
     separate_projection self st key (k_weight_ self) (k_bias_ self)
       k_out1_temp k_out2_temp (device_ctx key) batch_size (shape_at key 1)
       hidden_size (device_type c) (device_id c),
     separate_projection self st value (v_weight_ self) (v_bias_ self)
       v_out1_temp v_out2_temp (device_ctx value) batch_size (shape_at key 1)
       hidden_size (device_type c) (device_id c))
  else
    let fused := fused_projection self st query c batch_size query_seq_length
                   hidden_size (device_type c) (device_id c) in
    (slice fused 0, slice fused 1, slice fused 2).

(** The fused weight and bias agree with the separate ones on an input: the
    [self] branch and the [context] branch project it to the same head-major
    query, key and value. *)
Definition fused_agrees (self : MultiHeadedAttention F) (st : State F)
    (input : Tensor F) : Prop :=
  projections self st input input input "self"
  = projections self st input input input "context".

(** A condition that holds whenever a computation returns. *)
Definition returns_only_if {A} (C : Prop) (m : M F A) : Prop :=
  forall st st' a, m st = (st', Returns a) -> C.

End Vocabulary.

(** ** An exact instance over the rationals

    Used to run the orchestrator on concrete tensors.  Products, sums and
    index permutations are exact for every shape.  Layer normalisation and
    the masked softmax are exact on rows of length one, where the centred
    value is zero and the single weight is one; longer rows have no rational
    value in general and are returned as they are. *)
Module Exact.

Definition qadd (a b : Q) : Q := Qred (a + b)%Q.
Definition qmul (a b : Q) : Q := Qred (a * b)%Q.

(** Square root, exact on squares of rationals. *)
Definition qsqrt (a : Q) : Q :=
  let r := Qred a in Qmake (Z.sqrt (Qnum r)) (Pos.sqrt (Qden r)).

#[global] Instance Q_Scalar : Scalar Q := {|
  fzero := 0%Q;
  fone := 1%Q;
  f1e_6 := Qmake 1 1000000;
  of_int64 := inject_Z;
  fsqrt := qsqrt;
  fdiv := fun a b => Qred (a / b)%Q;
  uninit := fun n => repeat 0%Q (Z.to_nat n)
|}.

Definition get (l : list Q) (i : Z) : Q := nth (Z.to_nat i) l 0%Q.

Definition tabulate (n : Z) (f : Z -> Q) : list Q :=
  map (fun i => f (Z.of_nat i)) (seq 0 (Z.to_nat n)).

Definition qsum (n : Z) (f : Z -> Q) : Q := fold_right qadd 0%Q (tabulate n f).

Definition dim (t : Tensor Q) (i : nat) : Z := nth i (shape t) 1.

(** Size of the last axis, and of the axis before it. *)
Definition cols (t : Tensor Q) : Z := List.last (shape t) 1.
Definition rows (t : Tensor Q) : Z := List.last (List.removelast (shape t)) 1.

(** Modelled from the spec: [out = alpha * op(A) * op(B) + beta * out], with
    [A] and [B] read as matrices whose columns are their last axis. *)
Definition matmul (A : Tensor Q) (a_trans : bool) (B : Tensor Q) (b_trans : bool)
    (alpha : Q) (out : Tensor Q) (beta : Q) : list Q :=
  let a_cols := cols A in
  let a_rows := numel (shape A) / a_cols in
  let b_cols := cols B in
  let b_rows := numel (shape B) / b_cols in
  let m := if a_trans then a_cols else a_rows in
  let k := if a_trans then a_rows else a_cols in
  let n := if b_trans then b_rows else b_cols in
  tabulate (m * n) (fun x =>
    let i := x / n in
    let j := x mod n in
    qadd (qmul alpha (qsum k (fun l =>
            qmul (get (data A) (if a_trans then l * a_cols + i else i * a_cols + l))
                 (get (data B) (if b_trans then j * b_cols + l else l * b_cols + j)))))
         (qmul beta (get (data out) x))).

(** Modelled from the spec: the same product, batched over the leading
    dimensions. *)
Definition batch_matmul (A : Tensor Q) (a_trans : bool) (B : Tensor Q) (b_trans : bool)
    (alpha : Q) (out : Tensor Q) (beta : Q) : list Q :=
  let a_cols := cols A in
  let a_rows := rows A in
  let b_cols := cols B in
  let b_rows := rows B in
  let batch := numel (shape A) / (a_rows * a_cols) in
  let m := if a_trans then a_cols else a_rows in
  let k := if a_trans then a_rows else a_cols in
  let n := if b_trans then b_rows else b_cols in
  tabulate (batch * m * n) (fun x =>
    let b := x / (m * n) in
    let i := (x / n) mod m in
    let j := x mod n in
    let a0 := b * (a_rows * a_cols) in
    let b0 := b * (b_rows * b_cols) in
    qadd (qmul alpha (qsum k (fun l =>
            qmul (get (data A) (a0 + (if a_trans then l * a_cols + i else i * a_cols + l)))
                 (get (data B) (b0 + (if b_trans then j * b_cols + l else l * b_cols + j))))))
         (qmul beta (get (data out) x))).

(** Modelled from the spec: in-place normalisation over the last axis; on a
    row of length one the centred value is zero, so the result is [beta]. *)
Definition layer_norm (gamma beta out : Tensor Q) (eps : Q) : list Q :=
  if cols out =? 1 then map (fun _ => get (data beta) 0) (data out) else data out.

(** Modelled from the spec: in-place masked softmax over the last axis; on a
    row of length one the weight is one. *)
Definition apply_mask_and_softmax (inout att_mask : Tensor Q) (scale : Q) : list Q :=
  if cols inout =? 1 then map (fun _ => 1%Q) (data inout) else data inout.

(** Modelled from the spec: bias add, head split and transpose, from
    [batch, seq, heads, head_size] to [batch, heads, seq, head_size]. *)
Definition add_bias_transpose_for_score (input bias out : Tensor Q) : list Q :=
  let S := dim input 1 in
  let Hn := dim input 2 in
  let D := dim input 3 in
  tabulate (numel (shape input)) (fun x =>
    let d := x mod D in
    let s := (x / D) mod S in
    let h := (x / (D * S)) mod Hn in
    let b := x / (D * S * Hn) in
    qadd (get (data input) (((b * S + s) * Hn + h) * D + d))
         (get (data bias) (h * D + d))).

(** Modelled from the spec: the fused projection holds, for each token, the
    query, key and value rows one after the other; the kernel adds the fused
    bias and writes [3, batch, heads, seq, head_size]. *)
Definition split_add_bias_transpose_for_score (out input bias : Tensor Q) : list Q :=
  let B := dim out 1 in
  let Hn := dim out 2 in
  let S := dim out 3 in
  let D := dim out 4 in
  tabulate (numel (shape out)) (fun x =>
    let d := x mod D in
    let s := (x / D) mod S in
    let h := (x / (D * S)) mod Hn in
    let b := (x / (D * S * Hn)) mod B in
    let w := x / (D * S * Hn * B) in
    qadd (get (data input) ((((b * S + s) * 3 + w) * Hn + h) * D + d))
         (get (data bias) ((w * Hn + h) * D + d))).

(** Modelled from the spec: the inverse head-merge transpose, from
    [batch, heads, seq, head_size] to [batch, seq, heads * head_size]. *)
Definition transpose_for_score (out input : Tensor Q) : list Q :=
  let Hn := dim input 1 in
  let S := dim input 2 in
  let D := dim input 3 in
  tabulate (numel (shape input)) (fun x =>
    let d := x mod D in
    let h := (x / D) mod Hn in
    let s := (x / (D * Hn)) mod S in
    let b := x / (D * Hn * S) in
    get (data input) (((b * Hn + h) * S + s) * D + d)).

(** Modelled from the spec: elementwise bias add over the last axis. *)
Definition add_bias (bias out : Tensor Q) : list Q :=
  let n := numel (shape bias) in
  tabulate (numel (shape out)) (fun x =>
    qadd (get (data out) x) (get (data bias) (x mod n))).

(** Modelled from the spec: elementwise bias and residual add. *)
Definition add_input_bias (input1 input2 bias out : Tensor Q) : list Q :=
  let n := numel (shape bias) in
  tabulate (numel (shape out)) (fun x =>
    qadd (qadd (get (data input1) x) (get (data input2) x))
         (get (data bias) (x mod n))).

(** Modelled from the spec: tensor content duplication. *)
Definition copy (src dst : Tensor Q) : list Q := data src.

#[global] Instance Q_Kernels : Kernels Q := {|
  MatMul := matmul;
  BatchMatMul := batch_matmul;
  LayerNorm := layer_norm;
  ApplyMaskAndSoftmax := apply_mask_and_softmax;
  AddBiasTransposeForScore := add_bias_transpose_for_score;
  SplitAddBiasTransposeForScore := split_add_bias_transpose_for_score;
  TransposeForScore := transpose_for_score;
  AddBias := add_bias;
  AddInputBias := add_input_bias;
  Copy := copy
|}.

End Exact.


(** ** Concrete calls

    One token, one head, hidden size one: every tensor holds a single value
    and the kernels above are exact. *)
Module Example.
Import Exact.

Definition cpu0 : DLContext := mkDLContext kDLCPU 0.
Definition gpu0 : DLContext := mkDLContext kDLGPU 0.

Definition cell (c : DLContext) (v : Q) : Tensor Q := mkTensor [1; 1; 1] c [v].

Definition weight (shape_list : list Z) (d : list Q) : Tensor Q :=
  mkTensor shape_list cpu0 d.

(** Query, key and value weights 1 with bias 0, the fused weight and bias
    their concatenation; dense weight 2 and bias 1; layer-norm gamma 1 and
    beta 0; one head. *)
Definition attention : MultiHeadedAttention Q := {|
  k_weight_ := weight [1; 1] [1%Q];
  k_bias_ := weight [1] [0%Q];
  v_weight_ := weight [1; 1] [1%Q];
  v_bias_ := weight [1] [0%Q];
  q_weight_ := weight [1; 1] [1%Q];
  q_bias_ := weight [1] [0%Q];
  dense_weight_ := weight [1; 1] [2%Q];
  dense_bias_ := weight [1] [1%Q];
  qkv_weight_ := weight [1; 3] [1%Q; 1%Q; 1%Q];
  qkv_bias_ := weight [3] [0%Q; 0%Q; 0%Q];
  layernorm_gamma_ := weight [1] [1%Q];
  layernorm_beta_ := weight [1] [0%Q];
  num_attention_heads_ := 1
|}.

Definition key_loc : loc := 1%positive.
Definition value_loc : loc := 2%positive.
Definition query_loc : loc := 3%positive.
Definition mask_loc : loc := 4%positive.
Definition output_loc : loc := 5%positive.

(** The caller's five tensors, with the given key, value, query and mask. *)
Definition caller (key value query mask : Tensor Q) : State Q :=
  mkState (<[key_loc := key]> (<[value_loc := value]> (<[query_loc := query]>
             (<[mask_loc := mask]> (<[output_loc := null_tensor]> ∅)))))
          ∅ [].

(** Key, value and query all hold 5 on the CPU; nothing is masked. *)
Definition st0 : State Q :=
  caller (cell cpu0 5) (cell cpu0 5) (cell cpu0 5) (mkTensor [1; 1; 1; 1] cpu0 [0%Q]).

(** The value tensor has hidden size 2, the key tensor hidden size 1. *)
Definition st_hidden_differs : State Q :=
  caller (cell cpu0 5) (mkTensor [1; 1; 2] cpu0 [5%Q; 7%Q]) (cell cpu0 5)
         (mkTensor [1; 1; 1; 1] cpu0 [0%Q]).

(** Key and value agree on the hidden size and differ on the batch size. *)
Definition st_batch_differs : State Q :=
  caller (cell cpu0 5) (mkTensor [2; 1; 1] cpu0 [5%Q; 7%Q]) (cell cpu0 5)
         (mkTensor [1; 1; 1; 1] cpu0 [0%Q]).

(** The mask is on the GPU, the key on the CPU. *)
Definition st_mask_elsewhere : State Q :=
  caller (cell cpu0 5) (cell cpu0 5) (cell cpu0 5) (mkTensor [1; 1; 1; 1] gpu0 [0%Q]).


(** The value is on the GPU; key, query and mask are on the CPU. *)
Definition st_value_elsewhere : State Q :=
  caller (cell cpu0 5) (cell gpu0 5) (cell cpu0 5) (mkTensor [1; 1; 1; 1] cpu0 [0%Q]).

(** The key has rank 2. *)
Definition st_key_rank2 : State Q :=
  caller (mkTensor [1; 1] cpu0 [5%Q]) (cell cpu0 5) (cell cpu0 5)
         (mkTensor [1; 1; 1; 1] cpu0 [0%Q]).

(** Two tokens, two heads, hidden size two: the fused weight holds, row by
    row, the columns of the query, key and value weights. *)
Definition qs (l : list Z) : list Q := map inject_Z l.

Definition attention2 : MultiHeadedAttention Q := {|
  k_weight_ := weight [2; 2] (qs [5; 6; 7; 8]);
  k_bias_ := weight [2] (qs [3; 4]);
  v_weight_ := weight [2; 2] (qs [9; 10; 11; 12]);
  v_bias_ := weight [2] (qs [5; 6]);
  q_weight_ := weight [2; 2] (qs [1; 2; 3; 4]);
  q_bias_ := weight [2] (qs [1; 2]);
  dense_weight_ := weight [2; 2] (qs [1; 0; 0; 1]);
  dense_bias_ := weight [2] (qs [0; 0]);
  qkv_weight_ := weight [2; 6] (qs [1; 2; 5; 6; 9; 10; 3; 4; 7; 8; 11; 12]);
  qkv_bias_ := weight [6] (qs [1; 2; 3; 4; 5; 6]);
  layernorm_gamma_ := weight [2] (qs [1; 1]);
  layernorm_beta_ := weight [2] (qs [0; 0]);
  num_attention_heads_ := 2
|}.

Definition tokens2 : Tensor Q := mkTensor [1; 2; 2] cpu0 (qs [1; 2; 3; 4]).

Definition st2 : State Q :=
  caller tokens2 tokens2 tokens2 (mkTensor [1; 1; 1; 2] cpu0 (qs [0; 0])).

Definition run (st : State Q) (attn_type : string) (output : loc)
    (pre_layernorm post_add : bool) : State Q * outcome unit :=
  MultiHeadedAttention_call attention key_loc value_loc query_loc mask_loc
    attn_type output pre_layernorm post_add st.

End Example.

(** ** Vocabulary of the further properties *)

Section Flow.
Context {F : Type} `{Scalar F} `{Kernels F}.

(** Lines 105-108 and 151-153: the query copied into [scratch] and
    normalised there. *)
Definition normalised (self : MultiHeadedAttention F) (query scratch : Tensor F)
    : Tensor F :=
  let copied := with_data scratch (Copy query scratch) in
  with_data copied
    (LayerNorm (layernorm_gamma_ self) (layernorm_beta_ self) copied f1e_6).

(** Lines 95-137 for one of query, key and value: [input] projected into
    [out1], split into heads, biased and transposed into [out2]. *)
Definition project_one (self : MultiHeadedAttention F)
    (input weight bias out1 out2 : Tensor F)
    (batch_size seq_length hidden_size : Z) (devtype : DLDeviceType) (devid : Z)
    : Tensor F :=
  let heads := num_attention_heads_ self in
  let size_per_head := hidden_size ÷ heads in
  let r1 := reshaped out1 [batch_size; seq_length; hidden_size] devtype devid in
  let projected := with_data r1 (MatMul input false weight false fone r1 fzero) in
  let split := reshaped projected [batch_size; seq_length; heads; size_per_head]
                 devtype devid in
  let r2 := reshaped out2 [batch_size; heads; seq_length; size_per_head]
              devtype devid in
  with_data r2 (AddBiasTransposeForScore split bias r2).

(** Lines 143-165: [input] through the fused weight into [out1], then split,
    biased and transposed into [out2]. *)
Definition project_fused (self : MultiHeadedAttention F)
    (input out1 out2 : Tensor F)
    (batch_size seq_length hidden_size : Z) (devtype : DLDeviceType) (devid : Z)
    : Tensor F :=
  let heads := num_attention_heads_ self in
  let size_per_head := hidden_size ÷ heads in
  let r1 := reshaped out1 [3; batch_size; seq_length; hidden_size] devtype devid in
  let projected := with_data r1
                     (MatMul input false (qkv_weight_ self) false fone r1 fzero) in
  let r2 := reshaped out2 [3; batch_size; heads; seq_length; size_per_head]
              devtype devid in
  with_data r2 (SplitAddBiasTransposeForScore r2 projected (qkv_bias_ self)).

(** The head-major query, key and value a call leaves behind [q_ptr], [k_ptr]
    and [v_ptr], from the operands and the scratch tensors of the state the
    call starts in. *)
Definition projections_of (self : MultiHeadedAttention F) (st : State F)
    (key value query : Tensor F) (attn_type : string) (pre_layernorm : bool)
    : Tensor F * Tensor F * Tensor F :=
  let c := device_ctx query in
  let devtype := device_type c in
  let devid := device_id c in
  let batch_size := shape_at query 0 in
  let query_seq_length := shape_at query 1 in
  let hidden_size := shape_at query 2 in
  if String.eqb attn_type "context" then
    let q_out2 := read st (Scratch q_out2_temp c) in
    let normed := normalised self query
                    (reshaped q_out2 [batch_size; query_seq_length; hidden_size]
                       devtype devid) in
    (project_one self (if pre_layernorm then normed else query)
       (q_weight_ self) (q_bias_ self) (read st (Scratch q_out1_temp c))
       (if pre_layernorm then normed else q_out2)
       batch_size query_seq_length hidden_size devtype devid,
     project_one self key (k_weight_ self) (k_bias_ self)
       (read st (Scratch k_out1_temp (device_ctx key)))
       (read st (Scratch k_out2_temp (device_ctx key)))
       batch_size (shape_at key 1) hidden_size devtype devid,
     project_one self value (v_weight_ self) (v_bias_ self)
       (read st (Scratch v_out1_temp (device_ctx value)))
       (read st (Scratch v_out2_temp (device_ctx value)))
       batch_size (shape_at key 1) hidden_size devtype devid)
  else
    let normed := normalised self query
                    (reshaped null_tensor
                       [batch_size; query_seq_length; hidden_size] devtype devid) in
    let fused := project_fused self (if pre_layernorm then normed else query)
                   (read st (Scratch qkv_out1_temp c))
                   (read st (Scratch qkv_out2_temp c))
                   batch_size query_seq_length hidden_size devtype devid in
    (slice fused 0, slice fused 1, slice fused 2).

(** Two tensors of the same shape on the same device. *)
Definition same_layout (o o' : Tensor F) : Prop :=
  shape o = shape o' /\ device_ctx o = device_ctx o'.

(** Kernels that overwrite their output tensor: what they write depends on
    its shape and device, not on what it held; for the two products this is
    the case beta = 0.0 of [out = alpha * A * B + beta * out]. *)
Record overwriting_kernels : Prop := {
  MatMul_overwrites : forall A a_trans B b_trans alpha o o',
    same_layout o o' ->
    MatMul A a_trans B b_trans alpha o fzero = MatMul A a_trans B b_trans alpha o' fzero;
  BatchMatMul_overwrites : forall A a_trans B b_trans alpha o o',
    same_layout o o' ->
    BatchMatMul A a_trans B b_trans alpha o fzero
    = BatchMatMul A a_trans B b_trans alpha o' fzero;
  AddBiasTransposeForScore_overwrites : forall input bias o o',
    same_layout o o' ->
    AddBiasTransposeForScore input bias o = AddBiasTransposeForScore input bias o';
  SplitAddBiasTransposeForScore_overwrites : forall input bias o o',
    same_layout o o' ->
    SplitAddBiasTransposeForScore o input bias
    = SplitAddBiasTransposeForScore o' input bias;
  TransposeForScore_overwrites : forall input o o',
    same_layout o o' -> TransposeForScore o input = TransposeForScore o' input;
  Copy_overwrites : forall src o o',
    same_layout o o' -> Copy src o = Copy src o'
}.

(** A tensor of the given shape and device that holds nothing yet. *)
Definition blank (shape_list : list Z) (devtype : DLDeviceType) (devid : Z)
    : Tensor F :=
  mkTensor shape_list (mkDLContext devtype devid) [].

(** The tensor an overwriting kernel produces. *)
Definition produce (shape_list : list Z) (devtype : DLDeviceType) (devid : Z)
    (k : Tensor F -> list F) : Tensor F :=
  let o := blank shape_list devtype devid in with_data o (k o).

(** The data flow of the projection of one of query, key and value. *)
Definition flow_one (self : MultiHeadedAttention F)
    (input weight bias : Tensor F)
    (batch_size seq_length hidden_size : Z) (devtype : DLDeviceType) (devid : Z)
    : Tensor F :=
  let heads := num_attention_heads_ self in
  let size_per_head := hidden_size ÷ heads in
  let projected := produce [batch_size; seq_length; hidden_size] devtype devid
                     (fun o => MatMul input false weight false fone o fzero) in
  let split := reshaped projected [batch_size; seq_length; heads; size_per_head]
                 devtype devid in
  produce [batch_size; heads; seq_length; size_per_head] devtype devid
    (AddBiasTransposeForScore split bias).

(** The data flow of the fused projection. *)
Definition flow_fused (self : MultiHeadedAttention F) (input : Tensor F)
    (batch_size seq_length hidden_size : Z) (devtype : DLDeviceType) (devid : Z)
    : Tensor F :=
  let heads := num_attention_heads_ self in
  let size_per_head := hidden_size ÷ heads in
  let projected := produce [3; batch_size; seq_length; hidden_size] devtype devid
                     (fun o => MatMul input false (qkv_weight_ self) false fone
                                 o fzero) in
  produce [3; batch_size; heads; seq_length; size_per_head] devtype devid
    (fun o => SplitAddBiasTransposeForScore o projected (qkv_bias_ self)).

(** The data flow of the projection stage: head-major query, key and value
    from the operands alone. *)
Definition flow_projections (self : MultiHeadedAttention F)
    (key value query : Tensor F) (attn_type : string) (pre_layernorm : bool)
    : Tensor F * Tensor F * Tensor F :=
  let c := device_ctx query in
  let devtype := device_type c in
  let devid := device_id c in
  let batch_size := shape_at query 0 in
  let query_seq_length := shape_at query 1 in
  let hidden_size := shape_at query 2 in
  let input :=
    if pre_layernorm
    then normalised self query
           (blank [batch_size; query_seq_length; hidden_size] devtype devid)
    else query in
  if String.eqb attn_type "context" then
    (flow_one self input (q_weight_ self) (q_bias_ self)
       batch_size query_seq_length hidden_size devtype devid,
     flow_one self key (k_weight_ self) (k_bias_ self)
       batch_size (shape_at key 1) hidden_size devtype devid,
     flow_one self value (v_weight_ self) (v_bias_ self)
       batch_size (shape_at key 1) hidden_size devtype devid)
  else
    let fused := flow_fused self input batch_size query_seq_length hidden_size
                   devtype devid in
    (slice fused 0, slice fused 1, slice fused 2).

(** The data flow of the whole call: the output tensor from the operands and
    the weights alone. *)
Definition attention_flow (self : MultiHeadedAttention F)
    (key value query mask : Tensor F) (attn_type : string)
    (pre_layernorm post_add : bool) : Tensor F :=
  let c := device_ctx query in
  let devtype := device_type c in
  let devid := device_id c in
  let batch_size := shape_at query 0 in
  let query_seq_length := shape_at query 1 in
  let hidden_size := shape_at query 2 in
  let key_seq_length := key_seq_length_of attn_type key query in
  let heads := num_attention_heads_ self in
  let size_per_head := hidden_size ÷ heads in
  let '(q, k, v) := flow_projections self key value query attn_type pre_layernorm in
  let scaled := produce [batch_size; heads; query_seq_length; key_seq_length]
                  devtype devid
                  (fun o => BatchMatMul q false k true
                              (fdiv fone (fsqrt (of_int64 size_per_head)))
                              o fzero) in
  let score := with_data scaled (ApplyMaskAndSoftmax scaled mask fone) in
  let context_layer :=
    produce [batch_size; heads; query_seq_length; size_per_head] devtype devid
      (fun o => BatchMatMul score false v false fone o fzero) in
  let unshaped :=
    produce [batch_size; query_seq_length; heads * size_per_head] devtype devid
      (fun o => TransposeForScore o context_layer) in
  let projected :=
    produce [batch_size; query_seq_length; hidden_size] devtype devid
      (fun o => MatMul unshaped false (dense_weight_ self) false fone o fzero) in
  with_data projected
    (if post_add
     then AddInputBias projected query (dense_bias_ self) projected
     else AddBias (dense_bias_ self) projected).

(** A computation that leaves the caller's tensors as they are. *)
Definition keeps_heap {A} (m : M F A) : Prop :=
  forall st, heap (fst (m st)) = heap st.

(** A computation that, when it throws, has left the caller's tensors as
    they were. *)
Definition heap_kept_on_throw {A} (m : M F A) : Prop :=
  forall st st' e, m st = (st', Throws e) -> heap st' = heap st.

(** A computation that returns from every state. *)
Definition never_throws {A} (m : M F A) : Prop :=
  forall st, exists a, snd (m st) = Returns a.

(** Lines 38-69 read in order: the failure of the first check that does not
    pass, if there is one. *)
Definition first_failure (st : State F)
    (key_tensor value_tensor query_tensor attention_mask : loc)
    (attn_type : string) : option error :=
  let key := read st (Caller key_tensor) in
  let value := read st (Caller value_tensor) in
  let query := read st (Caller query_tensor) in
  let mask := read st (Caller attention_mask) in
  if negb (is_same_device_ctx (device_ctx key) (device_ctx mask))
  then Some (DeviceMismatchError msg_device)
  else if negb (n_dim key =? 3) then Some (ShapeError msg_key_rank)
  else if negb (n_dim value =? 3) then Some (ShapeError msg_value_rank)
  else if negb (n_dim query =? 3) then Some (ShapeError msg_query_rank)
  else if negb (shape_at key 0 =? shape_at value 0)
  then Some (ShapeError msg_key_value)
  else if negb (known_variant attn_type)
  then Some (InvalidArgument msg_attn_type)
  else None.

(** The scratch tensors a call names: the six of the [context] branch under
    the device contexts of query, key and value, the two of the [self]
    branch and the three of the common continuation under the query's. *)
Definition in_footprint (attn_type : string) (key value query : Tensor F)
    (s : Slot) (c : DLContext) : bool :=
  match s with
  | q_out1_temp | q_out2_temp =>
      String.eqb attn_type "context" && bool_decide (c = device_ctx query)
  | k_out1_temp | k_out2_temp =>
      String.eqb attn_type "context" && bool_decide (c = device_ctx key)
  | v_out1_temp | v_out2_temp =>
      String.eqb attn_type "context" && bool_decide (c = device_ctx value)
  | qkv_out1_temp | qkv_out2_temp =>
      String.eqb attn_type "self" && bool_decide (c = device_ctx query)
  | att_score_tmp | context_layer_tmpr | self_attr_out_tmp =>
      known_variant attn_type && bool_decide (c = device_ctx query)
  end.

(** The caller's tensors and one scratch entry are as in [st]. *)
Definition footprint_frame (st : State F) (k : Slot * DLContext) (st' : State F)
    : Prop :=
  heap st' = heap st /\ arena st' !! k = arena st !! k.

(** One scratch entry is as in [st]. *)
Definition entry_kept (st : State F) (k : Slot * DLContext) (st' : State F)
    : Prop :=
  arena st' !! k = arena st !! k.

End Flow.

(** ** Further concrete calls *)
Module Cases.
Import Exact Example.

(** Key 7 and value 9 beside the query 5. *)
Definition st_other_key_value : State Q :=
  caller (cell cpu0 7) (cell cpu0 9) (cell cpu0 5) (mkTensor [1; 1; 1; 1] cpu0 [0%Q]).

(** One token of hidden size 3, for the two heads of [attention2]. *)
Definition token3 : Tensor Q := mkTensor [1; 1; 3] cpu0 (qs [1; 2; 3]).

Definition st_hidden3 : State Q :=
  caller token3 token3 token3 (mkTensor [1; 1; 1; 1] cpu0 [0%Q]).

(** The one-cell module asked for two heads: the head size is 1 / 2 = 0. *)
Definition attention_two_heads : MultiHeadedAttention Q :=
  mkMultiHeadedAttention
    (k_weight_ attention) (k_bias_ attention) (v_weight_ attention)
    (v_bias_ attention) (q_weight_ attention) (q_bias_ attention)
    (dense_weight_ attention) (dense_bias_ attention) (qkv_weight_ attention)
    (qkv_bias_ attention) (layernorm_gamma_ attention)
    (layernorm_beta_ attention) 2.

(** A head-major tensor of one cell. *)
Definition cell4 (v : Q) : Tensor Q := mkTensor [1; 1; 1; 1] cpu0 [v].

(** The one-cell operands with two tensors of the [context] branch already
    cached for the CPU. *)
Definition st_cached : State Q :=
  mkState (heap st0)
          (<[(q_out2_temp, cpu0) := cell4 5]> (<[(k_out1_temp, cpu0) := cell4 5]> ∅))
          [].

End Cases.

(** ** The fused weight as a concatenation

    The [self] branch multiplies the query by one weight of [3 * hidden]
    columns where the [context] branch multiplies by three weights of
    [hidden] columns. *)
Module Fused.
Import Exact.

(** Query, key or value, by the index of the fused projection. *)
Definition pick (w : Z) (q k v : Tensor Q) : Tensor Q :=
  if w =? 0 then q else if w =? 1 then k else v.

(** The matrix [[Wq | Wk | Wv]]: [hidden] rows of [3 * hidden] columns. *)
Definition concat_columns (hidden : Z) (wq wk wv : Tensor Q) : list Q :=
  tabulate (hidden * (3 * hidden)) (fun x =>
    let l := x / (3 * hidden) in
    let j := x mod (3 * hidden) in
    get (data (pick (j / hidden) wq wk wv)) (l * hidden + j mod hidden)).

(** The three biases one after the other. *)
Definition concat_bias (hidden : Z) (bq bk bv : Tensor Q) : list Q :=
  tabulate (3 * hidden) (fun j =>
    get (data (pick (j / hidden) bq bk bv)) (j mod hidden)).

(** The fused weight and bias of a module are the concatenation of its
    separate ones. *)
Definition fused_from_separate (self : MultiHeadedAttention Q) (hidden : Z) : Prop :=
  shape (q_weight_ self) = [hidden; hidden] /\
  shape (k_weight_ self) = [hidden; hidden] /\
  shape (v_weight_ self) = [hidden; hidden] /\
  shape (qkv_weight_ self) = [hidden; 3 * hidden] /\
  data (qkv_weight_ self)
  = concat_columns hidden (q_weight_ self) (k_weight_ self) (v_weight_ self) /\
  data (qkv_bias_ self)
  = concat_bias hidden (q_bias_ self) (k_bias_ self) (v_bias_ self).
End Fused.

(** * Properties *)

(** ** Rules for reading the state, for computations that return, and for
    properties a computation keeps *)

Section Rules.
Context {F : Type} `{Scalar F} `{Kernels F}.

Lemma read_update_eq (st : State F) (r : ref) (t : Tensor F) :
  read (update st r t) r = t.
Proof.
  destruct r; unfold read, update; simpl; apply lookup_total_insert_eq.
Qed.

Lemma read_update_ne (st : State F) (r r' : ref) (t : Tensor F) :
  r ≠ r' -> read (update st r t) r' = read st r'.
Proof.
  intros Hne. destruct r, r'; unfold read, update; simpl; try reflexivity;
    apply lookup_total_insert_ne; congruence.
Qed.

Lemma read_fetch (st : State F) (s : Slot) (c : DLContext) (r : ref) :
  read (fetch st s c) r = read st r.
Proof.
  destruct r as [l|s' c']; unfold read, fetch; simpl; [reflexivity|].
  destruct (arena st !! (s, c)) eqn:E; [reflexivity|].
  destruct (decide ((s, c) = (s', c'))) as [<-|Hne].
  - rewrite lookup_total_insert_eq. unfold lookup_total, map_lookup_total.
    rewrite E. reflexivity.
  - apply lookup_total_insert_ne, Hne.
Qed.

Lemma heap_update_scratch (st : State F) (s : Slot) (c : DLContext) (t : Tensor F) :
  heap (update st (Scratch s c) t) = heap st.
Proof. reflexivity. Qed.

Lemma heap_fetch (st : State F) (s : Slot) (c : DLContext) :
  heap (fetch st s c) = heap st.
Proof. reflexivity. Qed.

Lemma pointee_update_ne (st : State F) (r : ref) (t : Tensor F) (p : tensor_ptr) :
  r ≠ ptr_ref p -> pointee (update st r t) p = pointee st p.
Proof. intros Hne. destruct p; simpl in *; rewrite read_update_ne by exact Hne; reflexivity. Qed.

Lemma pointee_fetch (st : State F) (s : Slot) (c : DLContext) (p : tensor_ptr) :
  pointee (fetch st s c) p = pointee st p.
Proof. destruct p; simpl; rewrite read_fetch; reflexivity. Qed.

Lemma projection_ref_not_attend (r : ref) (s : Slot) (c : DLContext) :
  projection_ref r = true -> projection_slot s = false -> Scratch s c ≠ r.
Proof. intros Hr Hs <-. simpl in Hr. congruence. Qed.

Lemma projection_ref_not_caller (r : ref) (l : loc) :
  projection_ref r = true -> Caller l ≠ r.
Proof. intros Hr <-. discriminate Hr. Qed.

Lemma all_positive_cons (d : Z) (l : list Z) :
  all_positive (d :: l) = true <-> 0 < d /\ all_positive l = true.
Proof. unfold all_positive. simpl. rewrite andb_true_iff, Z.ltb_lt. tauto. Qed.

Lemma all_positive_nil : all_positive [] = true.
Proof. reflexivity. Qed.

Lemma wp_elim {A} (m : M F A) (Q : A -> State F -> Prop) (st : State F) :
  wp m Q st -> exists st' a, m st = (st', Returns a) /\ Q a st'.
Proof.
  unfold wp. destruct (m st) as [st' [a|e]]; [eauto | tauto].
Qed.

Lemma wp_ret {A} (a : A) (Q : A -> State F -> Prop) (st : State F) :
  Q a st -> wp (mret a) Q st.
Proof. exact id. Qed.

Lemma wp_bind {A B} (m : M F A) (f : A -> M F B) (Q : B -> State F -> Prop)
    (st : State F) :
  wp m (fun a st' => wp (f a) Q st') st -> wp (m ≫= f) Q st.
Proof.
  unfold wp, mbind, M_bind. destruct (m st) as [st' [a|e]]; [exact id | tauto].
Qed.

Lemma wp_mono {A} (m : M F A) (Q Q' : A -> State F -> Prop) (st : State F) :
  wp m Q st -> (forall a st', Q a st' -> Q' a st') -> wp m Q' st.
Proof.
  unfold wp. intros Hwp HQ. destruct (m st) as [st' [a|e]]; [apply HQ, Hwp | exact Hwp].
Qed.

Lemma wp_conj {A} (m : M F A) (Q1 Q2 : A -> State F -> Prop) (st : State F) :
  wp m Q1 st -> wp m Q2 st -> wp m (fun a st' => Q1 a st' /\ Q2 a st') st.
Proof.
  unfold wp. destruct (m st) as [st' [a|e]]; [split; assumption | tauto].
Qed.

Lemma wp_load (r : ref) (Q : Tensor F -> State F -> Prop) (st : State F) :
  Q (read st r) st -> wp (load r) Q st.
Proof. exact id. Qed.

Lemma wp_store (r : ref) (t : Tensor F) (Q : unit -> State F -> Prop) (st : State F) :
  Q tt (update st r t) -> wp (store r t) Q st.
Proof. exact id. Qed.

Lemma wp_GetTensor (s : Slot) (c : DLContext) (Q : ref -> State F -> Prop)
    (st : State F) :
  Q (Scratch s c) (fetch st s c) -> wp (GetTensor s c) Q st.
Proof. exact id. Qed.

Lemma wp_deref (p : tensor_ptr) (Q : Tensor F -> State F -> Prop) (st : State F) :
  Q (pointee st p) st -> wp (deref p) Q st.
Proof. destruct p; exact id. Qed.

Lemma wp_write (r : ref) (k : Tensor F -> list F) (Q : unit -> State F -> Prop)
    (st : State F) :
  Q tt (update st r (with_data (read st r) (k (read st r)))) -> wp (write r k) Q st.
Proof. exact id. Qed.

Lemma wp_Reshape_at (r : ref) (shape_list : list Z) (devtype : DLDeviceType)
    (devid : Z) (Q : unit -> State F -> Prop) (st : State F) :
  all_positive shape_list = true ->
  Q tt (update st r (reshaped (read st r) shape_list devtype devid)) ->
  wp (Reshape_at r shape_list devtype devid) Q st.
Proof.
  intros Hpos HQ. unfold wp, Reshape_at, mbind, M_bind, load, lift, Reshape.
  rewrite Hpos. exact HQ.
Qed.

Lemma wp_TT_ENFORCE_EQ {A} `{EqDecision A} (a b : A) (e : error)
    (Q : unit -> State F -> Prop) (st : State F) :
  a = b -> Q tt st -> wp (TT_ENFORCE_EQ a b e) Q st.
Proof.
  intros Hab HQ. unfold wp, TT_ENFORCE_EQ. destruct (decide (a = b)); [exact HQ | contradiction].
Qed.

Lemma wp_write_any (r : ref) (k : Tensor F -> list F)
    (Q : unit -> State F -> Prop) (st : State F) :
  (forall t, Q tt (update st r t)) -> wp (write r k) Q st.
Proof. intros HQ. apply HQ. Qed.

Lemma wp_Reshape_at_any (r : ref) (shape_list : list Z) (devtype : DLDeviceType)
    (devid : Z) (Q : unit -> State F -> Prop) (st : State F) :
  all_positive shape_list = true ->
  (forall t, Q tt (update st r t)) ->
  wp (Reshape_at r shape_list devtype devid) Q st.
Proof. intros Hpos HQ. apply wp_Reshape_at; [exact Hpos | apply HQ]. Qed.

Lemma wp_lift_Reshape (t : Tensor F) (shape_list : list Z) (devtype : DLDeviceType)
    (devid : Z) (Q : Tensor F -> State F -> Prop) (st : State F) :
  all_positive shape_list = true ->
  Q (reshaped t shape_list devtype devid) st ->
  wp (lift (Reshape t shape_list devtype devid)) Q st.
Proof. intros Hpos HQ. unfold wp, lift, Reshape. rewrite Hpos. exact HQ. Qed.

Lemma preserves_unchanged {A} (P : State F -> Prop) (m : M F A) :
  (forall st, fst (m st) = st) -> preserves P m.
Proof. intros Hm st HP. rewrite Hm. exact HP. Qed.

Lemma preserves_ret {A} (P : State F -> Prop) (a : A) : preserves P (mret a).
Proof. apply preserves_unchanged. reflexivity. Qed.

Lemma preserves_throw {A} (P : State F -> Prop) (e : error) :
  preserves P (throw e : M F A).
Proof. apply preserves_unchanged. reflexivity. Qed.

Lemma preserves_load (P : State F -> Prop) (r : ref) : preserves P (load r).
Proof. apply preserves_unchanged. reflexivity. Qed.

Lemma preserves_deref (P : State F -> Prop) (p : tensor_ptr) : preserves P (deref p).
Proof. apply preserves_unchanged. destruct p; reflexivity. Qed.

Lemma preserves_TT_ENFORCE_EQ {A} `{EqDecision A} (P : State F -> Prop)
    (a b : A) (e : error) :
  preserves P (TT_ENFORCE_EQ a b e).
Proof.
  apply preserves_unchanged. intros st. unfold TT_ENFORCE_EQ.
  destruct (decide (a = b)); reflexivity.
Qed.

Lemma preserves_bind {A B} (P : State F -> Prop) (m : M F A) (f : A -> M F B) :
  preserves P m -> (forall a, preserves P (f a)) -> preserves P (m ≫= f).
Proof.
  intros Hm Hf st HP. specialize (Hm st HP).
  unfold mbind, M_bind. destruct (m st) as [st' [a|e]]; simpl in *.
  - apply Hf, Hm.
  - exact Hm.
Qed.

Lemma preserves_bind_GetTensor {B} (P : State F -> Prop) (s : Slot)
    (c : DLContext) (f : ref -> M F B) :
  stable_fetch P -> preserves P (f (Scratch s c)) ->
  preserves P (GetTensor s c ≫= f).
Proof.
  intros Hfetch Hf st HP. unfold mbind, M_bind, GetTensor. apply Hf, Hfetch, HP.
Qed.

Lemma preserves_store (P : State F -> Prop) (r : ref) (t : Tensor F) :
  stable_at P r -> preserves P (store r t).
Proof. intros Hr st HP. apply Hr, HP. Qed.

Lemma preserves_write (P : State F -> Prop) (r : ref) (k : Tensor F -> list F) :
  stable_at P r -> preserves P (write r k).
Proof. intros Hr st HP. apply Hr, HP. Qed.

Lemma preserves_Reshape_at (P : State F -> Prop) (r : ref) (shape_list : list Z)
    (devtype : DLDeviceType) (devid : Z) :
  stable_at P r -> preserves P (Reshape_at r shape_list devtype devid).
Proof.
  intros Hr st HP. unfold Reshape_at, mbind, M_bind, load, lift, Reshape.
  destruct (all_positive shape_list); simpl; [apply Hr, HP | exact HP].
Qed.

Lemma preserves_lift {A} (P : State F -> Prop) (o : outcome A) :
  preserves P (lift o).
Proof. apply preserves_unchanged. reflexivity. Qed.

Lemma wp_preserves {A} (m : M F A) (Q : A -> State F -> Prop)
    (P : State F -> Prop) (st : State F) :
  wp m Q st -> preserves P m -> P st -> wp m (fun a st' => Q a st' /\ P st') st.
Proof.
  unfold wp. intros Hwp Hm HP. specialize (Hm st HP).
  destruct (m st) as [st' [a|e]]; [split; assumption | exact Hwp].
Qed.

Lemma ends_bind {A B} (m : M F A) (f : A -> M F B)
    (Q : outcome B -> State F -> Prop) (st : State F) :
  ends m (fun o st' => match o with
                       | Returns a => ends (f a) Q st'
                       | Throws e => Q (Throws e) st'
                       end) st ->
  ends (m ≫= f) Q st.
Proof.
  unfold ends, mbind, M_bind. destruct (m st) as [st' [a|e]]; exact id.
Qed.

Lemma ends_load (r : ref) (Q : outcome (Tensor F) -> State F -> Prop) (st : State F) :
  Q (Returns (read st r)) st -> ends (load r) Q st.
Proof. exact id. Qed.

Lemma ends_throw {A} (e : error) (Q : outcome A -> State F -> Prop) (st : State F) :
  Q (Throws e) st -> ends (throw e) Q st.
Proof. exact id. Qed.

Lemma ends_TT_ENFORCE_EQ {A} `{EqDecision A} (a b : A) (e : error)
    (Q : outcome unit -> State F -> Prop) (st : State F) :
  (a = b -> Q (Returns tt) st) -> (a ≠ b -> Q (Throws e) st) ->
  ends (TT_ENFORCE_EQ a b e) Q st.
Proof.
  intros Heq Hne. unfold ends, TT_ENFORCE_EQ.
  destruct (decide (a = b)); [apply Heq | apply Hne]; assumption.
Qed.












Lemma returns_only_if_holds {A} (C : Prop) (m : M F A) :
  C -> returns_only_if C m.
Proof. intros HC st st' a _. exact HC. Qed.

Lemma returns_only_if_throw {A} (C : Prop) (e : error) :
  returns_only_if C (throw e : M F A).
Proof. intros st st' a Heq. discriminate Heq. Qed.

Lemma returns_only_if_bind {A B} (C D : Prop) (m : M F A) (f : A -> M F B) :
  returns_only_if D m -> (D -> forall a, returns_only_if C (f a)) ->
  returns_only_if C (m ≫= f).
Proof.
  intros Hm Hf st st' b. unfold mbind, M_bind.
  destruct (m st) as [st1 [a|e]] eqn:Em; intros Heq; [|discriminate Heq].
  exact (Hf (Hm _ _ _ Em) a _ _ _ Heq).
Qed.

Lemma returns_only_if_Reshape_at (r : ref) (shape_list : list Z)
    (devtype : DLDeviceType) (devid : Z) :
  returns_only_if (all_positive shape_list = true)
    (Reshape_at r shape_list devtype devid : M F unit).
Proof.
  intros st st' a. unfold Reshape_at, mbind, M_bind, load, lift, Reshape.
  destruct (all_positive shape_list); [reflexivity | discriminate].
Qed.

Lemma returns_only_if_TT_ENFORCE_EQ {A} `{EqDecision A} (a b : A) (e : error) :
  returns_only_if (a = b) (TT_ENFORCE_EQ a b e : M F unit).
Proof.
  intros st st' u. unfold TT_ENFORCE_EQ.
  destruct (decide (a = b)); [intros _; assumption | discriminate].
Qed.

Lemma ends_of_returns_only_if {A} (C : Prop) (m : M F A) (st : State F) :
  returns_only_if C m -> ends m (fun o _ => forall a, o = Returns a -> C) st.
Proof.
  intros Hm. unfold ends. intros a Heq.
  apply (Hm st (fst (m st)) a). rewrite <- Heq. apply surjective_pairing.
Qed.

Lemma ends_ret {A} (a : A) (Q : outcome A -> State F -> Prop) (st : State F) :
  Q (Returns a) st -> ends (mret a) Q st.
Proof. exact id. Qed.



End Rules.

Ltac solve_positive :=
  repeat (apply all_positive_cons; split); [ try lia .. | apply all_positive_nil ].

Ltac wp_step :=
  lazymatch goal with
  | |- wp (mbind _ _) _ _ => apply wp_bind
  | |- wp (mret _) _ _ => apply wp_ret
  | |- wp (load _) _ _ => apply wp_load
  | |- wp (store _ _) _ _ => apply wp_store
  | |- wp (GetTensor _ _) _ _ => apply wp_GetTensor
  | |- wp (deref _) _ _ => apply wp_deref
  | |- wp (write _ _) _ _ => apply wp_write
  | |- wp (Reshape_at _ _ _ _) _ _ => apply wp_Reshape_at; [ solve_positive | ]
  | |- wp (lift (Reshape _ _ _ _)) _ _ => apply wp_lift_Reshape; [ solve_positive | ]
  | |- wp (TT_ENFORCE_EQ _ _ _) _ _ => apply wp_TT_ENFORCE_EQ; [ solve [auto] | ]
  end.

(** The same, forgetting what the stage writes. *)
Ltac wp_skip :=
  lazymatch goal with
  | |- wp (write _ _) _ _ => apply wp_write_any; intros ?
  | |- wp (Reshape_at _ _ _ _) _ _ =>
      apply wp_Reshape_at_any; [ solve_positive | intros ? ]
  | |- wp (if ?b then _ else _) _ _ => destruct b
  | |- _ => wp_step
  end.

Ltac preserves_step :=
  lazymatch goal with
  | |- preserves _ (mbind _ (GetTensor _ _)) =>
      apply preserves_bind_GetTensor; [ assumption | ]
  | |- preserves _ (mbind _ _) => apply preserves_bind; [ | intros ? ]
  | |- preserves _ (mret _) => apply preserves_ret
  | |- preserves _ (throw _) => apply preserves_throw
  | |- preserves _ (lift _) => apply preserves_lift
  | |- preserves _ (load _) => apply preserves_load
  | |- preserves _ (deref _) => apply preserves_deref
  | |- preserves _ (TT_ENFORCE_EQ _ _ _) => apply preserves_TT_ENFORCE_EQ
  | |- preserves _ (store _ _) => apply preserves_store; solve [ auto ]
  | |- preserves _ (write _ _) => apply preserves_write; solve [ auto ]
  | |- preserves _ (Reshape_at _ _ _ _) => apply preserves_Reshape_at; solve [ auto ]
  | |- preserves _ (if ?b then _ else _) => destruct b
  | |- preserves _ (match ?p with (_, _) => _ end) => destruct p
  end.

Ltac solve_distinct :=
  first [ congruence
        | apply projection_ref_not_attend; [ assumption | reflexivity ]
        | apply projection_ref_not_caller; assumption ].

Ltac read_norm :=
  repeat first
    [ rewrite read_update_eq
    | rewrite read_fetch
    | rewrite pointee_fetch
    | rewrite read_update_ne by solve_distinct
    | rewrite pointee_update_ne by solve_distinct ].


Ltac ends_step :=
  lazymatch goal with
  | |- ends (mbind _ _) _ _ => apply ends_bind
  | |- ends (load _) _ _ => apply ends_load
  | |- ends (throw _) _ _ => apply ends_throw
  | |- ends (TT_ENFORCE_EQ _ _ _) _ _ => apply ends_TT_ENFORCE_EQ; intros ?
  end.

Ltac split_valid Hv :=
  unfold valid_call, operand_checks_pass in Hv;
  repeat (apply andb_prop in Hv; destruct Hv as [Hv ?]);
  repeat match goal with Hx : (_ =? _) = true |- _ => apply Z.eqb_eq in Hx end;
  match goal with Hx : all_positive _ = true |- _ =>
    repeat (apply all_positive_cons in Hx; destruct Hx as [? Hx]); clear Hx end.

Ltac returns_step :=
  lazymatch goal with
  | |- returns_only_if _ (mbind _ (Reshape_at _ ?s _ _)) =>
      apply (returns_only_if_bind _ (all_positive s = true));
      [ apply returns_only_if_Reshape_at | intros ? ? ]
  | |- returns_only_if _ (mbind _ (TT_ENFORCE_EQ ?a ?b _)) =>
      apply (returns_only_if_bind _ (a = b));
      [ apply returns_only_if_TT_ENFORCE_EQ | intros ? ? ]
  | |- returns_only_if _ (mbind _ (if ?c then _ else _)) =>
      destruct c eqn:?
  | |- returns_only_if _ (mbind _ (throw _)) =>
      apply (returns_only_if_bind _ False);
      [ apply returns_only_if_throw | intros [] ]
  | |- returns_only_if _ (mbind _ _) =>
      apply (returns_only_if_bind _ True);
      [ apply returns_only_if_holds; exact I | intros _ ? ]
  | |- returns_only_if _ (throw _) => apply returns_only_if_throw
  | |- returns_only_if _ (match ?p with (_, _) => _ end) => destruct p
  end.

Ltac collect_positive :=
  repeat match goal with
         | Hx : all_positive (_ :: _) = true |- _ =>
             apply all_positive_cons in Hx; destruct Hx as [? Hx]
         | Hx : all_positive [] = true |- _ => clear Hx
         end.

Ltac decide_checks :=
  repeat match goal with
         | Hx : @eq bool _ true |- _ => rewrite Hx
         | Hx : _ ≠ true |- _ => apply not_true_is_false in Hx; rewrite Hx
         | Hx : @eq Z _ _ |- _ => apply Z.eqb_eq in Hx; rewrite Hx
         | Hx : not (@eq Z _ _) |- _ => apply Z.eqb_neq in Hx; rewrite Hx
         end.

(** ** The stages of the call *)

Section Stages.
Context {F : Type} `{Scalar F} `{Kernels F}.

Lemma project_preserves (P : State F -> Prop) (self : MultiHeadedAttention F)
    (key_tensor value_tensor query_tensor : loc) (attn_type : string)
    (pre_layernorm : bool)
    (batch_size query_seq_length key_seq_length hidden_size size_per_head : Z)
    (devtype : DLDeviceType) (devid : Z) (devctx : DLContext) :
  stable_fetch P ->
  (forall s c, projection_slot s = true -> stable_at P (Scratch s c)) ->
  preserves P (project self key_tensor value_tensor query_tensor attn_type
                 pre_layernorm batch_size query_seq_length key_seq_length
                 hidden_size size_per_head devtype devid devctx).
Proof.
  intros Hfetch Hslot.
  unfold project, project_context, project_self.
  repeat preserves_step.
Qed.

Lemma attend_preserves (P : State F -> Prop) (self : MultiHeadedAttention F)
    (query_tensor attention_mask output : loc) (post_add : bool)
    (q_ptr k_ptr v_ptr : tensor_ptr)
    (batch_size query_seq_length key_seq_length hidden_size size_per_head : Z)
    (devtype : DLDeviceType) (devid : Z) (devctx : DLContext) :
  stable_fetch P ->
  (forall s c, projection_slot s = false -> stable_at P (Scratch s c)) ->
  stable_at P (Caller output) ->
  preserves P (attend self query_tensor attention_mask output post_add
                 q_ptr k_ptr v_ptr batch_size query_seq_length key_seq_length
                 hidden_size size_per_head devtype devid devctx).
Proof.
  intros Hfetch Hslot Hout.
  unfold attend.
  repeat preserves_step.
Qed.

Lemma call_preserves (P : State F -> Prop) (self : MultiHeadedAttention F)
    (key_tensor value_tensor query_tensor attention_mask : loc)
    (attn_type : string) (output : loc) (pre_layernorm post_add : bool) :
  stable_fetch P ->
  (forall s c, stable_at P (Scratch s c)) ->
  stable_at P (Caller output) ->
  preserves P (MultiHeadedAttention_call self key_tensor value_tensor
                 query_tensor attention_mask attn_type output pre_layernorm
                 post_add).
Proof.
  intros Hfetch Hslot Hout.
  unfold MultiHeadedAttention_call, derive_key_seq_length, derive_size_per_head.
  repeat first
    [ apply project_preserves; [ assumption | intros; apply Hslot ]
    | apply attend_preserves; [ assumption | intros; apply Hslot | assumption ]
    | preserves_step ].
Qed.

Lemma project_returns (self : MultiHeadedAttention F) (st : State F)
    (key_tensor value_tensor query_tensor : loc) (attn_type : string)
    (pre_layernorm : bool)
    (batch_size query_seq_length key_seq_length hidden_size size_per_head : Z)
    (devtype : DLDeviceType) (devid : Z) :
  String.eqb attn_type "context" || String.eqb attn_type "self" = true ->
  all_positive [batch_size; query_seq_length; key_seq_length; hidden_size;
                num_attention_heads_ self; size_per_head] = true ->
  let key := read st (Caller key_tensor) in
  let value := read st (Caller value_tensor) in
  let query := read st (Caller query_tensor) in
  wp (project self key_tensor value_tensor query_tensor attn_type pre_layernorm
        batch_size query_seq_length key_seq_length hidden_size size_per_head
        devtype devid (device_ctx query))
     (fun ptrs _ => ptrs = (q_ptr_of attn_type query, k_ptr_of attn_type key query,
                            v_ptr_of attn_type value query))
     st.
Proof.
  intros Hty Hpos key value query.
  repeat (apply all_positive_cons in Hpos; destruct Hpos as [? Hpos]).
  unfold project, q_ptr_of, k_ptr_of, v_ptr_of.
  destruct (String.eqb attn_type "context").
  - unfold project_context. repeat wp_skip; reflexivity.
  - simpl in Hty. rewrite Hty.
    unfold project_self. repeat wp_skip; reflexivity.
Qed.

(** The common continuation, run from the state the projection stage
    leaves. *)
Lemma attend_spec (self : MultiHeadedAttention F) (st : State F)
    (query_tensor attention_mask output : loc) (post_add : bool)
    (q_ptr k_ptr v_ptr : tensor_ptr)
    (batch_size query_seq_length key_seq_length hidden_size size_per_head : Z)
    (devtype : DLDeviceType) (devid : Z) (devctx : DLContext) :
  all_positive [batch_size; query_seq_length; key_seq_length; hidden_size;
                num_attention_heads_ self; size_per_head] = true ->
  projection_ref (ptr_ref q_ptr) = true ->
  projection_ref (ptr_ref k_ptr) = true ->
  projection_ref (ptr_ref v_ptr) = true ->
  wp (attend self query_tensor attention_mask output post_add q_ptr k_ptr v_ptr
        batch_size query_seq_length key_seq_length hidden_size size_per_head
        devtype devid devctx)
     (fun _ st' =>
        let heads := num_attention_heads_ self in
        let s0 := reshaped (read st (Scratch att_score_tmp devctx))
                    [batch_size; heads; query_seq_length; key_seq_length]
                    devtype devid in
        let scaled := with_data s0
                        (BatchMatMul (pointee st q_ptr) false (pointee st k_ptr) true
                           (fdiv fone (fsqrt (of_int64 size_per_head))) s0 fzero) in
        let score := read st' (Scratch att_score_tmp devctx) in
        let c0 := reshaped (read st (Scratch context_layer_tmpr devctx))
                    [batch_size; heads; query_seq_length; size_per_head]
                    devtype devid in
        let context_layer := read st' (Scratch context_layer_tmpr devctx) in
        let u0 := reshaped (read st (Scratch self_attr_out_tmp devctx))
                    [batch_size; query_seq_length; heads * size_per_head]
                    devtype devid in
        let unshaped := read st' (Scratch self_attr_out_tmp devctx) in
        let o0 := reshaped (read st (Caller output))
                    [batch_size; query_seq_length; hidden_size] devtype devid in
        let projected := with_data o0
                           (MatMul unshaped false (dense_weight_ self) false fone
                              o0 fzero) in
        let residual := if decide (output = query_tensor) then projected
                        else read st (Caller query_tensor) in
        score =
          with_data scaled
            (ApplyMaskAndSoftmax scaled (read st (Caller attention_mask)) fone) /\
        context_layer =
          with_data c0 (BatchMatMul score false (pointee st v_ptr) false fone c0 fzero) /\
        unshaped = with_data u0 (TransposeForScore u0 context_layer) /\
        read st' (Caller output) =
          with_data projected
            (if post_add
             then AddInputBias projected residual (dense_bias_ self) projected
             else AddBias (dense_bias_ self) projected))
     st.
Proof.
  intros Hpos Hq Hk Hv.
  repeat (apply all_positive_cons in Hpos; destruct Hpos as [? Hpos]).
  assert (0 < num_attention_heads_ self * size_per_head) by lia.
  unfold attend.
  destruct post_add; cbn [negb].
  all: repeat (wp_step; read_norm).
  all: cbv zeta; destruct (decide (output = query_tensor)) as [->|Hne].
  all: read_norm.
  all: repeat split; reflexivity.
Qed.

Lemma projection_frame_stable (st : State F) :
  stable_fetch (projection_frame st) /\
  forall s c, projection_slot s = true -> stable_at (projection_frame st) (Scratch s c).
Proof.
  split.
  - intros st' s c [Hh Hr]. split; [exact Hh|].
    intros r Hpr. rewrite read_fetch. apply Hr, Hpr.
  - intros s c Hs st' t [Hh Hr]. split; [exact Hh|].
    intros r Hpr. rewrite read_update_ne; [apply Hr, Hpr|].
    intros <-. simpl in Hpr. congruence.
Qed.

Lemma attend_frame_stable (st : State F) (output : loc) :
  stable_fetch (attend_frame st) /\
  (forall s c, projection_slot s = false -> stable_at (attend_frame st) (Scratch s c)) /\
  stable_at (attend_frame st) (Caller output).
Proof.
  split; [|split].
  - intros st' s c Hr r Hpr. rewrite read_fetch. apply Hr, Hpr.
  - intros s c Hs st' t Hr r Hpr. rewrite read_update_ne; [apply Hr, Hpr|].
    intros <-. simpl in Hpr. congruence.
  - intros st' t Hr r Hpr. rewrite read_update_ne; [apply Hr, Hpr|].
    intros <-. discriminate Hpr.
Qed.

Lemma project_spec (self : MultiHeadedAttention F) (st : State F)
    (key_tensor value_tensor query_tensor : loc) (attn_type : string)
    (pre_layernorm : bool)
    (batch_size query_seq_length key_seq_length hidden_size size_per_head : Z)
    (devtype : DLDeviceType) (devid : Z) :
  known_variant attn_type = true ->
  all_positive [batch_size; query_seq_length; key_seq_length; hidden_size;
                num_attention_heads_ self; size_per_head] = true ->
  let key := read st (Caller key_tensor) in
  let value := read st (Caller value_tensor) in
  let query := read st (Caller query_tensor) in
  wp (project self key_tensor value_tensor query_tensor attn_type pre_layernorm
        batch_size query_seq_length key_seq_length hidden_size size_per_head
        devtype devid (device_ctx query))
     (fun ptrs st' =>
        ptrs = (q_ptr_of attn_type query, k_ptr_of attn_type key query,
                v_ptr_of attn_type value query) /\
        projection_frame st st')
     st.
Proof.
  intros Hty Hpos key value query.
  apply wp_preserves.
  - apply project_returns; assumption.
  - apply project_preserves; apply projection_frame_stable.
  - split; reflexivity.
Qed.

Lemma ptr_of_projection (attn_type : string) (key value query : Tensor F) :
  projection_ref (ptr_ref (q_ptr_of attn_type query)) = true /\
  projection_ref (ptr_ref (k_ptr_of attn_type key query)) = true /\
  projection_ref (ptr_ref (v_ptr_of attn_type value query)) = true.
Proof.
  unfold q_ptr_of, k_ptr_of, v_ptr_of.
  destruct (String.eqb attn_type "context"); repeat split.
Qed.

Lemma pointee_frame (st st' : State F) (p : tensor_ptr) :
  attend_frame st st' -> projection_ref (ptr_ref p) = true ->
  pointee st' p = pointee st p.
Proof.
  intros Hfr Hp. destruct p; simpl in *; rewrite (Hfr _ Hp); reflexivity.
Qed.

Lemma derive_key_seq_length_known (attn_type : string) (key query : Tensor F) :
  known_variant attn_type = true ->
  derive_key_seq_length attn_type key (shape_at query 1)
  = mret (key_seq_length_of attn_type key query).
Proof.
  unfold known_variant, derive_key_seq_length, key_seq_length_of.
  destruct (String.eqb attn_type "context"); [reflexivity|].
  simpl. intros ->. reflexivity.
Qed.

(** What a valid call computes: the scores, the weighted sum, the merged
    heads and the output, each from the tensors of the stage before. *)
Lemma call_spec (self : MultiHeadedAttention F) (st : State F)
    (key_tensor value_tensor query_tensor attention_mask : loc)
    (attn_type : string) (output : loc) (pre_layernorm post_add : bool) :
  valid_call self st key_tensor value_tensor query_tensor attention_mask attn_type = true ->
  wp (MultiHeadedAttention_call self key_tensor value_tensor query_tensor
        attention_mask attn_type output pre_layernorm post_add)
     (fun _ st' =>
        let key := read st (Caller key_tensor) in
        let value := read st (Caller value_tensor) in
        let query := read st (Caller query_tensor) in
        let mask := read st (Caller attention_mask) in
        let heads := num_attention_heads_ self in
        let size_per_head := shape_at query 2 ÷ heads in
        let devctx := device_ctx query in
        let devtype := device_type devctx in
        let devid := device_id devctx in
        let s0 := reshaped (read st (Scratch att_score_tmp devctx))
                    [shape_at query 0; heads; shape_at query 1;
                     key_seq_length_of attn_type key query] devtype devid in
        let scaled := with_data s0
                        (BatchMatMul (pointee st' (q_ptr_of attn_type query)) false
                           (pointee st' (k_ptr_of attn_type key query)) true
                           (fdiv fone (fsqrt (of_int64 size_per_head))) s0 fzero) in
        let score := read st' (Scratch att_score_tmp devctx) in
        let c0 := reshaped (read st (Scratch context_layer_tmpr devctx))
                    [shape_at query 0; heads; shape_at query 1; size_per_head]
                    devtype devid in
        let context_layer := read st' (Scratch context_layer_tmpr devctx) in
        let u0 := reshaped (read st (Scratch self_attr_out_tmp devctx))
                    [shape_at query 0; shape_at query 1; heads * size_per_head]
                    devtype devid in
        let unshaped := read st' (Scratch self_attr_out_tmp devctx) in
        let o0 := reshaped (read st (Caller output))
                    [shape_at query 0; shape_at query 1; shape_at query 2]
                    devtype devid in
        let projected := with_data o0
                           (MatMul unshaped false (dense_weight_ self) false fone
                              o0 fzero) in
        let residual := if decide (output = query_tensor) then projected else query in
        score = with_data scaled (ApplyMaskAndSoftmax scaled mask fone) /\
        context_layer =
          with_data c0
            (BatchMatMul score false (pointee st' (v_ptr_of attn_type value query))
               false fone c0 fzero) /\
        unshaped = with_data u0 (TransposeForScore u0 context_layer) /\
        read st' (Caller output) =
          with_data projected
            (if post_add
             then AddInputBias projected residual (dense_bias_ self) projected
             else AddBias (dense_bias_ self) projected))
     st.
Proof.
  intros Hv. split_valid Hv.
  unfold MultiHeadedAttention_call.
  repeat wp_step.
  rewrite derive_key_seq_length_known by assumption. wp_step.
  unfold derive_size_per_head.
  destruct (Z.eqb_spec (num_attention_heads_ self) 0) as [E0|E0]; [lia|].
  repeat wp_step.
  eapply wp_mono.
  { apply project_spec; [assumption | solve_positive]. }
  intros ptrs st1 [-> [Hheap Hfr]]. cbv beta iota.
  destruct (ptr_of_projection attn_type (read st (Caller key_tensor))
              (read st (Caller value_tensor)) (read st (Caller query_tensor)))
    as (Hq & Hk & Hv').
  eapply wp_mono.
  { apply wp_preserves.
    - apply attend_spec; [solve_positive | eassumption ..].
    - apply attend_preserves; apply (attend_frame_stable st1 output).
    - intros r _. reflexivity. }
  cbv beta zeta. intros _ st' [(Hscore & Hctx & Hun & Hout) Hfr'].
  rewrite !(pointee_frame st1 st') by assumption.
  rewrite Hout, Hun at 1. rewrite Hctx at 1. rewrite Hscore at 1.
  rewrite !Hfr by reflexivity.
  repeat split; reflexivity.
Qed.

Lemma project_context_exact (self : MultiHeadedAttention F) (st : State F)
    (key_tensor value_tensor query_tensor : loc)
    (batch_size query_seq_length key_seq_length hidden_size : Z)
    (devtype : DLDeviceType) (devid : Z) :
  all_positive [batch_size; query_seq_length; key_seq_length; hidden_size;
                num_attention_heads_ self;
                hidden_size ÷ num_attention_heads_ self] = true ->
  let key := read st (Caller key_tensor) in
  let value := read st (Caller value_tensor) in
  let query := read st (Caller query_tensor) in
  wp (project_context self key_tensor value_tensor query_tensor false
        batch_size query_seq_length key_seq_length hidden_size
        (hidden_size ÷ num_attention_heads_ self) devtype devid (device_ctx query))
     (fun _ st' =>
        read st' (Scratch q_out2_temp (device_ctx query))
        = separate_projection self st query (q_weight_ self) (q_bias_ self)
            q_out1_temp q_out2_temp (device_ctx query)
            batch_size query_seq_length hidden_size devtype devid /\
        read st' (Scratch k_out2_temp (device_ctx key))
        = separate_projection self st key (k_weight_ self) (k_bias_ self)
            k_out1_temp k_out2_temp (device_ctx key)
            batch_size key_seq_length hidden_size devtype devid /\
        read st' (Scratch v_out2_temp (device_ctx value))
        = separate_projection self st value (v_weight_ self) (v_bias_ self)
            v_out1_temp v_out2_temp (device_ctx value)
            batch_size key_seq_length hidden_size devtype devid)
     st.
Proof.
  intros Hpos key value query.
  repeat (apply all_positive_cons in Hpos; destruct Hpos as [? Hpos]).
  unfold project_context.
  repeat (wp_step; read_norm).
  repeat split; reflexivity.
Qed.

Lemma project_self_exact (self : MultiHeadedAttention F) (st : State F)
    (query_tensor : loc)
    (batch_size query_seq_length hidden_size : Z)
    (devtype : DLDeviceType) (devid : Z) (devctx : DLContext) :
  all_positive [batch_size; query_seq_length; hidden_size;
                num_attention_heads_ self;
                hidden_size ÷ num_attention_heads_ self] = true ->
  wp (project_self self query_tensor false
        batch_size query_seq_length hidden_size
        (hidden_size ÷ num_attention_heads_ self) devtype devid devctx)
     (fun _ st' =>
        read st' (Scratch qkv_out2_temp devctx)
        = fused_projection self st (read st (Caller query_tensor)) devctx
            batch_size query_seq_length hidden_size devtype devid)
     st.
Proof.
  intros Hpos.
  repeat (apply all_positive_cons in Hpos; destruct Hpos as [? Hpos]).
  unfold project_self.
  repeat (wp_step; read_norm).
  reflexivity.
Qed.

Lemma project_exact (self : MultiHeadedAttention F) (st : State F)
    (key_tensor value_tensor query_tensor : loc) (attn_type : string) :
  let key := read st (Caller key_tensor) in
  let value := read st (Caller value_tensor) in
  let query := read st (Caller query_tensor) in
  let heads := num_attention_heads_ self in
  known_variant attn_type = true ->
  all_positive [shape_at query 0; shape_at query 1; shape_at query 2;
                key_seq_length_of attn_type key query;
                heads; shape_at query 2 ÷ heads] = true ->
  wp (project self key_tensor value_tensor query_tensor attn_type false
        (shape_at query 0) (shape_at query 1)
        (key_seq_length_of attn_type key query) (shape_at query 2)
        (shape_at query 2 ÷ heads)
        (device_type (device_ctx query)) (device_id (device_ctx query))
        (device_ctx query))
     (fun _ st' =>
        (pointee st' (q_ptr_of attn_type query),
         pointee st' (k_ptr_of attn_type key query),
         pointee st' (v_ptr_of attn_type value query))
        = projections self st key value query attn_type)
     st.
Proof.
  intros key value query heads Hk Hpos. subst key value query heads.
  repeat (apply all_positive_cons in Hpos; destruct Hpos as [? Hpos]).
  unfold known_variant in Hk.
  unfold project, projections, q_ptr_of, k_ptr_of, v_ptr_of, key_seq_length_of in *.
  destruct (String.eqb attn_type "context").
  - eapply wp_mono; [apply project_context_exact; solve_positive|].
    intros _ st' (Hq & Hkey & Hv). cbn [pointee].
    rewrite Hq, Hkey, Hv. reflexivity.
  - simpl in Hk. rewrite Hk.
    eapply wp_mono; [apply project_self_exact; solve_positive|].
    intros ? st' Hf. cbn beta in Hf. cbn [pointee]. rewrite Hf. reflexivity.
Qed.

Lemma call_projections (self : MultiHeadedAttention F) (st : State F)
    (key_tensor value_tensor query_tensor attention_mask : loc)
    (attn_type : string) (output : loc) (post_add : bool) :
  valid_call self st key_tensor value_tensor query_tensor attention_mask
    attn_type = true ->
  wp (MultiHeadedAttention_call self key_tensor value_tensor query_tensor
        attention_mask attn_type output false post_add)
     (fun _ st' =>
        let key := read st (Caller key_tensor) in
        let value := read st (Caller value_tensor) in
        let query := read st (Caller query_tensor) in
        (pointee st' (q_ptr_of attn_type query),
         pointee st' (k_ptr_of attn_type key query),
         pointee st' (v_ptr_of attn_type value query))
        = projections self st key value query attn_type)
     st.
Proof.
  intros Hv. split_valid Hv.
  unfold MultiHeadedAttention_call.
  repeat wp_step.
  rewrite derive_key_seq_length_known by assumption. wp_step.
  unfold derive_size_per_head.
  destruct (Z.eqb_spec (num_attention_heads_ self) 0) as [E0|E0]; [lia|].
  repeat wp_step.
  eapply wp_mono.
  { apply wp_conj.
    - apply project_spec; [assumption | solve_positive].
    - apply project_exact; [assumption | solve_positive]. }
  intros ptrs st1 [[-> _] Hproj]. cbv beta iota.
  destruct (ptr_of_projection attn_type (read st (Caller key_tensor))
              (read st (Caller value_tensor)) (read st (Caller query_tensor)))
    as (Hq & Hk & Hv').
  eapply wp_mono.
  { apply wp_preserves.
    - apply attend_spec; [solve_positive | eassumption ..].
    - apply attend_preserves; apply (attend_frame_stable st1 output).
    - intros r _. reflexivity. }
  cbv beta zeta. intros _ st' [_ Hfr'].
  rewrite !(pointee_frame st1 st') by assumption.
  exact Hproj.
Qed.

Lemma valid_call_self (self : MultiHeadedAttention F) (st : State F)
    (key_tensor value_tensor query_tensor attention_mask : loc)
    (attn_type : string) :
  valid_call self st key_tensor value_tensor query_tensor attention_mask
    attn_type = true ->
  valid_call self st key_tensor value_tensor query_tensor attention_mask
    "self" = true.
Proof.
  unfold valid_call. intros Hv.
  apply andb_prop in Hv as [Hv Hpos]. apply andb_prop in Hv as [Hc _].
  rewrite Hc. replace (known_variant "self") with true by reflexivity.
  cbn [andb].
  repeat (apply all_positive_cons in Hpos; destruct Hpos as [? Hpos]).
  replace (key_seq_length_of "self" (read st (Caller key_tensor))
             (read st (Caller query_tensor)))
    with (shape_at (read st (Caller query_tensor)) 1) by reflexivity.
  solve_positive.
Qed.

Lemma derive_key_seq_length_unknown (attn_type : string) (key : Tensor F) (n : Z) :
  known_variant attn_type = false ->
  derive_key_seq_length attn_type key n = throw (InvalidArgument msg_attn_type).
Proof.
  unfold known_variant, derive_key_seq_length. intros Hk.
  apply orb_false_elim in Hk as [-> ->]. reflexivity.
Qed.





Lemma known_variant_false (attn_type : string) :
  attn_type ≠ "context" -> attn_type ≠ "self" -> known_variant attn_type = false.
Proof.
  intros Hc Hs. unfold known_variant.
  apply String.eqb_neq in Hc, Hs. rewrite Hc, Hs. reflexivity.
Qed.


Lemma tail_returns_only_if (self : MultiHeadedAttention F)
    (key_tensor value_tensor query_tensor attention_mask output : loc)
    (attn_type : string) (pre_layernorm post_add : bool)
    (batch_size query_seq_length key_seq_length hidden_size size_per_head : Z)
    (devtype : DLDeviceType) (devid : Z) (devctx : DLContext) :
  returns_only_if
    (known_variant attn_type = true /\
     all_positive [batch_size; query_seq_length; hidden_size; key_seq_length;
                   num_attention_heads_ self; size_per_head] = true)
    ('(q_ptr, k_ptr, v_ptr) ← project self key_tensor value_tensor query_tensor
        attn_type pre_layernorm batch_size query_seq_length key_seq_length
        hidden_size size_per_head devtype devid devctx;
     attend self query_tensor attention_mask output post_add q_ptr k_ptr v_ptr
       batch_size query_seq_length key_seq_length hidden_size size_per_head
       devtype devid devctx).
Proof.
  unfold project, project_context, project_self, attend, known_variant.
  destruct (String.eqb attn_type "context") eqn:Ec;
    [ | destruct (String.eqb attn_type "self") eqn:Es ].
  3: { apply (returns_only_if_bind _ False);
         [ apply returns_only_if_throw | intros [] ]. }
  all: repeat returns_step.
  all: apply returns_only_if_holds; split; [reflexivity|].
  all: collect_positive; solve_positive.
Qed.

Lemma valid_call_complete (self : MultiHeadedAttention F) (st st' : State F)
    (key_tensor value_tensor query_tensor attention_mask : loc)
    (attn_type : string) (output : loc) (pre_layernorm post_add : bool) :
  MultiHeadedAttention_call self key_tensor value_tensor query_tensor
    attention_mask attn_type output pre_layernorm post_add st
  = (st', Returns tt) ->
  valid_call self st key_tensor value_tensor query_tensor attention_mask
    attn_type = true.
Proof.
  intros Hrun.
  cut (ends (MultiHeadedAttention_call self key_tensor value_tensor
               query_tensor attention_mask attn_type output pre_layernorm
               post_add)
            (fun o _ => forall a, o = Returns a ->
               valid_call self st key_tensor value_tensor query_tensor
                 attention_mask attn_type = true) st).
  { unfold ends. rewrite Hrun. intros Hc. exact (Hc tt eq_refl). }
  clear Hrun st'.
  unfold MultiHeadedAttention_call.
  repeat lazymatch goal with
         | |- ends (mbind _ (derive_key_seq_length _ _ _)) _ _ => fail
         | |- _ => ends_step
         end.
  2-6: intros a Ha; discriminate Ha.
  destruct (known_variant attn_type) eqn:Hk.
  2: { rewrite derive_key_seq_length_unknown by exact Hk.
       apply ends_bind, ends_throw. intros a Ha; discriminate Ha. }
  rewrite derive_key_seq_length_known by exact Hk.
  apply ends_bind, ends_ret. unfold derive_size_per_head.
  destruct (Z.eqb_spec (num_attention_heads_ self) 0) as [E0|E0].
  { apply ends_bind, ends_throw. intros a Ha; discriminate Ha. }
  apply ends_bind, ends_ret.
  pose proof (ends_of_returns_only_if _ _ st
                (tail_returns_only_if self key_tensor value_tensor query_tensor
                   attention_mask output attn_type pre_layernorm post_add
                   (shape_at (read st (Caller query_tensor)) 0)
                   (shape_at (read st (Caller query_tensor)) 1)
                   (key_seq_length_of attn_type (read st (Caller key_tensor))
                      (read st (Caller query_tensor)))
                   (shape_at (read st (Caller query_tensor)) 2)
                   (shape_at (read st (Caller query_tensor)) 2
                    ÷ num_attention_heads_ self)
                   (device_type (device_ctx (read st (Caller query_tensor))))
                   (device_id (device_ctx (read st (Caller query_tensor))))
                   (device_ctx (read st (Caller query_tensor))))) as Htail.
  unfold ends in *. intros a Ha. destruct (Htail a Ha) as [_ Hpos].
  unfold valid_call, operand_checks_pass. rewrite Hk, Hpos.
  repeat match goal with Hx : _ = _ |- _ => rewrite Hx end.
  rewrite !Z.eqb_refl. reflexivity.
Qed.

(** The valid calls are the calls that return. *)
Lemma returns_iff_valid (self : MultiHeadedAttention F) (st : State F)
    (key_tensor value_tensor query_tensor attention_mask : loc)
    (attn_type : string) (output : loc) (pre_layernorm post_add : bool) :
  (exists st',
     MultiHeadedAttention_call self key_tensor value_tensor query_tensor
       attention_mask attn_type output pre_layernorm post_add st
     = (st', Returns tt))
  <-> valid_call self st key_tensor value_tensor query_tensor attention_mask
        attn_type = true.
Proof.
  split.
  - intros [st' Hrun]. exact (valid_call_complete _ _ _ _ _ _ _ _ _ _ _ Hrun).
  - intros Hv.
    destruct (wp_elim _ _ _ (call_spec self st key_tensor value_tensor
                               query_tensor attention_mask attn_type output
                               pre_layernorm post_add Hv))
      as (st' & [] & Hrun & _).
    exists st'. exact Hrun.
Qed.

(** The call ends at the first check of lines 38-69 that does not pass,
    with the state as it was. *)
Lemma call_ends_at_first_failure (self : MultiHeadedAttention F) (st : State F)
    (key_tensor value_tensor query_tensor attention_mask : loc)
    (attn_type : string) (output : loc) (pre_layernorm post_add : bool) :
  ends (MultiHeadedAttention_call self key_tensor value_tensor query_tensor
          attention_mask attn_type output pre_layernorm post_add)
       (fun o st' =>
          forall e, first_failure st key_tensor value_tensor query_tensor
                      attention_mask attn_type = Some e ->
                    st' = st /\ o = Throws e)
       st.
Proof.
  unfold MultiHeadedAttention_call.
  repeat lazymatch goal with
         | |- ends (mbind _ (derive_key_seq_length _ _ _)) _ _ => fail
         | |- _ => ends_step
         end.
  all: unfold first_failure.
  1: destruct (known_variant attn_type) eqn:Hk.
  1: { unfold ends. intros e He. exfalso. revert He. decide_checks.
       cbn [negb]. discriminate. }
  1: { rewrite derive_key_seq_length_unknown by exact Hk.
       apply ends_bind, ends_throw. decide_checks. cbn [negb].
       intros e [= <-]. split; reflexivity. }
  all: decide_checks; cbn [negb]; intros e [= <-]; split; reflexivity.
Qed.

Lemma call_at_first_failure (self : MultiHeadedAttention F) (st : State F)
    (key_tensor value_tensor query_tensor attention_mask : loc)
    (attn_type : string) (output : loc) (pre_layernorm post_add : bool)
    (e : error) :
  first_failure st key_tensor value_tensor query_tensor attention_mask attn_type
  = Some e ->
  MultiHeadedAttention_call self key_tensor value_tensor query_tensor
    attention_mask attn_type output pre_layernorm post_add st
  = (st, Throws e).
Proof.
  intros Hff.
  pose proof (call_ends_at_first_failure self st key_tensor value_tensor
                query_tensor attention_mask attn_type output pre_layernorm
                post_add) as Hc.
  unfold ends in Hc. destruct (Hc e Hff) as [Hst Ho].
  destruct (MultiHeadedAttention_call _ _ _ _ _ _ _ _ _ _) as [s o].
  simpl in Hst, Ho. subst. reflexivity.
Qed.

(** With an unknown variant some check fails: the variant check when the
    operand checks pass. *)
Lemma first_failure_unknown (st : State F)
    (key_tensor value_tensor query_tensor attention_mask : loc)
    (attn_type : string) :
  known_variant attn_type = false ->
  exists e,
    first_failure st key_tensor value_tensor query_tensor attention_mask
      attn_type = Some e /\
    (operand_checks_pass st key_tensor value_tensor query_tensor
       attention_mask = true -> e = InvalidArgument msg_attn_type).
Proof.
  intros Hk. unfold first_failure, operand_checks_pass. rewrite Hk.
  destruct (is_same_device_ctx _ _); cbn [negb andb];
    [ | eexists; split; [reflexivity | discriminate] ].
  destruct (n_dim (read st (Caller key_tensor)) =? 3); cbn [negb andb];
    [ | eexists; split; [reflexivity | discriminate] ].
  destruct (n_dim (read st (Caller value_tensor)) =? 3); cbn [negb andb];
    [ | eexists; split; [reflexivity | discriminate] ].
  destruct (n_dim (read st (Caller query_tensor)) =? 3); cbn [negb andb];
    [ | eexists; split; [reflexivity | discriminate] ].
  destruct (shape_at (read st (Caller key_tensor)) 0
            =? shape_at (read st (Caller value_tensor)) 0); cbn [negb andb];
    [ | eexists; split; [reflexivity | discriminate] ].
  eexists. split; reflexivity.
Qed.

End Stages.

(** ** The claims *)

Section Claims.
Context {F : Type} `{Scalar F} `{Kernels F}.


(** C2.  A valid call returns, and the score buffer it leaves is the masked
    softmax, called with scale 1.0, of the batched product of the head-major
    query with the transposed head-major key, called with alpha
    [1 / sqrt(size_per_head)] and beta 0. *)
Theorem scores_scaled_before_softmax (self : MultiHeadedAttention F) (st : State F)
    (key_tensor value_tensor query_tensor attention_mask : loc)
    (attn_type : string) (output : loc) (pre_layernorm post_add : bool) :
  valid_call self st key_tensor value_tensor query_tensor attention_mask
    attn_type = true ->
  exists st',
    MultiHeadedAttention_call self key_tensor value_tensor query_tensor
      attention_mask attn_type output pre_layernorm post_add st
    = (st', Returns tt) /\
    let key := read st (Caller key_tensor) in
    let query := read st (Caller query_tensor) in
    let mask := read st (Caller attention_mask) in
    let heads := num_attention_heads_ self in
    let size_per_head := shape_at query 2 ÷ heads in
    let devctx := device_ctx query in
    let q := pointee st' (q_ptr_of attn_type query) in
    let k := pointee st' (k_ptr_of attn_type key query) in
    let att_score := reshaped (read st (Scratch att_score_tmp devctx))
                       [shape_at query 0; heads; shape_at query 1;
                        key_seq_length_of attn_type key query]
                       (device_type devctx) (device_id devctx) in
    let scaled := with_data att_score
                    (BatchMatMul q false k true
                       (fdiv fone (fsqrt (of_int64 size_per_head)))
                       att_score fzero) in
    data (read st' (Scratch att_score_tmp devctx))
    = ApplyMaskAndSoftmax scaled mask fone.
Proof.
  intros Hv.
  destruct (wp_elim _ _ _ (call_spec self st key_tensor value_tensor query_tensor
                             attention_mask attn_type output pre_layernorm
                             post_add Hv))
    as (st' & [] & Hrun & Hscore & _).
  exists st'. split; [exact Hrun|]. cbv zeta in *. rewrite Hscore. reflexivity.
Qed.

(** C3, amended.  A valid call returns, and the output holds the dense
    projection of the merged heads plus the dense bias when [post_add] is
    false, and plus the dense bias and the query as the caller passed it when
    [post_add] is true and the output tensor is an object other than the
    query. *)
Theorem output_bias_and_residual (self : MultiHeadedAttention F) (st : State F)
    (key_tensor value_tensor query_tensor attention_mask : loc)
    (attn_type : string) (output : loc) (pre_layernorm post_add : bool) :
  valid_call self st key_tensor value_tensor query_tensor attention_mask
    attn_type = true ->
  (post_add = true -> output ≠ query_tensor) ->
  exists st',
    MultiHeadedAttention_call self key_tensor value_tensor query_tensor
      attention_mask attn_type output pre_layernorm post_add st
    = (st', Returns tt) /\
    let query := read st (Caller query_tensor) in
    let devctx := device_ctx query in
    let unshaped := read st' (Scratch self_attr_out_tmp devctx) in
    let out := reshaped (read st (Caller output))
                 [shape_at query 0; shape_at query 1; shape_at query 2]
                 (device_type devctx) (device_id devctx) in
    let projected := with_data out
                       (MatMul unshaped false (dense_weight_ self) false fone
                          out fzero) in
    data (read st' (Caller output))
    = if post_add
      then AddInputBias projected query (dense_bias_ self) projected
      else AddBias (dense_bias_ self) projected.
Proof.
  intros Hv Hne.
  destruct (wp_elim _ _ _ (call_spec self st key_tensor value_tensor query_tensor
                             attention_mask attn_type output pre_layernorm
                             post_add Hv))
    as (st' & [] & Hrun & _ & _ & _ & Hout).
  exists st'. split; [exact Hrun|]. cbv zeta in *. rewrite Hout.
  destruct post_add; [|reflexivity].
  destruct (decide (output = query_tensor)) as [Heq|_]; [|reflexivity].
  destruct (Hne eq_refl Heq).
Qed.

(** C5, amended.  A call whose variant is neither "context" nor "self" throws
    and leaves the whole state, the output tensor included, as it was.  The
    failure is that of the first check of lines 38-69 that does not pass:
    the [InvalidArgument] of line 68 when the operand checks of lines 38-55
    pass, and otherwise the failure of the first of those that does not. *)
Theorem invalid_variant_fails (self : MultiHeadedAttention F) (st : State F)
    (key_tensor value_tensor query_tensor attention_mask : loc)
    (attn_type : string) (output : loc) (pre_layernorm post_add : bool) :
  attn_type ≠ "context" -> attn_type ≠ "self" ->
  let call := MultiHeadedAttention_call self key_tensor value_tensor
                query_tensor attention_mask attn_type output pre_layernorm
                post_add in
  exists e,
    call st = (st, Throws e) /\
    first_failure st key_tensor value_tensor query_tensor attention_mask
      attn_type = Some e /\
    (operand_checks_pass st key_tensor value_tensor query_tensor
       attention_mask = true -> e = InvalidArgument msg_attn_type).
Proof.
  intros Hc Hs call. pose proof (known_variant_false attn_type Hc Hs) as Hk.
  destruct (first_failure_unknown st key_tensor value_tensor query_tensor
              attention_mask attn_type Hk) as (e & Hff & Hchk).
  exists e. split; [|split; assumption].
  apply call_at_first_failure. exact Hff.
Qed.

(** C6, amended.  A call whose mask is not on the device context of the key
    throws [DeviceMismatchError] and leaves the whole state as it was. *)
Theorem mask_device_mismatch_rejected (self : MultiHeadedAttention F) (st : State F)
    (key_tensor value_tensor query_tensor attention_mask : loc)
    (attn_type : string) (output : loc) (pre_layernorm post_add : bool) :
  device_ctx (read st (Caller key_tensor))
    ≠ device_ctx (read st (Caller attention_mask)) ->
  MultiHeadedAttention_call self key_tensor value_tensor query_tensor
    attention_mask attn_type output pre_layernorm post_add st
  = (st, Throws (DeviceMismatchError msg_device)).
Proof.
  intros Hne. unfold MultiHeadedAttention_call, mbind, M_bind, load, TT_ENFORCE_EQ.
  unfold is_same_device_ctx. rewrite bool_decide_eq_false_2 by exact Hne.
  reflexivity.
Qed.

(** C7, amended.  When the output tensor is none of the four operand
    objects, key, value, query and mask are after the call what they were
    before it, whether the call returns or throws: the call assigns only to
    the output tensor and to scratch tensors. *)
Theorem inputs_unchanged (self : MultiHeadedAttention F) (st : State F)
    (key_tensor value_tensor query_tensor attention_mask : loc)
    (attn_type : string) (output : loc) (pre_layernorm post_add : bool) :
  output ≠ key_tensor -> output ≠ value_tensor ->
  output ≠ query_tensor -> output ≠ attention_mask ->
  let st' := fst (MultiHeadedAttention_call self key_tensor value_tensor
                    query_tensor attention_mask attn_type output pre_layernorm
                    post_add st) in
  heap st' !! key_tensor = heap st !! key_tensor /\
  heap st' !! value_tensor = heap st !! value_tensor /\
  heap st' !! query_tensor = heap st !! query_tensor /\
  heap st' !! attention_mask = heap st !! attention_mask.
Proof.
  intros Hk Hv Hq Hm st'.
  assert (Hframe : forall l, output ≠ l -> heap st' !! l = heap st !! l).
  { intros l Hl.
    apply (call_preserves (fun s => heap s !! l = heap st !! l)); [ | | | reflexivity].
    - intros s sl c Hs. exact Hs.
    - intros sl c s t Hs. exact Hs.
    - intros s t Hs. simpl. rewrite lookup_insert_ne by exact Hl. exact Hs. }
  repeat split; apply Hframe; assumption.
Qed.

(** Without layer normalisation, on key and value tensors equal to the query
    tensor, the two variants leave the same output once their head-major
    query, key and value are the same: the continuation is common to both. *)
Lemma agree_of_projections (self : MultiHeadedAttention F) (st : State F)
    (key_tensor value_tensor query_tensor attention_mask output : loc)
    (post_add : bool) :
  valid_call self st key_tensor value_tensor query_tensor attention_mask
    "context" = true ->
  read st (Caller key_tensor) = read st (Caller query_tensor) ->
  read st (Caller value_tensor) = read st (Caller query_tensor) ->
  fused_agrees self st (read st (Caller query_tensor)) ->
  exists st_context st_self,
    MultiHeadedAttention_call self key_tensor value_tensor query_tensor
      attention_mask "context" output false post_add st
    = (st_context, Returns tt) /\
    MultiHeadedAttention_call self key_tensor value_tensor query_tensor
      attention_mask "self" output false post_add st
    = (st_self, Returns tt) /\
    read st_context (Caller output) = read st_self (Caller output).
Proof.
  intros Hvc Hkey Hvalue Hagree.
  pose proof (valid_call_self _ _ _ _ _ _ _ Hvc) as Hvs.
  destruct (wp_elim _ _ _ (wp_conj _ _ _ _
              (call_spec self st key_tensor value_tensor query_tensor
                 attention_mask "context" output false post_add Hvc)
              (call_projections self st key_tensor value_tensor query_tensor
                 attention_mask "context" output post_add Hvc)))
    as (stc & [] & Hrunc & (Hsc & Hcc & Huc & Hoc) & Hpc).
  destruct (wp_elim _ _ _ (wp_conj _ _ _ _
              (call_spec self st key_tensor value_tensor query_tensor
                 attention_mask "self" output false post_add Hvs)
              (call_projections self st key_tensor value_tensor query_tensor
                 attention_mask "self" output post_add Hvs)))
    as (sts & [] & Hruns & (Hss & Hcs & Hus & Hos) & Hps).
  exists stc, sts. split; [exact Hrunc|]. split; [exact Hruns|].
  cbv zeta in *. rewrite Hkey, Hvalue in *.
  unfold fused_agrees in Hagree. rewrite <- Hps, <- Hpc in Hagree.
  set (query := read st (Caller query_tensor)) in *.
  assert (Hq : pointee stc (q_ptr_of "context" query)
             = pointee sts (q_ptr_of "self" query))
    by (symmetry; exact (f_equal (fun p => fst (fst p)) Hagree)).
  assert (Hk : pointee stc (k_ptr_of "context" query query)
             = pointee sts (k_ptr_of "self" query query))
    by (symmetry; exact (f_equal (fun p => snd (fst p)) Hagree)).
  assert (Hv : pointee stc (v_ptr_of "context" query query)
             = pointee sts (v_ptr_of "self" query query))
    by (symmetry; exact (f_equal snd Hagree)).
  clear Hagree Hps Hpc.
  assert (Hscore : read stc (Scratch att_score_tmp (device_ctx query))
                 = read sts (Scratch att_score_tmp (device_ctx query))).
  { rewrite Hsc, Hss. unfold key_seq_length_of. simpl String.eqb. cbv iota.
    rewrite Hq, Hk. reflexivity. }
  assert (Hctx : read stc (Scratch context_layer_tmpr (device_ctx query))
               = read sts (Scratch context_layer_tmpr (device_ctx query))).
  { rewrite Hcc, Hcs, Hscore, Hv. reflexivity. }
  assert (Hun : read stc (Scratch self_attr_out_tmp (device_ctx query))
              = read sts (Scratch self_attr_out_tmp (device_ctx query))).
  { rewrite Huc, Hus, Hctx. reflexivity. }
  rewrite Hoc, Hos, Hun. reflexivity.
Qed.

(** C9.  A valid call returns; its key sequence length is [key.shape(1)] for
    "context" and [query.shape(1)] for "self", and this is the last dimension
    of the score tensor it leaves. *)
Theorem key_seq_length_used (self : MultiHeadedAttention F) (st : State F)
    (key_tensor value_tensor query_tensor attention_mask : loc)
    (attn_type : string) (output : loc) (pre_layernorm post_add : bool) :
  valid_call self st key_tensor value_tensor query_tensor attention_mask
    attn_type = true ->
  exists st',
    MultiHeadedAttention_call self key_tensor value_tensor query_tensor
      attention_mask attn_type output pre_layernorm post_add st
    = (st', Returns tt) /\
    let key := read st (Caller key_tensor) in
    let query := read st (Caller query_tensor) in
    let key_seq_length := if String.eqb attn_type "context"
                          then shape_at key 1 else shape_at query 1 in
    (attn_type = "context" \/ attn_type = "self") /\
    derive_key_seq_length attn_type key (shape_at query 1) st
    = (st, Returns key_seq_length) /\
    shape (read st' (Scratch att_score_tmp (device_ctx query)))
    = [shape_at query 0; num_attention_heads_ self; shape_at query 1;
       key_seq_length].
Proof.
  intros Hv.
  destruct (wp_elim _ _ _ (call_spec self st key_tensor value_tensor query_tensor
                             attention_mask attn_type output pre_layernorm
                             post_add Hv))
    as (st' & [] & Hrun & Hscore & _).
  exists st'. split; [exact Hrun|]. cbv zeta in *.
  unfold valid_call in Hv. apply andb_prop in Hv as [Hv _].
  apply andb_prop in Hv as [_ Hk].
  split; [|split].
  - unfold known_variant in Hk. apply orb_prop in Hk as [Hk|Hk];
      apply String.eqb_eq in Hk; [left|right]; exact Hk.
  - rewrite derive_key_seq_length_known by exact Hk. reflexivity.
  - rewrite Hscore. reflexivity.
Qed.


End Claims.

(** ** Agreement of the two variants

    The projection kernels are taken as the spec gives them; the fused
    weight is the matrix of the three weights side by side.  Everything
    after the projections is common to the two variants. *)

Section Agreement.
Import Exact Fused.

Lemma qmul_zero (y : Q) : qmul 0%Q y = 0%Q.
Proof. destruct y as [n d]. reflexivity. Qed.

Lemma length_tabulate (n : Z) (f : Z -> Q) : length (tabulate n f) = Z.to_nat n.
Proof. unfold tabulate. rewrite length_map, length_seq. reflexivity. Qed.

Lemma get_tabulate (n : Z) (f : Z -> Q) (i : Z) :
  0 <= i < n -> get (tabulate n f) i = f i.
Proof.
  intros Hi. unfold get, tabulate.
  rewrite (nth_indep _ 0%Q (f (Z.of_nat 0))) by (rewrite length_map, length_seq; lia).
  rewrite (map_nth (fun i => f (Z.of_nat i))).
  rewrite seq_nth by lia. f_equal. lia.
Qed.

Lemma tabulate_ext_in (n : Z) (f g : Z -> Q) :
  (forall x, 0 <= x < n -> f x = g x) -> tabulate n f = tabulate n g.
Proof.
  intros Hfg. unfold tabulate. apply map_ext_in. intros i Hi.
  apply in_seq in Hi. apply Hfg. lia.
Qed.

Lemma qsum_ext_in (n : Z) (f g : Z -> Q) :
  (forall x, 0 <= x < n -> f x = g x) -> qsum n f = qsum n g.
Proof. intros Hfg. unfold qsum. rewrite (tabulate_ext_in n f g Hfg). reflexivity. Qed.

Lemma map_seq_from (g : nat -> Q) (k m : nat) :
  map g (seq k m) = map (fun i => g (k + i)%nat) (seq 0 m).
Proof.
  revert g. induction k as [|k IH]; intros g; [reflexivity|].
  rewrite <- seq_shift, map_map, IH. reflexivity.
Qed.

Lemma slice_tabulate (w : nat) (n total : Z) (f : Z -> Q) :
  0 <= n -> (Z.of_nat w + 1) * n <= total ->
  firstn (Z.to_nat n) (skipn (w * Z.to_nat n) (tabulate total f))
  = tabulate n (fun y => f (Z.of_nat w * n + y)).
Proof.
  intros Hn Hle. unfold tabulate.
  set (k := (w * Z.to_nat n)%nat). set (m := Z.to_nat n).
  replace (Z.to_nat total) with (k + (m + (Z.to_nat total - k - m)))%nat
    by (subst k m; nia).
  rewrite !seq_app, !map_app.
  rewrite skipn_app, skipn_all2 by (rewrite length_map, length_seq; lia).
  rewrite length_map, length_seq, Nat.sub_diag. rewrite skipn_O. cbn [app].
  rewrite firstn_app, firstn_all2 by (rewrite length_map, length_seq; lia).
  rewrite length_map, length_seq, Nat.sub_diag. cbn [firstn]. rewrite app_nil_r.
  cbn [Nat.add]. rewrite map_seq_from. apply map_ext. intros i.
  f_equal. subst k m. lia.
Qed.

Lemma matmul_entry (A B out : Tensor Q) (kk nn mm i j : Z) :
  cols A = kk -> numel (shape A) / kk = mm -> cols B = nn ->
  0 <= i < mm -> 0 <= j < nn ->
  get (matmul A false B false 1%Q out 0%Q) (i * nn + j)
  = qadd (qmul 1%Q (qsum kk (fun l =>
            qmul (get (data A) (i * kk + l)) (get (data B) (l * nn + j)))))
         0%Q.
Proof.
  intros HA Hm HB Hi Hj. unfold matmul. cbv zeta. rewrite HA, Hm, HB.
  rewrite get_tabulate by nia. cbv beta.
  rewrite qmul_zero.
  replace ((i * nn + j) / nn) with i by (apply (Z.div_unique_pos _ _ i j); lia).
  replace ((i * nn + j) mod nn) with j by (apply (Z.mod_unique_pos _ _ i j); lia).
  reflexivity.
Qed.

Lemma length_matmul (A B out : Tensor Q) (kk nn mm : Z) :
  cols A = kk -> numel (shape A) / kk = mm -> cols B = nn ->
  length (matmul A false B false 1%Q out 0%Q) = Z.to_nat (mm * nn).
Proof.
  intros HA Hm HB. unfold matmul. cbv zeta. rewrite HA, Hm, HB.
  apply length_tabulate.
Qed.

Lemma decode_fused (B Hn S D w y : Z) :
  0 < B -> 0 < Hn -> 0 < S -> 0 < D -> 0 <= w -> 0 <= y < D * S * Hn * B ->
  let x := w * (D * S * Hn * B) + y in
  x mod D = y mod D /\
  (x / D) mod S = (y / D) mod S /\
  (x / (D * S)) mod Hn = (y / (D * S)) mod Hn /\
  (x / (D * S * Hn)) mod B = y / (D * S * Hn) /\
  x / (D * S * Hn * B) = w.
Proof.
  intros HB HHn HS HD Hw Hy x. subst x.
  assert (E1 : (w * (D * S * Hn * B) + y) / D = y / D + (w * B * Hn) * S).
  { replace (w * (D * S * Hn * B) + y) with (y + (w * B * Hn * S) * D) by ring.
    rewrite Z.div_add by lia. ring. }
  assert (E2 : (w * (D * S * Hn * B) + y) / (D * S) = y / (D * S) + (w * B) * Hn).
  { replace (w * (D * S * Hn * B) + y) with (y + (w * B * Hn) * (D * S)) by ring.
    rewrite Z.div_add by nia. ring. }
  assert (E3 : (w * (D * S * Hn * B) + y) / (D * S * Hn) = y / (D * S * Hn) + w * B).
  { replace (w * (D * S * Hn * B) + y) with (y + (w * B) * (D * S * Hn)) by ring.
    rewrite Z.div_add by nia. ring. }
  repeat split.
  - replace (w * (D * S * Hn * B) + y) with (y + (w * B * Hn * S) * D) by ring.
    apply Z.mod_add. lia.
  - rewrite E1. apply Z.mod_add. lia.
  - rewrite E2. apply Z.mod_add. lia.
  - rewrite E3, Z.mod_add by lia. apply Z.mod_small. split.
    + apply Z.div_pos; nia.
    + apply Z.div_lt_upper_bound; nia.
  - symmetry. apply (Z.div_unique_pos _ _ w y); lia.
Qed.

Lemma decode_ranges (B Hn S D y : Z) :
  0 < B -> 0 < Hn -> 0 < S -> 0 < D -> 0 <= y < D * S * Hn * B ->
  0 <= y mod D < D /\ 0 <= (y / D) mod S < S /\
  0 <= (y / (D * S)) mod Hn < Hn /\ 0 <= y / (D * S * Hn) < B.
Proof.
  intros HB HHn HS HD Hy.
  split; [apply Z.mod_pos_bound; lia|].
  split; [apply Z.mod_pos_bound; lia|].
  split; [apply Z.mod_pos_bound; lia|].
  split; [apply Z.div_pos; nia | apply Z.div_lt_upper_bound; nia].
Qed.

Lemma concat_columns_entry (hid : Z) (wq wk wv : Tensor Q) (w : nat) (l cc : Z) :
  (w < 3)%nat -> 0 <= l < hid -> 0 <= cc < hid ->
  get (concat_columns hid wq wk wv) (l * (3 * hid) + (Z.of_nat w * hid + cc))
  = get (data (pick (Z.of_nat w) wq wk wv)) (l * hid + cc).
Proof.
  intros Hw Hl Hcc. unfold concat_columns.
  rewrite get_tabulate by nia. cbv zeta.
  replace ((l * (3 * hid) + (Z.of_nat w * hid + cc)) / (3 * hid)) with l
    by (apply (Z.div_unique_pos _ _ l (Z.of_nat w * hid + cc)); nia).
  replace ((l * (3 * hid) + (Z.of_nat w * hid + cc)) mod (3 * hid))
    with (Z.of_nat w * hid + cc)
    by (apply (Z.mod_unique_pos _ _ l (Z.of_nat w * hid + cc)); nia).
  replace ((Z.of_nat w * hid + cc) / hid) with (Z.of_nat w)
    by (apply (Z.div_unique_pos _ _ (Z.of_nat w) cc); lia).
  replace ((Z.of_nat w * hid + cc) mod hid) with cc
    by (apply (Z.mod_unique_pos _ _ (Z.of_nat w) cc); lia).
  reflexivity.
Qed.

Lemma concat_bias_entry (hid : Z) (bq bk bv : Tensor Q) (w : nat) (cc : Z) :
  (w < 3)%nat -> 0 <= cc < hid ->
  get (concat_bias hid bq bk bv) (Z.of_nat w * hid + cc)
  = get (data (pick (Z.of_nat w) bq bk bv)) cc.
Proof.
  intros Hw Hcc. unfold concat_bias.
  rewrite get_tabulate by nia. cbv beta.
  replace ((Z.of_nat w * hid + cc) / hid) with (Z.of_nat w)
    by (apply (Z.div_unique_pos _ _ (Z.of_nat w) cc); lia).
  replace ((Z.of_nat w * hid + cc) mod hid) with cc
    by (apply (Z.mod_unique_pos _ _ (Z.of_nat w) cc); lia).
  reflexivity.
Qed.

Section Projections.
Context (K : Kernels Q).
Hypothesis MatMul_exact : @MatMul Q K = matmul.
Hypothesis AddBiasTransposeForScore_exact :
  @AddBiasTransposeForScore Q K = add_bias_transpose_for_score.
Hypothesis SplitAddBiasTransposeForScore_exact :
  @SplitAddBiasTransposeForScore Q K = split_add_bias_transpose_for_score.

Lemma slice_fused_projection (self : MultiHeadedAttention Q) (st : State Q)
    (query W Bi : Tensor Q) (slot1 slot2 : Slot) (c c' : DLContext)
    (b s hid : Z) (dt : DLDeviceType) (di : Z) (w : nat) :
  let n := num_attention_heads_ self in
  let d := hid ÷ n in
  (w < 3)%nat ->
  shape query = [b; s; hid] ->
  0 < b -> 0 < s -> 0 < n -> 0 < d -> n * d = hid ->
  cols W = hid -> cols (qkv_weight_ self) = 3 * hid ->
  (forall l cc, 0 <= l < hid -> 0 <= cc < hid ->
     get (data (qkv_weight_ self)) (l * (3 * hid) + (Z.of_nat w * hid + cc))
     = get (data W) (l * hid + cc)) ->
  (forall cc, 0 <= cc < hid ->
     get (data (qkv_bias_ self)) (Z.of_nat w * hid + cc) = get (data Bi) cc) ->
  slice (fused_projection self st query c b s hid dt di) w
  = separate_projection self st query W Bi slot1 slot2 c' b s hid dt di.
Proof.
  intros n d Hw Hq Hb Hs Hn Hd Hnd HW HF Hweight Hbias.
  assert (Hhid : 0 < hid) by nia.
  unfold fused_projection, separate_projection, slice. cbv zeta.
  fold n. fold d.
  rewrite MatMul_exact, AddBiasTransposeForScore_exact,
    SplitAddBiasTransposeForScore_exact.
  unfold with_data, reshaped. cbn [shape device_ctx data tail fone fzero Q_Scalar].
  f_equal.
  assert (Hrows : numel (shape query) / hid = b * s).
  { rewrite Hq. cbn [numel fold_right].
    replace (b * (s * (hid * 1))) with ((b * s) * hid) by ring.
    apply Z.div_mul. lia. }
  assert (Hcq : cols query = hid) by (unfold cols; rewrite Hq; reflexivity).
  rewrite (length_matmul query W _ hid hid (b * s)) by assumption.
  replace (Z.of_nat (Z.to_nat (b * s * hid)) <? numel [b; s; n; d]) with false
    by (symmetry; apply Z.ltb_ge; cbn [numel fold_right]; nia).
  unfold split_add_bias_transpose_for_score, add_bias_transpose_for_score, dim.
  cbn [shape nth data]. cbv zeta.
  replace (numel [3; b; n; s; d]) with (3 * (d * s * n * b))
    by (cbn [numel fold_right]; ring).
  replace (numel [b; n; s; d]) with (d * s * n * b)
    by (cbn [numel fold_right]; ring).
  replace (numel [b; s; n; d]) with (d * s * n * b)
    by (cbn [numel fold_right]; ring).
  assert (Hvol : 0 < d * s * n * b) by (repeat apply Z.mul_pos_pos; lia).
  rewrite slice_tabulate by nia.
  apply tabulate_ext_in. intros y Hy.
  destruct (decode_fused b n s d (Z.of_nat w) y) as (E1 & E2 & E3 & E4 & E5);
    try lia.
  destruct (decode_ranges b n s d y) as (R1 & R2 & R3 & R4); try lia.
  cbv zeta in E1, E2, E3, E4, E5. rewrite E1, E2, E3, E4, E5.
  set (dd := y mod d) in *. set (ss := (y / d) mod s) in *.
  set (hh := (y / (d * s)) mod n) in *. set (bb := y / (d * s * n)) in *.
  replace ((((bb * s + ss) * 3 + Z.of_nat w) * n + hh) * d + dd)
    with ((bb * s + ss) * (3 * hid) + (Z.of_nat w * hid + (hh * d + dd)))
    by (rewrite <- Hnd; ring).
  replace (((bb * s + ss) * n + hh) * d + dd)
    with ((bb * s + ss) * hid + (hh * d + dd)) by (rewrite <- Hnd; ring).
  replace ((Z.of_nat w * n + hh) * d + dd)
    with (Z.of_nat w * hid + (hh * d + dd)) by (rewrite <- Hnd; ring).
  assert (Hcc : 0 <= hh * d + dd < hid) by nia.
  assert (Hrow : 0 <= bb * s + ss < b * s) by nia.
  rewrite (matmul_entry query (qkv_weight_ self) _ hid (3 * hid) (b * s))
    by (try assumption; split; nia).
  rewrite (matmul_entry query W _ hid hid (b * s)) by assumption.
  rewrite Hbias by exact Hcc. do 3 f_equal.
  apply qsum_ext_in. intros l Hl. f_equal.
  apply Hweight; assumption.
Qed.

Lemma fused_agrees_of_concatenation (self : MultiHeadedAttention Q)
    (st : State Q) (query : Tensor Q) :
  let heads := num_attention_heads_ self in
  let hidden := shape_at query 2 in
  n_dim query = 3 ->
  0 < shape_at query 0 -> 0 < shape_at query 1 ->
  0 < heads -> 0 < hidden ÷ heads -> heads * (hidden ÷ heads) = hidden ->
  fused_from_separate self hidden ->
  fused_agrees self st query.
Proof.
  intros heads hidden Hrank Hb Hs Hn Hd Hnd (Hsq & Hsk & Hsv & Hsf & Hw & Hbias).
  assert (Hshape : shape query
                   = [shape_at query 0; shape_at query 1; shape_at query 2]).
  { unfold n_dim, shape_at in *.
    destruct (shape query) as [|a [|b [|c [|? ?]]]]; simpl in Hrank; try lia.
    reflexivity. }
  unfold fused_agrees, projections.
  replace (String.eqb "self" "context") with false by reflexivity.
  replace (String.eqb "context" "context") with true by reflexivity.
  cbv zeta. fold hidden.
  assert (Hcols : forall t : Tensor Q, shape t = [hidden; hidden] -> cols t = hidden)
    by (intros t Ht; unfold cols; rewrite Ht; reflexivity).
  assert (Hcf : cols (qkv_weight_ self) = 3 * hidden)
    by (unfold cols; rewrite Hsf; reflexivity).
  f_equal; [f_equal|].
  - apply (slice_fused_projection self st query
             (q_weight_ self) (q_bias_ self) q_out1_temp q_out2_temp _ _ _ _ _ _ _ 0%nat);
      try assumption; try lia; auto.
    + intros l cc Hl Hcc. rewrite Hw. apply (concat_columns_entry _ _ _ _ 0%nat); lia.
    + intros cc Hcc. rewrite Hbias. apply (concat_bias_entry _ _ _ _ 0%nat); lia.
  - apply (slice_fused_projection self st query
             (k_weight_ self) (k_bias_ self) k_out1_temp k_out2_temp _ _ _ _ _ _ _ 1%nat);
      try assumption; try lia; auto.
    + intros l cc Hl Hcc. rewrite Hw. apply (concat_columns_entry _ _ _ _ 1%nat); lia.
    + intros cc Hcc. rewrite Hbias. apply (concat_bias_entry _ _ _ _ 1%nat); lia.
  - apply (slice_fused_projection self st query
             (v_weight_ self) (v_bias_ self) v_out1_temp v_out2_temp _ _ _ _ _ _ _ 2%nat);
      try assumption; try lia; auto.
    + intros l cc Hl Hcc. rewrite Hw. apply (concat_columns_entry _ _ _ _ 2%nat); lia.
    + intros cc Hcc. rewrite Hbias. apply (concat_bias_entry _ _ _ _ 2%nat); lia.
Qed.

End Projections.

(** C8, amended.  With the projection kernels computing as the spec gives
    them, without layer normalisation, with a hidden size that the head
    count divides, on key and value tensors equal to the query tensor, and
    with a fused weight that is the matrix of the query, key and value
    weights side by side and a fused bias that is the three biases one after
    the other, the "context" call and the "self" call from the same state
    both return and leave the same output tensor. *)
Theorem context_self_agree (K : Kernels Q) (self : MultiHeadedAttention Q)
    (st : State Q)
    (key_tensor value_tensor query_tensor attention_mask output : loc)
    (post_add : bool) :
  @MatMul Q K = matmul ->
  @AddBiasTransposeForScore Q K = add_bias_transpose_for_score ->
  @SplitAddBiasTransposeForScore Q K = split_add_bias_transpose_for_score ->
  valid_call self st key_tensor value_tensor query_tensor attention_mask
    "context" = true ->
  read st (Caller key_tensor) = read st (Caller query_tensor) ->
  read st (Caller value_tensor) = read st (Caller query_tensor) ->
  Z.rem (shape_at (read st (Caller query_tensor)) 2) (num_attention_heads_ self) = 0 ->
  fused_from_separate self (shape_at (read st (Caller query_tensor)) 2) ->
  exists st_context st_self,
    MultiHeadedAttention_call self key_tensor value_tensor query_tensor
      attention_mask "context" output false post_add st
    = (st_context, Returns tt) /\
    MultiHeadedAttention_call self key_tensor value_tensor query_tensor
      attention_mask "self" output false post_add st
    = (st_self, Returns tt) /\
    read st_context (Caller output) = read st_self (Caller output).
Proof.
  intros HM HA HS Hv Hkey Hvalue Hrem Hfused.
  apply agree_of_projections; try assumption.
  split_valid Hv.
  pose proof (Z.quot_rem' (shape_at (read st (Caller query_tensor)) 2)
                (num_attention_heads_ self)) as Hqr.
  apply (fused_agrees_of_concatenation K HM HA HS); try assumption; lia.
Qed.

End Agreement.

(** ** The claims on concrete calls *)

Section Concrete.
Import Exact Example Fused.


(** C2 on the one-cell "context" call with both flags set. *)
Lemma scores_scaled_before_softmax_witness :
  valid_call attention st0 key_loc value_loc query_loc mask_loc "context" = true /\
  exists st',
    run st0 "context" output_loc true true = (st', Returns tt) /\
    data (read st' (Scratch att_score_tmp cpu0))
    = ApplyMaskAndSoftmax
        (mkTensor [1; 1; 1; 1] cpu0
           (BatchMatMul (read st' (Scratch q_out2_temp cpu0)) false
              (read st' (Scratch k_out2_temp cpu0)) true
              (fdiv fone (fsqrt (of_int64 1)))
              (mkTensor [1; 1; 1; 1] cpu0 [0%Q]) fzero))
        (mkTensor [1; 1; 1; 1] cpu0 [0%Q]) fone.
Proof.
  split; [reflexivity|].
  exact (scores_scaled_before_softmax attention st0 key_loc value_loc query_loc
           mask_loc "context" output_loc true true eq_refl).
Defined.

(** C3 on the one-cell "self" call with the residual. *)
Lemma output_bias_and_residual_witness :
  valid_call attention st0 key_loc value_loc query_loc mask_loc "self" = true /\
  output_loc ≠ query_loc /\
  exists st',
    run st0 "self" output_loc false true = (st', Returns tt) /\
    data (read st' (Caller output_loc))
    = AddInputBias
        (mkTensor [1; 1; 1] cpu0
           (MatMul (read st' (Scratch self_attr_out_tmp cpu0)) false
              (dense_weight_ attention) false fone
              (mkTensor [1; 1; 1] cpu0 [0%Q]) fzero))
        (cell cpu0 5) (dense_bias_ attention)
        (mkTensor [1; 1; 1] cpu0
           (MatMul (read st' (Scratch self_attr_out_tmp cpu0)) false
              (dense_weight_ attention) false fone
              (mkTensor [1; 1; 1] cpu0 [0%Q]) fzero)).
Proof.
  split; [reflexivity|]. split; [discriminate|].
  refine (output_bias_and_residual attention st0 key_loc value_loc query_loc
            mask_loc "self" output_loc false true eq_refl _).
  intros _. discriminate.
Defined.

(** The residual example by value: 5 * 2 + 1 without the residual, and
    5 * 2 + 1 + 5 with it. *)
Lemma residual_values :
  data (read (fst (run st0 "self" output_loc false false)) (Caller output_loc))
  = [11%Q] /\
  data (read (fst (run st0 "self" output_loc false true)) (Caller output_loc))
  = [16%Q].
Proof. split; reflexivity. Qed.

(** C3 as stated fails: with the query object passed as the output, the
    residual that line 216 adds is the output projection that line 211 has
    just written, not the query the caller passed: the tensor holds
    5 * 2 + 5 * 2 + 1, where the claim's formula gives 5 * 2 + 5 + 1. *)
Lemma residual_of_aliased_output_differs :
  valid_call attention st0 key_loc value_loc query_loc mask_loc "self" = true /\
  snd (run st0 "self" query_loc false true) = Returns tt /\
  let st' := fst (run st0 "self" query_loc false true) in
  let query := read st0 (Caller query_loc) in
  let unshaped := read st' (Scratch self_attr_out_tmp cpu0) in
  let out := reshaped query [1; 1; 1] kDLCPU 0 in
  let projected := with_data out
                     (MatMul unshaped false (dense_weight_ attention) false fone
                        out fzero) in
  AddInputBias projected query (dense_bias_ attention) projected = [16%Q] /\
  data (read st' (Caller query_loc)) = [21%Q].
Proof. repeat split; reflexivity. Qed.

(** C4.  The check of lines 53-55 compares [shape(0)] of key and value: a
    value tensor whose hidden size differs from the key's is accepted, and a
    value tensor with the key's hidden size and another batch size is
    refused with the message about the hidden size. *)
Theorem hidden_size_not_compared :
  shape_at (read st_hidden_differs (Caller key_loc)) 2 = 1 /\
  shape_at (read st_hidden_differs (Caller value_loc)) 2 = 2 /\
  snd (run st_hidden_differs "self" output_loc false false) = Returns tt /\
  shape_at (read st_batch_differs (Caller key_loc)) 2
  = shape_at (read st_batch_differs (Caller value_loc)) 2 /\
  run st_batch_differs "self" output_loc false false
  = (st_batch_differs, Throws (ShapeError msg_key_value)).
Proof. repeat split; reflexivity. Qed.

(** C5 as stated fails: with the mask on another device than the key, the
    call with the unknown variant "cross" ends in [DeviceMismatchError]. *)
Lemma invalid_variant_device_error_first :
  "cross" ≠ "context" /\ "cross" ≠ "self" /\
  snd (run st_mask_elsewhere "cross" output_loc false false)
  = Throws (DeviceMismatchError msg_device).
Proof. split; [discriminate|]. split; [discriminate|reflexivity]. Qed.

(** C5, amended, on the one-cell call with the variant "cross", and on the
    call with the mask on another device, where the device check decides. *)
Lemma invalid_variant_fails_witness :
  "cross" ≠ "context" /\ "cross" ≠ "self" /\
  (exists e,
     run st0 "cross" output_loc false false = (st0, Throws e) /\
     first_failure st0 key_loc value_loc query_loc mask_loc "cross" = Some e /\
     (operand_checks_pass st0 key_loc value_loc query_loc mask_loc = true ->
      e = InvalidArgument msg_attn_type)) /\
  operand_checks_pass st0 key_loc value_loc query_loc mask_loc = true /\
  first_failure st_mask_elsewhere key_loc value_loc query_loc mask_loc "cross"
  = Some (DeviceMismatchError msg_device).
Proof.
  split; [discriminate|]. split; [discriminate|].
  split; [|split; reflexivity].
  refine (invalid_variant_fails attention st0 key_loc value_loc query_loc
            mask_loc "cross" output_loc false false _ _);
    discriminate.
Defined.

(** C6 as stated fails: with the value on the GPU and key, query and mask on
    the CPU, the "self" call returns and writes the output, the one it
    writes with the value on the CPU; no kernel is passed the value tensor
    in that variant, and the weights are on the CPU as well.  With the
    unknown variant "cross" the same operands end in [InvalidArgument], not
    in [DeviceMismatchError], before any kernel is called. *)
Lemma value_on_other_device_accepted :
  device_ctx (read st_value_elsewhere (Caller value_loc)) = gpu0 /\
  device_ctx (read st_value_elsewhere (Caller key_loc)) = cpu0 /\
  device_ctx (read st_value_elsewhere (Caller query_loc)) = cpu0 /\
  device_ctx (read st_value_elsewhere (Caller mask_loc)) = cpu0 /\
  device_ctx (qkv_weight_ attention) = cpu0 /\
  device_ctx (dense_weight_ attention) = cpu0 /\
  snd (run st_value_elsewhere "self" output_loc false false) = Returns tt /\
  read (fst (run st_value_elsewhere "self" output_loc false false))
    (Caller output_loc)
  = mkTensor [1; 1; 1] cpu0 [11%Q] /\
  read (fst (run st0 "self" output_loc false false)) (Caller output_loc)
  = mkTensor [1; 1; 1] cpu0 [11%Q] /\
  run st_value_elsewhere "cross" output_loc false false
  = (st_value_elsewhere, Throws (InvalidArgument msg_attn_type)).
Proof. repeat split; reflexivity. Qed.

(** C6, amended, with the mask on the GPU and the key on the CPU. *)
Lemma mask_device_mismatch_rejected_witness :
  device_ctx (read st_mask_elsewhere (Caller key_loc))
    ≠ device_ctx (read st_mask_elsewhere (Caller mask_loc)) /\
  run st_mask_elsewhere "self" output_loc false false
  = (st_mask_elsewhere, Throws (DeviceMismatchError msg_device)).
Proof.
  split; [discriminate|].
  refine (mask_device_mismatch_rejected attention st_mask_elsewhere key_loc
            value_loc query_loc mask_loc "self" output_loc false false _).
  discriminate.
Defined.

(** C7 as stated fails: passed as the output, the query object holds the
    result after the call. *)
Lemma aliased_output_overwrites_query :
  snd (run st0 "self" query_loc false false) = Returns tt /\
  read st0 (Caller query_loc) = cell cpu0 5 /\
  read (fst (run st0 "self" query_loc false false)) (Caller query_loc)
  = cell cpu0 11 /\
  read (fst (run st0 "self" query_loc false false)) (Caller query_loc)
    ≠ read st0 (Caller query_loc).
Proof.
  split; [reflexivity|]. split; [reflexivity|]. split; [reflexivity|].
  vm_compute. discriminate.
Qed.

(** C7, amended, on the one-cell "self" call with both flags set. *)
Lemma inputs_unchanged_witness :
  let st' := fst (run st0 "self" output_loc true true) in
  heap st' !! key_loc = heap st0 !! key_loc /\
  heap st' !! value_loc = heap st0 !! value_loc /\
  heap st' !! query_loc = heap st0 !! query_loc /\
  heap st' !! mask_loc = heap st0 !! mask_loc.
Proof.
  refine (inputs_unchanged attention st0 key_loc value_loc query_loc mask_loc
            "self" output_loc true true _ _ _ _); discriminate.
Defined.

(** C8 as stated fails: with layer normalisation, the "context" call
    normalises the query only and the "self" call normalises what becomes
    query, key and value; on key = value = query and a fused weight and bias
    that are the concatenation of the separate ones, the outputs are 11 and
    1. *)
Lemma context_self_differ_with_pre_layernorm :
  valid_call attention st0 key_loc value_loc query_loc mask_loc "context" = true /\
  read st0 (Caller key_loc) = read st0 (Caller query_loc) /\
  read st0 (Caller value_loc) = read st0 (Caller query_loc) /\
  Z.rem 1 (num_attention_heads_ attention) = 0 /\
  fused_from_separate attention 1 /\
  read (fst (run st0 "context" output_loc true false)) (Caller output_loc)
  = cell cpu0 11 /\
  read (fst (run st0 "self" output_loc true false)) (Caller output_loc)
  = cell cpu0 1 /\
  read (fst (run st0 "context" output_loc true false)) (Caller output_loc)
    ≠ read (fst (run st0 "self" output_loc true false)) (Caller output_loc).
Proof.
  do 4 (split; [reflexivity|]).
  split; [repeat split; reflexivity|].
  do 2 (split; [reflexivity|]). vm_compute. discriminate.
Qed.

(** C8, amended, on two tokens, two heads and hidden size two, with the
    residual. *)
Lemma context_self_agree_witness :
  valid_call attention2 st2 key_loc value_loc query_loc mask_loc "context" = true /\
  read st2 (Caller key_loc) = read st2 (Caller query_loc) /\
  read st2 (Caller value_loc) = read st2 (Caller query_loc) /\
  Z.rem 2 (num_attention_heads_ attention2) = 0 /\
  fused_from_separate attention2 2 /\
  exists st_context st_self,
    MultiHeadedAttention_call attention2 key_loc value_loc query_loc
      mask_loc "context" output_loc false true st2
    = (st_context, Returns tt) /\
    MultiHeadedAttention_call attention2 key_loc value_loc query_loc
      mask_loc "self" output_loc false true st2
    = (st_self, Returns tt) /\
    read st_context (Caller output_loc) = read st_self (Caller output_loc).
Proof.
  assert (Hf : fused_from_separate attention2 2) by (repeat split; reflexivity).
  do 4 (split; [reflexivity|]). split; [exact Hf|].
  exact (context_self_agree Q_Kernels attention2 st2 key_loc value_loc query_loc
           mask_loc output_loc true eq_refl eq_refl eq_refl eq_refl eq_refl
           eq_refl eq_refl Hf).
Defined.

(** C9 on the one-cell "self" call. *)
Lemma key_seq_length_used_witness :
  valid_call attention st0 key_loc value_loc query_loc mask_loc "self" = true /\
  exists st',
    run st0 "self" output_loc false false = (st', Returns tt) /\
    ("self" = "context" \/ "self" = "self") /\
    derive_key_seq_length "self" (read st0 (Caller key_loc)) 1 st0
    = (st0, Returns 1) /\
    shape (read st' (Scratch att_score_tmp cpu0)) = [1; 1; 1; 1].
Proof.
  split; [reflexivity|].
  exact (key_seq_length_used attention st0 key_loc value_loc query_loc mask_loc
           "self" output_loc false false eq_refl).
Defined.


(** On two tokens and two heads the fused projection and the separate ones
    give the same head-major query [8, 16 | 12, 24], key and value. *)
Lemma fused_agrees_two_heads :
  fused_agrees attention2 st2 tokens2 /\
  fst (fst (projections attention2 st2 tokens2 tokens2 tokens2 "context"))
  = mkTensor [1; 2; 2; 1] cpu0 (qs [8; 16; 12; 24]).
Proof. split; reflexivity. Qed.

(** The scale of the scores for a head size of 4 is one half. *)
Lemma scaler_head_size_4 : fdiv fone (fsqrt (of_int64 4)) = (1 # 2)%Q.
Proof. reflexivity. Qed.

End Concrete.

(** ** Further properties of the call *)

Section FurtherRules.
Context {F : Type} `{Scalar F} `{Kernels F}.

Lemma keeps_heap_of_preserves {A} (m : M F A) :
  (forall h, preserves (fun s => heap s = h) m) -> keeps_heap m.
Proof. intros Hp st. apply (Hp (heap st) st eq_refl). Qed.

Lemma heap_kept_of_keeps {A} (m : M F A) : keeps_heap m -> heap_kept_on_throw m.
Proof. intros Hm st st' e Heq. specialize (Hm st). rewrite Heq in Hm. exact Hm. Qed.

Lemma heap_kept_bind {A B} (m : M F A) (f : A -> M F B) :
  keeps_heap m -> (forall a, heap_kept_on_throw (f a)) ->
  heap_kept_on_throw (m ≫= f).
Proof.
  intros Hm Hf st st' e. unfold mbind, M_bind. specialize (Hm st).
  destruct (m st) as [st1 [a|e1]]; simpl in Hm; intros Heq.
  - rewrite <- Hm. exact (Hf a _ _ _ Heq).
  - injection Heq as <- _. exact Hm.
Qed.

Lemma heap_kept_bind_GetTensor {B} (s : Slot) (c : DLContext) (f : ref -> M F B) :
  heap_kept_on_throw (f (Scratch s c)) ->
  heap_kept_on_throw (GetTensor s c ≫= f).
Proof.
  intros Hf st st' e. unfold mbind, M_bind, GetTensor. intros Heq.
  apply Hf in Heq. exact Heq.
Qed.

Lemma heap_kept_bind_tail {A B} (m : M F A) (f : A -> M F B) :
  heap_kept_on_throw m -> (forall a, never_throws (f a)) ->
  heap_kept_on_throw (m ≫= f).
Proof.
  intros Hm Hf st st' e. unfold mbind, M_bind.
  destruct (m st) as [st1 [a|e1]] eqn:Em; intros Heq.
  - destruct (Hf a st1) as [b Hb]. rewrite Heq in Hb. discriminate Hb.
  - injection Heq as <- _. exact (Hm _ _ _ Em).
Qed.

Lemma heap_kept_Reshape_at (r : ref) (shape_list : list Z)
    (devtype : DLDeviceType) (devid : Z) :
  heap_kept_on_throw (Reshape_at r shape_list devtype devid : M F unit).
Proof.
  intros st st' e. unfold Reshape_at, mbind, M_bind, load, lift, Reshape.
  destruct (all_positive shape_list); intros Heq; [discriminate Heq|].
  injection Heq as <- _. reflexivity.
Qed.

Lemma never_throws_bind {A B} (m : M F A) (f : A -> M F B) :
  never_throws m -> (forall a, never_throws (f a)) -> never_throws (m ≫= f).
Proof.
  intros Hm Hf st. unfold mbind, M_bind. destruct (Hm st) as [a Ha].
  destruct (m st) as [st1 [a'|e]]; [apply Hf | discriminate Ha].
Qed.

Lemma never_throws_load (r : ref) : never_throws (load r : M F (Tensor F)).
Proof. intros st. eexists. reflexivity. Qed.

Lemma never_throws_write (r : ref) (k : Tensor F -> list F) :
  never_throws (write r k : M F unit).
Proof. intros st. exists tt. reflexivity. Qed.

Lemma heap_preserved_scratch (h : gmap loc (Tensor F)) :
  stable_fetch (fun s : State F => heap s = h) /\
  forall s c, stable_at (fun s : State F => heap s = h) (Scratch s c).
Proof. split; [intros st s c Hs | intros s c st t Hs]; exact Hs. Qed.

Lemma preserves_bind_GetTensor_at {B} (P : State F -> Prop) (s : Slot)
    (c : DLContext) (f : ref -> M F B) :
  (forall st, P st -> P (fetch st s c)) -> preserves P (f (Scratch s c)) ->
  preserves P (GetTensor s c ≫= f).
Proof.
  intros Hfetch Hf st HP. unfold mbind, M_bind, GetTensor. apply Hf, Hfetch, HP.
Qed.

Lemma arena_fetch_ne (st : State F) (s : Slot) (c : DLContext)
    (k : Slot * DLContext) :
  (s, c) ≠ k -> arena (fetch st s c) !! k = arena st !! k.
Proof.
  intros Hne. unfold fetch. cbn [arena].
  destruct (arena st !! (s, c)); [reflexivity|].
  apply lookup_insert_ne, Hne.
Qed.

Lemma arena_update_ne (st : State F) (s : Slot) (c : DLContext) (t : Tensor F)
    (k : Slot * DLContext) :
  (s, c) ≠ k -> arena (update st (Scratch s c) t) !! k = arena st !! k.
Proof. intros Hne. cbn [update arena]. apply lookup_insert_ne, Hne. Qed.

Lemma footprint_frame_fetch (st0 : State F) (k : Slot * DLContext)
    (s : Slot) (c : DLContext) :
  (s, c) ≠ k ->
  forall st, footprint_frame st0 k st -> footprint_frame st0 k (fetch st s c).
Proof.
  intros Hne st [Hh Ha]. split; [exact Hh|].
  rewrite arena_fetch_ne by exact Hne. exact Ha.
Qed.

Lemma footprint_frame_update (st0 : State F) (k : Slot * DLContext)
    (s : Slot) (c : DLContext) :
  (s, c) ≠ k -> stable_at (footprint_frame st0 k) (Scratch s c).
Proof.
  intros Hne st t [Hh Ha]. split; [exact Hh|].
  rewrite arena_update_ne by exact Hne. exact Ha.
Qed.

Lemma footprint_frame_load {B} (st0 : State F) (k : Slot * DLContext) (l : loc)
    (f : Tensor F -> M F B) :
  preserves (footprint_frame st0 k) (f (read st0 (Caller l))) ->
  preserves (footprint_frame st0 k) (load (Caller l) ≫= f).
Proof.
  intros Hf st HP. unfold mbind, M_bind, load.
  replace (read st (Caller l)) with (read st0 (Caller l))
    by (destruct HP as [Hh _]; unfold read; rewrite Hh; reflexivity).
  apply Hf, HP.
Qed.

Lemma entry_kept_fetch (st0 : State F) (k : Slot * DLContext)
    (s : Slot) (c : DLContext) :
  (s, c) ≠ k ->
  forall st, entry_kept st0 k st -> entry_kept st0 k (fetch st s c).
Proof.
  intros Hne st Ha. unfold entry_kept.
  rewrite arena_fetch_ne by exact Hne. exact Ha.
Qed.

Lemma entry_kept_update (st0 : State F) (k : Slot * DLContext)
    (s : Slot) (c : DLContext) :
  (s, c) ≠ k -> stable_at (entry_kept st0 k) (Scratch s c).
Proof.
  intros Hne st t Ha. unfold entry_kept.
  rewrite arena_update_ne by exact Hne. exact Ha.
Qed.

Lemma entry_kept_caller (st0 : State F) (k : Slot * DLContext) (l : loc) :
  stable_at (entry_kept st0 k) (Caller l).
Proof. intros st t Ha. exact Ha. Qed.

Lemma ends_of_preserves {A} (P : State F -> Prop) (m : M F A)
    (Q : outcome A -> State F -> Prop) (st : State F) :
  preserves P m -> P st -> (forall o st', P st' -> Q o st') -> ends m Q st.
Proof. intros Hm HP HQ. unfold ends. apply HQ, Hm, HP. Qed.

End FurtherRules.

Ltac keeps_heap_solve :=
  apply keeps_heap_of_preserves; intros ?;
  first
    [ apply preserves_load | apply preserves_ret | apply preserves_throw
    | apply preserves_deref | apply preserves_TT_ENFORCE_EQ
    | apply preserves_lift
    | apply preserves_write; apply heap_preserved_scratch
    | apply preserves_Reshape_at; apply heap_preserved_scratch
    | apply project_preserves;
        [ apply heap_preserved_scratch | intros; apply heap_preserved_scratch ] ].

Ltac heap_kept_step :=
  lazymatch goal with
  | |- heap_kept_on_throw (mbind _ (GetTensor _ _)) =>
      apply heap_kept_bind_GetTensor
  | |- heap_kept_on_throw (mbind _ (Reshape_at (Caller _) _ _ _)) =>
      apply heap_kept_bind_tail; [ apply heap_kept_Reshape_at | intros ? ]
  | |- heap_kept_on_throw (mbind _ (if ?b then _ else _)) => destruct b eqn:?
  | |- heap_kept_on_throw (mbind _ _) =>
      apply heap_kept_bind; [ keeps_heap_solve | intros ? ]
  | |- heap_kept_on_throw (match ?p with (_, _) => _ end) => destruct p
  end.

Ltac never_throws_step :=
  lazymatch goal with
  | |- never_throws (mbind _ _) => apply never_throws_bind; [ | intros ? ]
  | |- never_throws (load _) => apply never_throws_load
  | |- never_throws (write _ _) => apply never_throws_write
  | |- never_throws (if ?b then _ else _) => destruct b
  end.

(** A scratch entry outside the footprint is none of those the code names. *)
Ltac outside_footprint :=
  let Heq := fresh in
  intros Heq; injection Heq as <- <-;
  match goal with
  | Hfp : in_footprint _ _ _ _ _ _ = false |- _ =>
      cbn [in_footprint] in Hfp;
      repeat match goal with
             | Hx : String.eqb _ _ = true |- _ => rewrite Hx in Hfp
             | Hx : known_variant _ = true |- _ => rewrite Hx in Hfp
             end;
      rewrite bool_decide_eq_true_2 in Hfp by reflexivity;
      discriminate Hfp
  end.

Ltac footprint_step :=
  lazymatch goal with
  | |- preserves (footprint_frame _ _) (mbind _ (load (Caller _))) =>
      apply footprint_frame_load
  | |- preserves (footprint_frame _ _) (mbind _ (GetTensor _ _)) =>
      apply preserves_bind_GetTensor_at;
      [ apply footprint_frame_fetch; outside_footprint | ]
  | |- preserves (entry_kept _ _) (mbind _ (GetTensor _ _)) =>
      apply preserves_bind_GetTensor_at;
      [ apply entry_kept_fetch; outside_footprint | ]
  | |- preserves _ (mbind _ _) => apply preserves_bind; [ | intros ? ]
  | |- preserves (footprint_frame _ _) (write (Scratch _ _) _) =>
      apply preserves_write, footprint_frame_update; outside_footprint
  | |- preserves (footprint_frame _ _) (Reshape_at (Scratch _ _) _ _ _) =>
      apply preserves_Reshape_at, footprint_frame_update; outside_footprint
  | |- preserves (entry_kept _ _) (write (Scratch _ _) _) =>
      apply preserves_write, entry_kept_update; outside_footprint
  | |- preserves (entry_kept _ _) (Reshape_at (Scratch _ _) _ _ _) =>
      apply preserves_Reshape_at, entry_kept_update; outside_footprint
  | |- preserves (entry_kept _ _) (write (Caller _) _) =>
      apply preserves_write, entry_kept_caller
  | |- preserves (entry_kept _ _) (Reshape_at (Caller _) _ _ _) =>
      apply preserves_Reshape_at, entry_kept_caller
  | |- preserves _ (mret _) => apply preserves_ret
  | |- preserves _ (throw _) => apply preserves_throw
  | |- preserves _ (lift _) => apply preserves_lift
  | |- preserves _ (load _) => apply preserves_load
  | |- preserves _ (deref _) => apply preserves_deref
  | |- preserves _ (if ?b then _ else _) => destruct b
  end.

Section Further.
Context {F : Type} `{Scalar F} `{Kernels F}.

Lemma project_context_general (self : MultiHeadedAttention F) (st : State F)
    (key_tensor value_tensor query_tensor : loc) (pre_layernorm : bool) :
  let key := read st (Caller key_tensor) in
  let value := read st (Caller value_tensor) in
  let query := read st (Caller query_tensor) in
  let heads := num_attention_heads_ self in
  all_positive [shape_at query 0; shape_at query 1; shape_at key 1;
                shape_at query 2; heads; shape_at query 2 ÷ heads] = true ->
  wp (project_context self key_tensor value_tensor query_tensor pre_layernorm
        (shape_at query 0) (shape_at query 1) (shape_at key 1)
        (shape_at query 2) (shape_at query 2 ÷ heads)
        (device_type (device_ctx query)) (device_id (device_ctx query))
        (device_ctx query))
     (fun _ st' =>
        (read st' (Scratch q_out2_temp (device_ctx query)),
         read st' (Scratch k_out2_temp (device_ctx key)),
         read st' (Scratch v_out2_temp (device_ctx value)))
        = projections_of self st key value query "context" pre_layernorm)
     st.
Proof.
  intros key value query heads Hpos. subst key value query heads.
  repeat (apply all_positive_cons in Hpos; destruct Hpos as [? Hpos]).
  unfold project_context.
  destruct pre_layernorm.
  all: repeat (wp_step; read_norm).
  all: reflexivity.
Qed.

Lemma project_self_general (self : MultiHeadedAttention F) (st : State F)
    (query_tensor : loc) (pre_layernorm : bool) :
  let query := read st (Caller query_tensor) in
  let heads := num_attention_heads_ self in
  all_positive [shape_at query 0; shape_at query 1;
                shape_at query 2; heads; shape_at query 2 ÷ heads] = true ->
  wp (project_self self query_tensor pre_layernorm
        (shape_at query 0) (shape_at query 1)
        (shape_at query 2) (shape_at query 2 ÷ heads)
        (device_type (device_ctx query)) (device_id (device_ctx query))
        (device_ctx query))
     (fun _ st' =>
        let fused := read st' (Scratch qkv_out2_temp (device_ctx query)) in
        (slice fused 0, slice fused 1, slice fused 2)
        = projections_of self st query query query "self" pre_layernorm)
     st.
Proof.
  intros query heads Hpos. subst query heads.
  repeat (apply all_positive_cons in Hpos; destruct Hpos as [? Hpos]).
  unfold project_self.
  destruct pre_layernorm.
  all: repeat (wp_step; read_norm).
  all: reflexivity.
Qed.

Lemma project_general (self : MultiHeadedAttention F) (st : State F)
    (key_tensor value_tensor query_tensor : loc) (attn_type : string)
    (pre_layernorm : bool) :
  let key := read st (Caller key_tensor) in
  let value := read st (Caller value_tensor) in
  let query := read st (Caller query_tensor) in
  let heads := num_attention_heads_ self in
  known_variant attn_type = true ->
  all_positive [shape_at query 0; shape_at query 1; shape_at query 2;
                key_seq_length_of attn_type key query;
                heads; shape_at query 2 ÷ heads] = true ->
  wp (project self key_tensor value_tensor query_tensor attn_type pre_layernorm
        (shape_at query 0) (shape_at query 1)
        (key_seq_length_of attn_type key query) (shape_at query 2)
        (shape_at query 2 ÷ heads)
        (device_type (device_ctx query)) (device_id (device_ctx query))
        (device_ctx query))
     (fun _ st' =>
        (pointee st' (q_ptr_of attn_type query),
         pointee st' (k_ptr_of attn_type key query),
         pointee st' (v_ptr_of attn_type value query))
        = projections_of self st key value query attn_type pre_layernorm)
     st.
Proof.
  intros key value query heads Hk Hpos. subst key value query heads.
  repeat (apply all_positive_cons in Hpos; destruct Hpos as [? Hpos]).
  unfold known_variant in Hk.
  unfold project, q_ptr_of, k_ptr_of, v_ptr_of, key_seq_length_of in *.
  destruct (String.eqb attn_type "context") eqn:Ec.
  - apply String.eqb_eq in Ec. subst attn_type.
    eapply wp_mono; [apply project_context_general; solve_positive|].
    intros ? st' Hp. cbn beta in Hp. cbn [pointee]. exact Hp.
  - simpl in Hk. rewrite Hk.
    eapply wp_mono; [apply project_self_general; solve_positive|].
    intros ? st' Hp. cbn beta zeta in Hp. cbn [pointee]. rewrite Hp.
    unfold projections_of. rewrite Ec.
    replace (String.eqb "self" "context") with false by reflexivity.
    reflexivity.
Qed.

(** The head-major query, key and value behind the pointers when a valid
    call has returned. *)
Lemma call_projections_general (self : MultiHeadedAttention F) (st : State F)
    (key_tensor value_tensor query_tensor attention_mask : loc)
    (attn_type : string) (output : loc) (pre_layernorm post_add : bool) :
  valid_call self st key_tensor value_tensor query_tensor attention_mask
    attn_type = true ->
  wp (MultiHeadedAttention_call self key_tensor value_tensor query_tensor
        attention_mask attn_type output pre_layernorm post_add)
     (fun _ st' =>
        let key := read st (Caller key_tensor) in
        let value := read st (Caller value_tensor) in
        let query := read st (Caller query_tensor) in
        (pointee st' (q_ptr_of attn_type query),
         pointee st' (k_ptr_of attn_type key query),
         pointee st' (v_ptr_of attn_type value query))
        = projections_of self st key value query attn_type pre_layernorm)
     st.
Proof.
  intros Hv. split_valid Hv.
  unfold MultiHeadedAttention_call.
  repeat wp_step.
  rewrite derive_key_seq_length_known by assumption. wp_step.
  unfold derive_size_per_head.
  destruct (Z.eqb_spec (num_attention_heads_ self) 0) as [E0|E0]; [lia|].
  repeat wp_step.
  eapply wp_mono.
  { apply wp_conj.
    - apply project_spec; [assumption | solve_positive].
    - apply project_general; [assumption | solve_positive]. }
  intros ptrs st1 [[-> _] Hproj]. cbv beta iota.
  destruct (ptr_of_projection attn_type (read st (Caller key_tensor))
              (read st (Caller value_tensor)) (read st (Caller query_tensor)))
    as (Hq & Hk & Hv').
  eapply wp_mono.
  { apply wp_preserves.
    - apply attend_spec; [solve_positive | eassumption ..].
    - apply attend_preserves; apply (attend_frame_stable st1 output).
    - intros r _. reflexivity. }
  cbv beta zeta. intros _ st' [_ Hfr'].
  rewrite !(pointee_frame st1 st') by assumption.
  exact Hproj.
Qed.

Lemma reshaped_layout (t : Tensor F) (shape_list : list Z)
    (devtype : DLDeviceType) (devid : Z) :
  same_layout (reshaped t shape_list devtype devid)
              (blank shape_list devtype devid).
Proof. split; reflexivity. Qed.

Lemma produce_reshaped (k : Tensor F -> list F) (t : Tensor F)
    (shape_list : list Z) (devtype : DLDeviceType) (devid : Z) :
  (forall o o', same_layout o o' -> k o = k o') ->
  with_data (reshaped t shape_list devtype devid)
            (k (reshaped t shape_list devtype devid))
  = produce shape_list devtype devid k.
Proof.
  intros Hk. unfold produce, with_data. cbn [shape device_ctx reshaped blank].
  f_equal. apply Hk, reshaped_layout.
Qed.

Lemma project_one_flow (self : MultiHeadedAttention F)
    (input weight bias out1 out2 : Tensor F)
    (batch_size seq_length hidden_size : Z) (devtype : DLDeviceType) (devid : Z) :
  overwriting_kernels ->
  project_one self input weight bias out1 out2 batch_size seq_length hidden_size
    devtype devid
  = flow_one self input weight bias batch_size seq_length hidden_size devtype devid.
Proof.
  intros Hov. unfold project_one, flow_one. cbv zeta.
  rewrite (produce_reshaped (fun o => MatMul input false weight false fone o fzero))
    by (intros; apply MatMul_overwrites; assumption).
  apply produce_reshaped. intros; apply AddBiasTransposeForScore_overwrites; assumption.
Qed.

Lemma project_fused_flow (self : MultiHeadedAttention F)
    (input out1 out2 : Tensor F)
    (batch_size seq_length hidden_size : Z) (devtype : DLDeviceType) (devid : Z) :
  overwriting_kernels ->
  project_fused self input out1 out2 batch_size seq_length hidden_size devtype devid
  = flow_fused self input batch_size seq_length hidden_size devtype devid.
Proof.
  intros Hov. unfold project_fused, flow_fused. cbv zeta.
  rewrite (produce_reshaped (fun o => MatMul input false (qkv_weight_ self) false fone o fzero))
    by (intros; apply MatMul_overwrites; assumption).
  apply (produce_reshaped (fun o => SplitAddBiasTransposeForScore o _ _)).
  intros; apply SplitAddBiasTransposeForScore_overwrites; assumption.
Qed.

Lemma normalised_flow (self : MultiHeadedAttention F) (query t : Tensor F)
    (shape_list : list Z) (devtype : DLDeviceType) (devid : Z) :
  overwriting_kernels ->
  normalised self query (reshaped t shape_list devtype devid)
  = normalised self query (blank shape_list devtype devid).
Proof.
  intros Hov. unfold normalised. cbv zeta.
  assert (Hc : with_data (reshaped t shape_list devtype devid)
                 (Copy query (reshaped t shape_list devtype devid))
             = with_data (blank shape_list devtype devid)
                 (Copy query (blank shape_list devtype devid))).
  { unfold with_data. cbn [shape device_ctx reshaped blank]. f_equal.
    apply (Copy_overwrites Hov), reshaped_layout. }
  rewrite Hc. reflexivity.
Qed.

Lemma projections_of_flow (self : MultiHeadedAttention F) (st : State F)
    (key value query : Tensor F) (attn_type : string) (pre_layernorm : bool) :
  overwriting_kernels ->
  projections_of self st key value query attn_type pre_layernorm
  = flow_projections self key value query attn_type pre_layernorm.
Proof.
  intros Hov. unfold projections_of, flow_projections. cbv zeta.
  rewrite !project_one_flow, !project_fused_flow by exact Hov.
  rewrite !normalised_flow by exact Hov.
  reflexivity.
Qed.

Lemma call_flow (self : MultiHeadedAttention F) (st : State F)
    (key_tensor value_tensor query_tensor attention_mask : loc)
    (attn_type : string) (output : loc) (pre_layernorm post_add : bool) :
  overwriting_kernels ->
  valid_call self st key_tensor value_tensor query_tensor attention_mask
    attn_type = true ->
  (post_add = true -> output ≠ query_tensor) ->
  exists st',
    MultiHeadedAttention_call self key_tensor value_tensor query_tensor
      attention_mask attn_type output pre_layernorm post_add st
    = (st', Returns tt) /\
    read st' (Caller output)
    = attention_flow self (read st (Caller key_tensor))
        (read st (Caller value_tensor)) (read st (Caller query_tensor))
        (read st (Caller attention_mask)) attn_type pre_layernorm post_add.
Proof.
  intros Hov Hv Hne.
  destruct (wp_elim _ _ _ (wp_conj _ _ _ _
              (call_spec self st key_tensor value_tensor query_tensor
                 attention_mask attn_type output pre_layernorm post_add Hv)
              (call_projections_general self st key_tensor value_tensor
                 query_tensor attention_mask attn_type output pre_layernorm
                 post_add Hv)))
    as (st' & [] & Hrun & (Hscore & Hctx & Hun & Hout) & Hproj).
  exists st'. split; [exact Hrun|].
  cbv zeta in *.
  rewrite projections_of_flow in Hproj by exact Hov.
  unfold attention_flow. cbv zeta.
  destruct (flow_projections self (read st (Caller key_tensor))
              (read st (Caller value_tensor)) (read st (Caller query_tensor))
              attn_type pre_layernorm) as [[q k] v].
  pose proof (f_equal (fun p => fst (fst p)) Hproj) as Hq.
  pose proof (f_equal (fun p => snd (fst p)) Hproj) as Hk.
  pose proof (f_equal snd Hproj) as Hv'.
  cbn [fst snd] in Hq, Hk, Hv'. clear Hproj.
  rewrite Hq, Hk in Hscore. rewrite Hv' in Hctx.
  rewrite (produce_reshaped (fun o => BatchMatMul q false k true _ o fzero)) in Hscore
    by (intros; apply BatchMatMul_overwrites; assumption).
  rewrite Hscore in Hctx.
  rewrite (produce_reshaped (fun o => BatchMatMul _ false v false fone o fzero)) in Hctx
    by (intros; apply BatchMatMul_overwrites; assumption).
  rewrite Hctx in Hun.
  rewrite (produce_reshaped (fun o => TransposeForScore o _)) in Hun
    by (intros; apply TransposeForScore_overwrites; assumption).
  rewrite Hun in Hout.
  rewrite (produce_reshaped
             (fun o => MatMul _ false (dense_weight_ self) false fone o fzero))
    in Hout by (intros; apply MatMul_overwrites; assumption).
  rewrite Hout. destruct post_add; [|reflexivity].
  destruct (decide (output = query_tensor)) as [Heq|_]; [|reflexivity].
  destruct (Hne eq_refl Heq).
Qed.


(** A caller tensor other than the output is after the call what it was
    before. *)
Lemma call_frame (self : MultiHeadedAttention F) (st : State F)
    (key_tensor value_tensor query_tensor attention_mask : loc)
    (attn_type : string) (output : loc) (pre_layernorm post_add : bool)
    (l : loc) :
  output ≠ l ->
  read (fst (MultiHeadedAttention_call self key_tensor value_tensor
               query_tensor attention_mask attn_type output pre_layernorm
               post_add st)) (Caller l)
  = read st (Caller l).
Proof.
  intros Hl.
  apply (call_preserves (fun s => read s (Caller l) = read st (Caller l)));
    [ | | | reflexivity ].
  - intros s sl c Hs. rewrite read_fetch. exact Hs.
  - intros sl c s t Hs. rewrite read_update_ne by discriminate. exact Hs.
  - intros s t Hs. rewrite read_update_ne by congruence. exact Hs.
Qed.

Lemma valid_call_reads (self : MultiHeadedAttention F) (st st' : State F)
    (key_tensor value_tensor query_tensor attention_mask : loc)
    (key_tensor' value_tensor' query_tensor' attention_mask' : loc)
    (attn_type : string) :
  read st' (Caller key_tensor') = read st (Caller key_tensor) ->
  read st' (Caller value_tensor') = read st (Caller value_tensor) ->
  read st' (Caller query_tensor') = read st (Caller query_tensor) ->
  read st' (Caller attention_mask') = read st (Caller attention_mask) ->
  valid_call self st' key_tensor' value_tensor' query_tensor' attention_mask' attn_type
  = valid_call self st key_tensor value_tensor query_tensor attention_mask attn_type.
Proof.
  intros Hk Hv Hq Hm. unfold valid_call, operand_checks_pass.
  rewrite Hk, Hv, Hq, Hm. reflexivity.
Qed.

Lemma projections_of_self (self : MultiHeadedAttention F) (st st' : State F)
    (key value key' value' query : Tensor F) (pre_layernorm : bool) :
  arena st = arena st' ->
  projections_of self st key value query "self" pre_layernorm
  = projections_of self st' key' value' query "self" pre_layernorm.
Proof.
  intros Har. unfold projections_of.
  replace (String.eqb "self" "context") with false by reflexivity.
  cbv zeta. unfold read. rewrite Har. reflexivity.
Qed.

Lemma project_footprint (self : MultiHeadedAttention F) (st : State F)
    (key_tensor value_tensor query_tensor : loc) (attn_type : string)
    (pre_layernorm : bool)
    (batch_size query_seq_length key_seq_length hidden_size size_per_head : Z)
    (devtype : DLDeviceType) (devid : Z) (s : Slot) (c : DLContext) :
  in_footprint attn_type (read st (Caller key_tensor))
    (read st (Caller value_tensor)) (read st (Caller query_tensor)) s c = false ->
  preserves (footprint_frame st (s, c))
    (project self key_tensor value_tensor query_tensor attn_type pre_layernorm
       batch_size query_seq_length key_seq_length hidden_size size_per_head
       devtype devid (device_ctx (read st (Caller query_tensor)))).
Proof.
  intros Hfp. unfold project, project_context, project_self.
  destruct (String.eqb attn_type "context") eqn:Ec;
    [ | destruct (String.eqb attn_type "self") eqn:Es ].
  all: repeat footprint_step.
Qed.

Lemma attend_footprint (self : MultiHeadedAttention F) (st : State F)
    (query_tensor attention_mask output : loc) (post_add : bool)
    (q_ptr k_ptr v_ptr : tensor_ptr) (attn_type : string)
    (key value query : Tensor F)
    (batch_size query_seq_length key_seq_length hidden_size size_per_head : Z)
    (devtype : DLDeviceType) (devid : Z) (s : Slot) (c : DLContext) :
  known_variant attn_type = true ->
  in_footprint attn_type key value query s c = false ->
  preserves (entry_kept st (s, c))
    (attend self query_tensor attention_mask output post_add q_ptr k_ptr v_ptr
       batch_size query_seq_length key_seq_length hidden_size size_per_head
       devtype devid (device_ctx query)).
Proof.
  intros Hk Hfp. unfold attend.
  repeat footprint_step.
Qed.

(** *** The properties *)

(** X1.  A call that returns has passed every check of the function: the
    mask is on the key's device context, key, value and query have rank 3,
    key and value have the same leading dimension, the variant is "context"
    or "self", and batch size, query and key sequence lengths, hidden size,
    head count and head size are positive.  A call that fails one of these
    does not return. *)
Theorem returning_call_was_valid (self : MultiHeadedAttention F)
    (st : State F)
    (key_tensor value_tensor query_tensor attention_mask : loc)
    (attn_type : string) (output : loc) (pre_layernorm post_add : bool) :
  snd (MultiHeadedAttention_call self key_tensor value_tensor query_tensor
         attention_mask attn_type output pre_layernorm post_add st)
  = Returns tt ->
  let key := read st (Caller key_tensor) in
  let value := read st (Caller value_tensor) in
  let query := read st (Caller query_tensor) in
  let mask := read st (Caller attention_mask) in
  let heads := num_attention_heads_ self in
  valid_call self st key_tensor value_tensor query_tensor attention_mask
    attn_type = true /\
  device_ctx key = device_ctx mask /\
  n_dim key = 3 /\ n_dim value = 3 /\ n_dim query = 3 /\
  shape_at key 0 = shape_at value 0 /\
  (attn_type = "context" \/ attn_type = "self") /\
  0 < shape_at query 0 /\ 0 < shape_at query 1 /\ 0 < shape_at query 2 /\
  0 < (if String.eqb attn_type "context" then shape_at key 1
       else shape_at query 1) /\
  0 < heads /\ 0 < shape_at query 2 ÷ heads.
Proof.
  intros Hrun key value query mask heads.
  assert (Hv : valid_call self st key_tensor value_tensor query_tensor
                 attention_mask attn_type = true).
  { apply (valid_call_complete self st
             (fst (MultiHeadedAttention_call self key_tensor value_tensor
                     query_tensor attention_mask attn_type output pre_layernorm
                     post_add st))
             key_tensor value_tensor query_tensor attention_mask attn_type
             output pre_layernorm post_add).
    rewrite <- Hrun. apply surjective_pairing. }
  split; [exact Hv|].
  unfold valid_call, operand_checks_pass in Hv.
  apply andb_prop in Hv as [Hv Hpos]. apply andb_prop in Hv as [Hv Hk].
  repeat (apply andb_prop in Hv; destruct Hv as [Hv ?]).
  repeat match goal with Hx : (_ =? _) = true |- _ => apply Z.eqb_eq in Hx end.
  repeat (apply all_positive_cons in Hpos; destruct Hpos as [? Hpos]).
  unfold is_same_device_ctx in Hv. apply bool_decide_eq_true in Hv.
  unfold known_variant in Hk. apply orb_prop in Hk.
  unfold key_seq_length_of in *.
  repeat split; try assumption.
  destruct Hk as [Hk|Hk]; apply String.eqb_eq in Hk; [left|right]; exact Hk.
Qed.

(** X2.  The checks of lines 38-69 are made in the order mask device, key
    rank, value rank, query rank, leading dimension of key and value,
    variant.  The first one that does not pass decides the failure, and the
    call ends with the whole state as it was. *)
Theorem first_failing_check_decides (self : MultiHeadedAttention F) (st : State F)
    (key_tensor value_tensor query_tensor attention_mask : loc)
    (attn_type : string) (output : loc) (pre_layernorm post_add : bool)
    (e : error) :
  first_failure st key_tensor value_tensor query_tensor attention_mask attn_type
  = Some e ->
  MultiHeadedAttention_call self key_tensor value_tensor query_tensor
    attention_mask attn_type output pre_layernorm post_add st
  = (st, Throws e).
Proof.
  intros Hff.
  pose proof (call_ends_at_first_failure self st key_tensor value_tensor
                query_tensor attention_mask attn_type output pre_layernorm
                post_add) as Hc.
  unfold ends in Hc. destruct (Hc e Hff) as [Hst Ho].
  destruct (MultiHeadedAttention_call _ _ _ _ _ _ _ _ _ _) as [s o].
  simpl in Hst, Ho. subst. reflexivity.
Qed.

(** The checks and the [Reshape] calls of the function all come before the
    first assignment to the output: a run that one of them ends has assigned
    no tensor of the caller. *)
Lemma throwing_call_keeps_heap (self : MultiHeadedAttention F)
    (st st' : State F)
    (key_tensor value_tensor query_tensor attention_mask : loc)
    (attn_type : string) (output : loc) (pre_layernorm post_add : bool)
    (e : error) :
  MultiHeadedAttention_call self key_tensor value_tensor query_tensor
    attention_mask attn_type output pre_layernorm post_add st
  = (st', Throws e) ->
  heap st' = heap st.
Proof.
  revert st st' e.
  change (heap_kept_on_throw
            (MultiHeadedAttention_call self key_tensor value_tensor
               query_tensor attention_mask attn_type output pre_layernorm
               post_add)).
  unfold MultiHeadedAttention_call, derive_key_seq_length, derive_size_per_head, attend.
  repeat heap_kept_step.
  all: repeat never_throws_step.
Qed.

(** X3.  A call that is not valid assigns no tensor of the caller, the
    output included: the output is first assigned at line 209, after every
    check and every [Reshape] that validity is about.  Scratch tensors may
    have been assigned by then. *)
Theorem invalid_call_keeps_caller_tensors (self : MultiHeadedAttention F)
    (st : State F)
    (key_tensor value_tensor query_tensor attention_mask : loc)
    (attn_type : string) (output : loc) (pre_layernorm post_add : bool) :
  valid_call self st key_tensor value_tensor query_tensor attention_mask
    attn_type = false ->
  heap (fst (MultiHeadedAttention_call self key_tensor value_tensor
               query_tensor attention_mask attn_type output pre_layernorm
               post_add st))
  = heap st.
Proof.
  intros Hv.
  destruct (MultiHeadedAttention_call self key_tensor value_tensor
              query_tensor attention_mask attn_type output pre_layernorm
              post_add st) as [st' [[]|e]] eqn:Hrun; cbn [fst].
  - rewrite (valid_call_complete _ _ _ _ _ _ _ _ _ _ _ Hrun) in Hv.
    discriminate Hv.
  - exact (throwing_call_keeps_heap _ _ _ _ _ _ _ _ _ _ _ _ Hrun).
Qed.

(** X4.  With kernels that overwrite their output tensor, a valid call
    whose output is not the query object when the residual is asked for
    leaves in the output the tensor [attention_flow] computes from the four
    operands and the weights: what the scratch tensors and the output held
    before the call has no influence on it. *)
Theorem call_computes_flow (self : MultiHeadedAttention F) (st : State F)
    (key_tensor value_tensor query_tensor attention_mask : loc)
    (attn_type : string) (output : loc) (pre_layernorm post_add : bool) :
  overwriting_kernels ->
  valid_call self st key_tensor value_tensor query_tensor attention_mask
    attn_type = true ->
  (post_add = true -> output ≠ query_tensor) ->
  exists st',
    MultiHeadedAttention_call self key_tensor value_tensor query_tensor
      attention_mask attn_type output pre_layernorm post_add st
    = (st', Returns tt) /\
    read st' (Caller output)
    = attention_flow self (read st (Caller key_tensor))
        (read st (Caller value_tensor)) (read st (Caller query_tensor))
        (read st (Caller attention_mask)) attn_type pre_layernorm post_add.
Proof. apply call_flow. Qed.

(** X5.  With such kernels and an output tensor that is none of the four
    operands, a valid call run twice in a row returns both times, and the
    second run leaves the output as the first one left it. *)
Theorem repeated_call_same_output (self : MultiHeadedAttention F) (st : State F)
    (key_tensor value_tensor query_tensor attention_mask : loc)
    (attn_type : string) (output : loc) (pre_layernorm post_add : bool) :
  overwriting_kernels ->
  valid_call self st key_tensor value_tensor query_tensor attention_mask
    attn_type = true ->
  output ≠ key_tensor -> output ≠ value_tensor ->
  output ≠ query_tensor -> output ≠ attention_mask ->
  exists st1 st2,
    MultiHeadedAttention_call self key_tensor value_tensor query_tensor
      attention_mask attn_type output pre_layernorm post_add st
    = (st1, Returns tt) /\
    MultiHeadedAttention_call self key_tensor value_tensor query_tensor
      attention_mask attn_type output pre_layernorm post_add st1
    = (st2, Returns tt) /\
    read st2 (Caller output) = read st1 (Caller output).
Proof.
  intros Hov Hv Hk Hva Hq Hm.
  destruct (call_flow self st key_tensor value_tensor query_tensor
              attention_mask attn_type output pre_layernorm post_add Hov Hv
              (fun _ => Hq))
    as (st1 & Hrun1 & Hout1).
  assert (Hfr : forall l, output ≠ l -> read st1 (Caller l) = read st (Caller l)).
  { intros l Hl.
    pose proof (call_frame self st key_tensor value_tensor query_tensor
                  attention_mask attn_type output pre_layernorm post_add l Hl)
      as Hf.
    rewrite Hrun1 in Hf. exact Hf. }
  assert (Hv1 : valid_call self st1 key_tensor value_tensor query_tensor
                  attention_mask attn_type = true).
  { rewrite <- Hv. apply valid_call_reads; apply Hfr; assumption. }
  destruct (call_flow self st1 key_tensor value_tensor query_tensor
              attention_mask attn_type output pre_layernorm post_add Hov Hv1
              (fun _ => Hq))
    as (st2 & Hrun2 & Hout2).
  exists st1, st2. split; [exact Hrun1|]. split; [exact Hrun2|].
  rewrite Hout2, Hout1, !Hfr by assumption. reflexivity.
Qed.

(** X6.  The "self" variant reads of key and value only what the operand
    checks read: two valid "self" calls from states with the same scratch
    arena and the same query, mask and output tensors leave the same output,
    whatever the key and value tensors are. *)
Theorem self_ignores_key_and_value (self : MultiHeadedAttention F)
    (st_a st_b : State F)
    (key_a value_a key_b value_b query_tensor attention_mask output : loc)
    (pre_layernorm post_add : bool) :
  arena st_a = arena st_b ->
  read st_a (Caller query_tensor) = read st_b (Caller query_tensor) ->
  read st_a (Caller attention_mask) = read st_b (Caller attention_mask) ->
  read st_a (Caller output) = read st_b (Caller output) ->
  valid_call self st_a key_a value_a query_tensor attention_mask "self" = true ->
  valid_call self st_b key_b value_b query_tensor attention_mask "self" = true ->
  exists st_a' st_b',
    MultiHeadedAttention_call self key_a value_a query_tensor attention_mask
      "self" output pre_layernorm post_add st_a
    = (st_a', Returns tt) /\
    MultiHeadedAttention_call self key_b value_b query_tensor attention_mask
      "self" output pre_layernorm post_add st_b
    = (st_b', Returns tt) /\
    read st_a' (Caller output) = read st_b' (Caller output).
Proof.
  intros Har Hq Hm Ho Hva Hvb.
  destruct (wp_elim _ _ _ (wp_conj _ _ _ _
              (call_spec self st_a key_a value_a query_tensor
                 attention_mask "self" output pre_layernorm post_add Hva)
              (call_projections_general self st_a key_a value_a query_tensor
                 attention_mask "self" output pre_layernorm post_add Hva)))
    as (sta & [] & Hruna & (Hsa & Hca & Hua & Hoa) & Hpa).
  destruct (wp_elim _ _ _ (wp_conj _ _ _ _
              (call_spec self st_b key_b value_b query_tensor
                 attention_mask "self" output pre_layernorm post_add Hvb)
              (call_projections_general self st_b key_b value_b query_tensor
                 attention_mask "self" output pre_layernorm post_add Hvb)))
    as (stb & [] & Hrunb & (Hsb & Hcb & Hub & Hob) & Hpb).
  exists sta, stb. split; [exact Hruna|]. split; [exact Hrunb|].
  cbv zeta in *.
  rewrite (projections_of_self self st_a st_b _ _
             (read st_b (Caller key_b)) (read st_b (Caller value_b)) _ _ Har)
    in Hpa.
  rewrite Hq in *. rewrite Hm in *. rewrite Ho in *.
  rewrite <- Hpb in Hpa. clear Hpb.
  unfold q_ptr_of, k_ptr_of, v_ptr_of, key_seq_length_of in *.
  replace (String.eqb "self" "context") with false in * by reflexivity.
  cbv iota in *.
  set (query := read st_b (Caller query_tensor)) in *.
  pose proof (f_equal (fun p => fst (fst p)) Hpa) as Hq'.
  pose proof (f_equal (fun p => snd (fst p)) Hpa) as Hk'.
  pose proof (f_equal snd Hpa) as Hv'.
  cbn [fst snd] in Hq', Hk', Hv'. clear Hpa.
  assert (Hrd : forall s c, read st_a (Scratch s c) = read st_b (Scratch s c)).
  { intros s c. unfold read. rewrite Har. reflexivity. }
  rewrite !Hrd in *.
  assert (Hscore : read sta (Scratch att_score_tmp (device_ctx query))
                 = read stb (Scratch att_score_tmp (device_ctx query))).
  { rewrite Hsa, Hsb, Hq', Hk'. reflexivity. }
  assert (Hctx : read sta (Scratch context_layer_tmpr (device_ctx query))
               = read stb (Scratch context_layer_tmpr (device_ctx query))).
  { rewrite Hca, Hcb, Hscore, Hv'. reflexivity. }
  assert (Hun : read sta (Scratch self_attr_out_tmp (device_ctx query))
              = read stb (Scratch self_attr_out_tmp (device_ctx query))).
  { rewrite Hua, Hub, Hctx. reflexivity. }
  rewrite Hoa, Hob, Hun. reflexivity.
Qed.

(** X7.  After a valid call the tensors behind [q_ptr], [k_ptr] and [v_ptr]
    have the head-major shapes [[batch, heads, query_seq_len, head_size]] and
    [[batch, heads, key_seq_len, head_size]], with batch and hidden size read
    off the query; the value tensor's own sequence length is not used. *)
Theorem projections_head_major (self : MultiHeadedAttention F) (st : State F)
    (key_tensor value_tensor query_tensor attention_mask : loc)
    (attn_type : string) (output : loc) (pre_layernorm post_add : bool) :
  valid_call self st key_tensor value_tensor query_tensor attention_mask
    attn_type = true ->
  exists st',
    MultiHeadedAttention_call self key_tensor value_tensor query_tensor
      attention_mask attn_type output pre_layernorm post_add st
    = (st', Returns tt) /\
    let key := read st (Caller key_tensor) in
    let value := read st (Caller value_tensor) in
    let query := read st (Caller query_tensor) in
    let heads := num_attention_heads_ self in
    let head_major seq_length :=
      [shape_at query 0; heads; seq_length; shape_at query 2 ÷ heads] in
    shape (pointee st' (q_ptr_of attn_type query)) = head_major (shape_at query 1) /\
    shape (pointee st' (k_ptr_of attn_type key query))
    = head_major (key_seq_length_of attn_type key query) /\
    shape (pointee st' (v_ptr_of attn_type value query))
    = head_major (key_seq_length_of attn_type key query).
Proof.
  intros Hv.
  destruct (wp_elim _ _ _
              (call_projections_general self st key_tensor value_tensor
                 query_tensor attention_mask attn_type output pre_layernorm
                 post_add Hv))
    as (st' & [] & Hrun & Hproj).
  exists st'. split; [exact Hrun|]. cbv zeta in *.
  pose proof (f_equal (fun p => fst (fst p)) Hproj) as Hq.
  pose proof (f_equal (fun p => snd (fst p)) Hproj) as Hk.
  pose proof (f_equal snd Hproj) as Hv'.
  clear Hproj. cbn [fst snd] in Hq, Hk, Hv'. rewrite Hq, Hk, Hv'.
  unfold projections_of, key_seq_length_of.
  destruct (String.eqb attn_type "context"); repeat split.
Qed.


(** X9.  Nothing checks that the head count divides the hidden size: after a
    valid call the merged heads have width [heads * (hidden / heads)], that
    is [hidden - hidden rem heads] (lines 72 and 205), and the output has
    width [hidden]. *)
Theorem merged_heads_width (self : MultiHeadedAttention F) (st : State F)
    (key_tensor value_tensor query_tensor attention_mask : loc)
    (attn_type : string) (output : loc) (pre_layernorm post_add : bool) :
  valid_call self st key_tensor value_tensor query_tensor attention_mask
    attn_type = true ->
  exists st',
    MultiHeadedAttention_call self key_tensor value_tensor query_tensor
      attention_mask attn_type output pre_layernorm post_add st
    = (st', Returns tt) /\
    let query := read st (Caller query_tensor) in
    let hidden_size := shape_at query 2 in
    let heads := num_attention_heads_ self in
    shape (read st' (Scratch self_attr_out_tmp (device_ctx query)))
    = [shape_at query 0; shape_at query 1;
       hidden_size - Z.rem hidden_size heads] /\
    shape (read st' (Caller output))
    = [shape_at query 0; shape_at query 1; hidden_size].
Proof.
  intros Hv.
  destruct (wp_elim _ _ _ (call_spec self st key_tensor value_tensor query_tensor
                             attention_mask attn_type output pre_layernorm
                             post_add Hv))
    as (st' & [] & Hrun & _ & _ & Hun & Hout).
  exists st'. split; [exact Hrun|]. cbv zeta in *.
  rewrite Hout, Hun. split; [|reflexivity].
  cbn [shape with_data reshaped]. split_valid Hv.
  repeat f_equal.
  pose proof (Z.quot_rem' (shape_at (read st (Caller query_tensor)) 2)
                (num_attention_heads_ self)).
  lia.
Qed.

(** X10.  When the query object is passed as the output and the residual is
    asked for, line 216 adds the projection to itself: the call returns and
    the tensor holds [AddInputBias(projected, projected, dense_bias)], line
    211 having overwritten the query the caller passed. *)
Theorem residual_on_aliased_output (self : MultiHeadedAttention F) (st : State F)
    (key_tensor value_tensor query_tensor attention_mask : loc)
    (attn_type : string) (pre_layernorm : bool) :
  valid_call self st key_tensor value_tensor query_tensor attention_mask
    attn_type = true ->
  exists st',
    MultiHeadedAttention_call self key_tensor value_tensor query_tensor
      attention_mask attn_type query_tensor pre_layernorm true st
    = (st', Returns tt) /\
    let query := read st (Caller query_tensor) in
    let devctx := device_ctx query in
    let unshaped := read st' (Scratch self_attr_out_tmp devctx) in
    let out := reshaped query
                 [shape_at query 0; shape_at query 1; shape_at query 2]
                 (device_type devctx) (device_id devctx) in
    let projected := with_data out
                       (MatMul unshaped false (dense_weight_ self) false fone
                          out fzero) in
    data (read st' (Caller query_tensor))
    = AddInputBias projected projected (dense_bias_ self) projected.
Proof.
  intros Hv.
  destruct (wp_elim _ _ _ (call_spec self st key_tensor value_tensor query_tensor
                             attention_mask attn_type query_tensor pre_layernorm
                             true Hv))
    as (st' & [] & Hrun & _ & _ & _ & Hout).
  exists st'. split; [exact Hrun|]. cbv zeta in *. rewrite Hout.
  destruct (decide (query_tensor = query_tensor)) as [_|Hne];
    [reflexivity | destruct (Hne eq_refl)].
Qed.

(** X11.  A call, whether it returns or throws, leaves every scratch entry
    outside its footprint as it was, an absent one absent: "context" names
    its six projection tensors under the device contexts of query, value and
    key, "self" its two under the query's, both the three tensors of the
    common continuation under the query's, and another variant none. *)
Theorem scratch_outside_footprint_kept (self : MultiHeadedAttention F)
    (st : State F)
    (key_tensor value_tensor query_tensor attention_mask : loc)
    (attn_type : string) (output : loc) (pre_layernorm post_add : bool)
    (s : Slot) (c : DLContext) :
  in_footprint attn_type (read st (Caller key_tensor))
    (read st (Caller value_tensor)) (read st (Caller query_tensor)) s c = false ->
  arena (fst (MultiHeadedAttention_call self key_tensor value_tensor
                query_tensor attention_mask attn_type output pre_layernorm
                post_add st)) !! (s, c)
  = arena st !! (s, c).
Proof.
  intros Hfp.
  change (ends (MultiHeadedAttention_call self key_tensor value_tensor
                  query_tensor attention_mask attn_type output pre_layernorm
                  post_add)
               (fun _ st' => entry_kept st (s, c) st') st).
  unfold MultiHeadedAttention_call.
  repeat lazymatch goal with
         | |- ends (mbind _ (derive_key_seq_length _ _ _)) _ _ => fail
         | |- _ => ends_step
         end.
  2-6: reflexivity.
  destruct (known_variant attn_type) eqn:Hk.
  2: { rewrite derive_key_seq_length_unknown by exact Hk.
       apply ends_bind, ends_throw. reflexivity. }
  rewrite derive_key_seq_length_known by exact Hk.
  apply ends_bind, ends_ret. unfold derive_size_per_head.
  destruct (num_attention_heads_ self =? 0).
  { apply ends_bind, ends_throw. reflexivity. }
  apply ends_bind, ends_ret. apply ends_bind.
  eapply ends_of_preserves;
    [ apply project_footprint; exact Hfp | split; reflexivity | ].
  intros [[[q_ptr k_ptr] v_ptr]|e] st1 [_ Hkept]; [|exact Hkept].
  eapply ends_of_preserves;
    [ eapply (attend_footprint self st1); [exact Hk | exact Hfp]
    | reflexivity | ].
  intros _ st2 Hkept2. unfold entry_kept in *. rewrite Hkept2. exact Hkept.
Qed.

End Further.

(** ** The further properties on concrete calls *)

Section FurtherConcrete.
Import Exact Example Cases.

Lemma tabulate_ext (n : Z) (f g : Z -> Q) :
  (forall x, f x = g x) -> tabulate n f = tabulate n g.
Proof. intros Hfg. unfold tabulate. apply map_ext. intros i. apply Hfg. Qed.

(** The exact kernels overwrite their output tensor. *)
Lemma exact_kernels_overwrite : overwriting_kernels (F := Q).
Proof.
  split.
  - intros A ta B tb alpha o o' _. cbn [MatMul Q_Kernels fzero Q_Scalar].
    unfold matmul. cbv zeta. apply tabulate_ext. intros x.
    rewrite !qmul_zero. reflexivity.
  - intros A ta B tb alpha o o' _. cbn [BatchMatMul Q_Kernels fzero Q_Scalar].
    unfold batch_matmul. cbv zeta. apply tabulate_ext. intros x.
    rewrite !qmul_zero. reflexivity.
  - intros input bias o o' _. reflexivity.
  - intros input bias o o' [Hs _].
    cbn [SplitAddBiasTransposeForScore Q_Kernels].
    unfold split_add_bias_transpose_for_score, dim. rewrite Hs. reflexivity.
  - intros input o o' _. reflexivity.
  - intros src o o' _. reflexivity.
Qed.

(** X1 on the one-cell "self" call with both flags set. *)
Lemma returning_call_was_valid_witness :
  snd (MultiHeadedAttention_call attention key_loc value_loc query_loc
         mask_loc "self" output_loc true true st0)
  = Returns tt /\
  valid_call attention st0 key_loc value_loc query_loc mask_loc "self" = true /\
  n_dim (read st0 (Caller query_loc)) = 3 /\
  0 < shape_at (read st0 (Caller query_loc)) 2 ÷ num_attention_heads_ attention.
Proof.
  assert (Hrun : snd (MultiHeadedAttention_call attention key_loc value_loc
                        query_loc mask_loc "self" output_loc true true st0)
                 = Returns tt)
    by reflexivity.
  split; [exact Hrun|].
  pose proof (returning_call_was_valid attention st0 key_loc value_loc
                query_loc mask_loc "self" output_loc true true Hrun) as Hp.
  cbv zeta in Hp. split; [apply Hp|]. split; apply Hp.
Defined.

(** X2 on a key of rank 2 with the unknown variant "cross": the rank check
    comes first. *)
Lemma first_failing_check_decides_witness :
  first_failure st_key_rank2 key_loc value_loc query_loc mask_loc "cross"
  = Some (ShapeError msg_key_rank) /\
  run st_key_rank2 "cross" output_loc false false
  = (st_key_rank2, Throws (ShapeError msg_key_rank)).
Proof.
  split; [reflexivity|].
  apply (first_failing_check_decides attention st_key_rank2 key_loc value_loc
           query_loc mask_loc "cross" output_loc false false).
  reflexivity.
Defined.

(** X3 on the one-cell operands with two heads: the head size is 0, the
    call throws at the [Reshape] of line 161 with the fused projection
    already in its scratch tensor, and the caller's tensors are as before. *)
Lemma invalid_call_keeps_caller_tensors_witness :
  let r := MultiHeadedAttention_call attention_two_heads key_loc value_loc
             query_loc mask_loc "self" output_loc false false st0 in
  valid_call attention_two_heads st0 key_loc value_loc query_loc mask_loc "self"
  = false /\
  arena st0 !! (qkv_out1_temp, cpu0) = None /\
  arena (fst r) !! (qkv_out1_temp, cpu0)
  = Some (mkTensor [3; 1; 1; 1] cpu0 (qs [5; 5; 5])) /\
  heap (fst r) = heap st0.
Proof.
  intros r. do 3 (split; [reflexivity|]).
  exact (invalid_call_keeps_caller_tensors attention_two_heads st0 key_loc
           value_loc query_loc mask_loc "self" output_loc false false eq_refl).
Defined.

(** X4 on the one-cell "context" call with both flags set. *)
Lemma call_computes_flow_witness :
  overwriting_kernels (F := Q) /\
  valid_call attention st0 key_loc value_loc query_loc mask_loc "context" = true /\
  output_loc ≠ query_loc /\
  exists st',
    run st0 "context" output_loc true true = (st', Returns tt) /\
    read st' (Caller output_loc)
    = attention_flow attention (cell cpu0 5) (cell cpu0 5) (cell cpu0 5)
        (mkTensor [1; 1; 1; 1] cpu0 [0%Q]) "context" true true.
Proof.
  split; [exact exact_kernels_overwrite|]. split; [reflexivity|].
  split; [discriminate|].
  refine (call_computes_flow attention st0 key_loc value_loc query_loc mask_loc
            "context" output_loc true true exact_kernels_overwrite eq_refl _).
  intros _. discriminate.
Defined.

(** X5 on the one-cell "self" call with the residual. *)
Lemma repeated_call_same_output_witness :
  valid_call attention st0 key_loc value_loc query_loc mask_loc "self" = true /\
  exists st1 st2,
    run st0 "self" output_loc false true = (st1, Returns tt) /\
    run st1 "self" output_loc false true = (st2, Returns tt) /\
    read st2 (Caller output_loc) = read st1 (Caller output_loc).
Proof.
  split; [reflexivity|].
  refine (repeated_call_same_output attention st0 key_loc value_loc query_loc
            mask_loc "self" output_loc false true exact_kernels_overwrite
            eq_refl _ _ _ _); discriminate.
Defined.

(** X6 on the one-cell "self" call, with key and value 5 and with key 7 and
    value 9. *)
Lemma self_ignores_key_and_value_witness :
  read st0 (Caller key_loc) = cell cpu0 5 /\
  read st_other_key_value (Caller key_loc) = cell cpu0 7 /\
  read st_other_key_value (Caller value_loc) = cell cpu0 9 /\
  exists st_a' st_b',
    run st0 "self" output_loc false false = (st_a', Returns tt) /\
    run st_other_key_value "self" output_loc false false = (st_b', Returns tt) /\
    read st_a' (Caller output_loc) = read st_b' (Caller output_loc).
Proof.
  do 3 (split; [reflexivity|]).
  exact (self_ignores_key_and_value attention st0 st_other_key_value key_loc
           value_loc key_loc value_loc query_loc mask_loc output_loc false false
           eq_refl eq_refl eq_refl eq_refl eq_refl eq_refl).
Defined.

(** X7 on two tokens and two heads. *)
Lemma projections_head_major_witness :
  valid_call attention2 st2 key_loc value_loc query_loc mask_loc "self" = true /\
  exists st',
    MultiHeadedAttention_call attention2 key_loc value_loc query_loc mask_loc
      "self" output_loc false false st2
    = (st', Returns tt) /\
    shape (slice (read st' (Scratch qkv_out2_temp cpu0)) 0) = [1; 2; 2; 1] /\
    shape (slice (read st' (Scratch qkv_out2_temp cpu0)) 1) = [1; 2; 2; 1] /\
    shape (slice (read st' (Scratch qkv_out2_temp cpu0)) 2) = [1; 2; 2; 1].
Proof.
  split; [reflexivity|].
  exact (projections_head_major attention2 st2 key_loc value_loc query_loc
           mask_loc "self" output_loc false false eq_refl).
Defined.


(** X9 on hidden size 3 and two heads: the merged heads have width 2, the
    output width 3. *)
Lemma merged_heads_width_witness :
  valid_call attention2 st_hidden3 key_loc value_loc query_loc mask_loc "self"
  = true /\
  exists st',
    MultiHeadedAttention_call attention2 key_loc value_loc query_loc mask_loc
      "self" output_loc false false st_hidden3
    = (st', Returns tt) /\
    shape (read st' (Scratch self_attr_out_tmp cpu0)) = [1; 1; 2] /\
    shape (read st' (Caller output_loc)) = [1; 1; 3].
Proof.
  split; [reflexivity|].
  exact (merged_heads_width attention2 st_hidden3 key_loc value_loc query_loc
           mask_loc "self" output_loc false false eq_refl).
Defined.

(** X10 on the one-cell "self" call. *)
Lemma residual_on_aliased_output_witness :
  valid_call attention st0 key_loc value_loc query_loc mask_loc "self" = true /\
  exists st',
    run st0 "self" query_loc false true = (st', Returns tt) /\
    let projected :=
      mkTensor [1; 1; 1] cpu0
        (MatMul (read st' (Scratch self_attr_out_tmp cpu0)) false
           (dense_weight_ attention) false fone (cell cpu0 5) fzero) in
    data (read st' (Caller query_loc))
    = AddInputBias projected projected (dense_bias_ attention) projected.
Proof.
  split; [reflexivity|].
  exact (residual_on_aliased_output attention st0 key_loc value_loc query_loc
           mask_loc "self" false eq_refl).
Defined.

(** The aliased residual by value: the projection 5 * 2 counted twice plus
    the bias 1, where a separate output holds 5 * 2 + 5 + 1. *)
Lemma aliased_residual_values :
  data (read (fst (run st0 "self" query_loc false true)) (Caller query_loc))
  = [21%Q] /\
  data (read (fst (run st0 "self" output_loc false true)) (Caller output_loc))
  = [16%Q].
Proof. split; reflexivity. Qed.

(** X11 on a "self" call from a state that caches a tensor of the "context"
    branch. *)
Lemma scratch_outside_footprint_kept_witness :
  in_footprint "self" (read st_cached (Caller key_loc))
    (read st_cached (Caller value_loc))
    (read st_cached (Caller query_loc)) q_out2_temp cpu0 = false /\
  arena st_cached !! (q_out2_temp, cpu0) = Some (cell4 5) /\
  arena (fst (run st_cached "self" output_loc false false))
    !! (q_out2_temp, cpu0)
  = arena st_cached !! (q_out2_temp, cpu0).
Proof.
  split; [reflexivity|]. split; [reflexivity|].
  exact (scratch_outside_footprint_kept attention st_cached key_loc
           value_loc query_loc mask_loc "self" output_loc false false
           q_out2_temp cpu0 eq_refl).
Defined.

End FurtherConcrete.
